(** * Open-AutoGLM desktop front end ([ui.py]): voice and typed tasks

    A shallow embedding of the handlers of [ui.py] -- [add_log],
    [transcribe_audio], [run_agent_task], [send_message], [audio_callback]
    and [on_voice_click] -- over an explicit program state, together with
    the properties of the log, of the calls the agent receives and of the
    requests sent to the transcription service.

    - Python strings are sequences of Unicode code points; [strip] uses
      the white space table of [str.isspace].
    - An exception is an explicit result.  The handlers live in a monad of
      state and exceptions in which the state survives a raise, as the
      mutations of a Python [try] block survive it.
    - The objects shared by the closures of [main] ([state],
      [recording_data], [input_field], [log_area], [voice_button]) are the
      fields of one record.  The log is the list of the [ft.Text] controls
      appended by [add_log].  [add_log] prints the line before it appends
      it, and [print] raises when the text cannot be encoded: standard
      output is taken as a UTF-8 stream with the strict error handler, on
      which the lone surrogates are the characters that do not encode.
      [page.update()] is not modelled.  The visibility of the controls,
      the icons and the pulse animation are kept apart, in the record of
      the widgets, with the handlers that change them.
    - What the microphone, the file system, the transcription service and
      the agent answer is an input of the handler that asks.  The texts of
      the exceptions of [sounddevice], [open], [requests] and [json] are
      texts that encode; the texts the agent and the service hand over
      are any texts.
    - A coroutine suspended at an [await] is an entry of the list [coros];
      one turn of the event loop runs one handler, or one coroutine from
      its [await] to the next.  The code between two awaits runs as one
      turn: the event loop of asyncio does not interleave it.  A call
      handed to [asyncio.to_thread] reaches the agent, or the service, in
      a turn of its own, when the worker thread runs. *)

From stdpp Require Import base option list.
From Stdlib Require Import ZArith NArith String Ascii.
From Stdlib Require DecimalString HexadecimalString.

Local Open Scope Z_scope.

(** ** Python strings *)

Module Py.

(** A [str] is a sequence of code points. *)
Definition str := list N.

(** An ASCII literal as a [str]. *)
Definition lit (s : string) : str := map N_of_ascii (list_ascii_of_string s).

(** [str.isspace] on one code point: the white space table of CPython. *)
Definition isspace (c : N) : bool :=
  ((9 <=? c) && (c <=? 13) || (28 <=? c) && (c <=? 32)
   || (c =? 133) || (c =? 160) || (c =? 5760)
   || (8192 <=? c) && (c <=? 8202)
   || (c =? 8232) || (c =? 8233) || (c =? 8239) || (c =? 8287)
   || (c =? 12288))%N.

Fixpoint lstrip (s : str) : str :=
  match s with
  | c :: s' => if isspace c then lstrip s' else s
  | [] => []
  end.

Definition rstrip (s : str) : str := rev (lstrip (rev s)).

(** [s.strip()] *)
Definition strip (s : str) : str := rstrip (lstrip s).

(** Truth value of a [str]: [if s:] holds for the non-empty strings. *)
Definition truthy (s : str) : bool :=
  match s with [] => false | _ :: _ => true end.

(** Truth value of an optional [str] ([None] is false). *)
Definition truthy_opt (o : option str) : bool :=
  match o with Some s => truthy s | None => false end.

Fixpoint startswith (s p : str) : bool :=
  match p, s with
  | [], _ => true
  | c :: p', d :: s' => (c =? d)%N && startswith s' p'
  | _ :: _, [] => false
  end.

(** [str(x)] of an optional [str], as an f-string renders it. *)
Definition format_opt (o : option str) : str :=
  match o with Some s => s | None => lit "None" end.

(** [os.path.join(dir, name)] on a POSIX system. *)
Definition path_join (dir name : str) : str :=
  if startswith name (lit "/") then name
  else match last dir with
       | None => name
       | Some c => if (c =? 47)%N then dir ++ name else dir ++ lit "/" ++ name
       end.

(** What a call returns: a value, or a raised [Exception], kept as the
    text [str(e)] the handlers print. *)
Inductive res (A : Type) : Type :=
| Ok (a : A)
| Raise (e : str).
Global Arguments Ok {A} a.
Global Arguments Raise {A} e.

(** The code points UTF-8 does not encode: the surrogates. *)
Definition is_surrogate (c : N) : bool := ((55296 <=? c) && (c <=? 57343))%N.

(** The text encodes: it holds no surrogate. *)
Definition encodable (s : str) : bool :=
  forallb (fun c => negb (is_surrogate c)) s.

(** The number of surrogates at the head of a text. *)
Fixpoint surrogate_run (s : str) : N :=
  match s with
  | c :: s' => if is_surrogate c then N.succ (surrogate_run s') else 0%N
  | [] => 0%N
  end.

Definition decimal (n : N) : string :=
  DecimalString.NilZero.string_of_uint (N.to_uint n).

Definition hexadecimal (n : N) : string :=
  HexadecimalString.NilZero.string_of_uint (N.to_hex_uint n).

(** [str(e)] of the [UnicodeEncodeError] of the codec: the character [c]
    at [start], or the characters from [start] to [start + run - 1]. *)
Definition unicode_encode_error (start c run : N) : str :=
  lit (if (run =? 1)%N then
         "'utf-8' codec can't encode character '\u" ++ hexadecimal c
           ++ "' in position " ++ decimal start ++ ": surrogates not allowed"
       else
         "'utf-8' codec can't encode characters in position " ++ decimal start
           ++ "-" ++ decimal (start + run - 1) ++ ": surrogates not allowed")%string.

(** [s.encode("utf-8")], for its exception: the encoder stops at the first
    run of surrogates; [pos] is the position of the head of [s]. *)
Fixpoint utf8_strict_from (pos : N) (s : str) : res unit :=
  match s with
  | [] => Ok tt
  | c :: s' =>
    if is_surrogate c then Raise (unicode_encode_error pos c (surrogate_run s))
    else utf8_strict_from (N.succ pos) s'
  end.

Definition utf8_strict (s : str) : res unit := utf8_strict_from 0 s.

End Py.

Arguments Py.strip : simpl never.
Arguments Py.lit : simpl never.
Arguments Py.unicode_encode_error : simpl never.
Arguments Py.utf8_strict : simpl never.

Abbreviation pystr := Py.str.
Abbreviation Ok := Py.Ok.
Abbreviation Raise := Py.Raise.

(** ** The log area *)

Inductive Color := WHITE | GREEN_400 | GREY_400 | YELLOW_400 | RED_400 | BLUE_200.
Inductive FontWeight := NORMAL | BOLD.

(** [ft.Text(message, color=color, weight=weight)], a line of [log_area]. *)
Record Text := mkText { value : pystr; color : Color; weight : FontWeight }.

(** ** Collaborators whose code is outside [ui.py] *)

(** Modelled from the spec: the [StepResult] of [phone_agent], whose
    declaration is not part of the sources; section 4.3 gives it as
    [{ thinking: string, action: string, finished: boolean,
       message: optional string }]. *)
Record StepResult := mkStepResult {
  thinking : pystr;
  action : pystr;
  finished : bool;
  message : option pystr
}.

(** The calls the [PhoneAgent] object receives from [ui.py]. *)
Inductive AgentCall :=
| CallReset
| CallStep (task : option pystr).

(** Modelled from the spec: the response of the transcription service,
    whose schema is not part of the sources; section 6 gives it as
    "structured text with a textual field".  [response.json()] either
    raises, or yields an object whose member ["text"], when present, is a
    string, or yields a JSON value that is no object, on which [.get]
    raises. *)
Inductive Body :=
| NotJson (err : pystr)
| JsonObject (text : option pystr)
| JsonNotObject (err : pystr).

(** A response: its status, the text of the [HTTPError] that
    [raise_for_status] raises when the status is an error, and its body. *)
Record Response := mkResponse { status_code : Z; http_error : pystr; body : Body }.

(** A request to the transcription service: the one [transcribe_audio]
    hands to [requests.post], or one the library sends after it. *)
Record Request := mkRequest {
  req_url : pystr;
  req_authorization : pystr;
  req_file : pystr;
  req_model : pystr
}.

(** The text of the exception a library call raises, if it raises one,
    is a text that encodes. *)
Definition res_printable {A} (r : Py.res A) : bool :=
  match r with Ok _ => true | Raise e => Py.encodable e end.

(** The texts of the exceptions a response gives rise to, in
    [raise_for_status] and in [json], are texts that encode. *)
Definition response_printable (r : Response) : bool :=
  Py.encodable (http_error r)
  && match body r with
     | NotJson err | JsonNotObject err => Py.encodable err
     | JsonObject _ => true
     end.

Definition answer_printable (a : Py.res Response) : bool :=
  match a with Ok r => response_printable r | Raise e => Py.encodable e end.

(** What the world answers to the calls of [transcribe_audio]:
    [os.getenv], [open] and [requests.post].  The answer of
    [requests.post] is the one the call returns or raises in the end;
    [redirects] are the requests the library sends after the first when
    the service redirects it.  The exception texts of [open], [requests]
    and [json] encode. *)
Record AsrEnv := mkAsrEnv {
  getenv_api_key : option pystr;
  open_rb : pystr -> Py.res unit;
  requests_post : Request -> Py.res Response;
  redirects : Request -> list Request;
  asr_printable :
    forall (p : pystr) (req : Request),
      res_printable (open_rb p) && answer_printable (requests_post req) = true
}.

(** What the world answers to the calls of [on_voice_click]:
    [sd.query_devices] with the default sample rate, the constructor and
    the methods of [sd.InputStream], [tempfile.gettempdir], and
    [np.concatenate] followed by [scipy.io.wavfile.write].  The exception
    texts of these libraries encode. *)
Record DeviceEnv := mkDeviceEnv {
  query_devices : Py.res Z;
  input_stream : Py.res unit;
  stream_start : Py.res unit;
  stream_stop : Py.res unit;
  stream_close : Py.res unit;
  gettempdir : pystr;
  write_wav : Py.res unit;
  device_printable :
    res_printable query_devices && res_printable input_stream
    && res_printable stream_start && res_printable stream_stop
    && res_printable stream_close && res_printable write_wav = true
}.

(** One chunk of samples handed to [audio_callback]. *)
Definition Chunk := list Z.

(** ** Suspended coroutines *)

(** A coroutine of [ui.py] between two runs on the event loop. *)
Inductive Coroutine :=
| TaskScheduled (task : pystr)
    (* page.run_task(run_agent_task, task), not started yet *)
| TaskAwaitStep (task : pystr) (arg : option pystr)
    (* run_agent_task at  await asyncio.to_thread(agent.step, task)  with
       arg = Some task, or at  await asyncio.to_thread(agent.step)  with
       arg = None; the worker thread has not run yet *)
| TaskStepped (task : pystr) (outcome : Py.res StepResult)
    (* run_agent_task at the same await, the worker thread has finished *)
| VoiceAwaitTranscribe (temp_path : pystr)
    (* on_voice_click at  await asyncio.to_thread(transcribe_audio, temp_path),
       the worker thread not finished *)
| VoiceTranscribed (outcome : Py.res pystr)
    (* on_voice_click at the same await, the worker thread has finished *).

(** ** Program state *)

Record State := mkState {
  is_recording : bool              (* state["is_recording"] *);
  samplerate : Z                   (* state["samplerate"] *);
  has_stream : bool                (* "stream" in state *);
  recording_data : list Chunk      (* recording_data *);
  input_value : pystr              (* input_field.value *);
  voice_disabled : bool            (* voice_button.disabled *);
  log : list Text                  (* log_area.controls *);
  agent_calls : list AgentCall     (* calls the agent has received, oldest first *);
  asr_requests : list Request      (* calls of requests.post, by their request, oldest first *);
  http_requests : list Request     (* requests that left the process, oldest first *);
  coros : list Coroutine           (* coroutines waiting on the event loop *)
}.

(** The state [main] builds before the first event. *)
Definition initial : State :=
  mkState false 44100 false [] [] false [] [] [] [] [].

Definition set_is_recording (b : bool) (s : State) : State :=
  mkState b (samplerate s) (has_stream s) (recording_data s) (input_value s)
          (voice_disabled s) (log s) (agent_calls s) (asr_requests s)
          (http_requests s) (coros s).
Definition set_samplerate (r : Z) (s : State) : State :=
  mkState (is_recording s) r (has_stream s) (recording_data s) (input_value s)
          (voice_disabled s) (log s) (agent_calls s) (asr_requests s)
          (http_requests s) (coros s).
Definition set_has_stream (b : bool) (s : State) : State :=
  mkState (is_recording s) (samplerate s) b (recording_data s) (input_value s)
          (voice_disabled s) (log s) (agent_calls s) (asr_requests s)
          (http_requests s) (coros s).
Definition set_recording_data (d : list Chunk) (s : State) : State :=
  mkState (is_recording s) (samplerate s) (has_stream s) d (input_value s)
          (voice_disabled s) (log s) (agent_calls s) (asr_requests s)
          (http_requests s) (coros s).
Definition set_input_value (v : pystr) (s : State) : State :=
  mkState (is_recording s) (samplerate s) (has_stream s) (recording_data s) v
          (voice_disabled s) (log s) (agent_calls s) (asr_requests s)
          (http_requests s) (coros s).
Definition set_voice_disabled (b : bool) (s : State) : State :=
  mkState (is_recording s) (samplerate s) (has_stream s) (recording_data s)
          (input_value s) b (log s) (agent_calls s) (asr_requests s)
          (http_requests s) (coros s).
Definition set_log (l : list Text) (s : State) : State :=
  mkState (is_recording s) (samplerate s) (has_stream s) (recording_data s)
          (input_value s) (voice_disabled s) l (agent_calls s)
          (asr_requests s) (http_requests s) (coros s).
Definition set_agent_calls (c : list AgentCall) (s : State) : State :=
  mkState (is_recording s) (samplerate s) (has_stream s) (recording_data s)
          (input_value s) (voice_disabled s) (log s) c (asr_requests s)
          (http_requests s) (coros s).
Definition set_asr_requests (r : list Request) (s : State) : State :=
  mkState (is_recording s) (samplerate s) (has_stream s) (recording_data s)
          (input_value s) (voice_disabled s) (log s) (agent_calls s) r
          (http_requests s) (coros s).
Definition set_http_requests (r : list Request) (s : State) : State :=
  mkState (is_recording s) (samplerate s) (has_stream s) (recording_data s)
          (input_value s) (voice_disabled s) (log s) (agent_calls s)
          (asr_requests s) r (coros s).
Definition set_coros (c : list Coroutine) (s : State) : State :=
  mkState (is_recording s) (samplerate s) (has_stream s) (recording_data s)
          (input_value s) (voice_disabled s) (log s) (agent_calls s)
          (asr_requests s) (http_requests s) c.

(** ** The monad of the handlers: state, and exceptions that keep the state *)

Definition M (A : Type) : Type := State -> Py.res A * State.

Definition ret {A} (a : A) : M A := fun s => (Ok a, s).

Definition bind {A B} (m : M A) (k : A -> M B) : M B :=
  fun s => match m s with
           | (Ok a, s') => k a s'
           | (Raise e, s') => (Raise e, s')
           end.

Notation "'let*' x := m 'in' k" := (bind m (fun x => k))
  (at level 10, x name, m at level 100, k at level 200, only parsing).
Notation "m ;; k" := (bind m (fun _ => k))
  (at level 100, k at level 200, right associativity, only parsing).

(** [try: body  except Exception as e: handler(e)] *)
Definition try_except {A} (body : M A) (handler : pystr -> M A) : M A :=
  fun s => match body s with
           | (Ok a, s') => (Ok a, s')
           | (Raise e, s') => handler e s'
           end.

(** The outcome of an external call enters the handler. *)
Definition call {A} (r : Py.res A) : M A := fun s => (r, s).

Definition get {A} (f : State -> A) : M A := fun s => (Ok (f s), s).
Definition modify (f : State -> State) : M unit := fun s => (Ok tt, f s).

(** ** The handlers of [ui.py] *)

(** The literals of the log lines. *)
Definition THOUGHT_BALLOON : pystr := [128173%N].
Definition DIRECT_HIT : pystr := [127919%N].
Definition CHECK_MARK : pystr := [9989%N].
Definition CROSS_MARK : pystr := [10060%N].
Definition MICROPHONE : pystr := [127908%N].
Definition HOURGLASS : pystr := [9203%N].
Definition SPARKLES : pystr := [10024%N].

(** [print(text)] on standard output, a UTF-8 stream with the strict
    error handler: it raises [UnicodeEncodeError] when the text does not
    encode. *)
Definition print (text : pystr) : M unit := call (Py.utf8_strict text).

(** [add_log(message, color, weight)]: prints the line, then appends it to
    [log_area]. *)
Definition add_log (msg : pystr) (c : Color) (w : FontWeight) : M unit :=
  print (Py.lit "UI LOG: " ++ msg);;
  modify (fun s => set_log (log s ++ [mkText msg c w]) s).

(** [requests.post(url, headers=..., files=..., data=...)]: one call, by
    which the request leaves the process, followed by the requests the
    library sends when it is redirected; then the last answer comes
    back. *)
Definition post (env : AsrEnv) (req : Request) : M Response :=
  modify (fun s => set_asr_requests (asr_requests s ++ [req]) s);;
  modify (fun s => set_http_requests (http_requests s ++ req :: redirects env req) s);;
  call (requests_post env req).

(** The state once [requests.post] has been called with [req]. *)
Definition posted (env : AsrEnv) (req : Request) (s : State) : State :=
  set_http_requests (http_requests s ++ req :: redirects env req)
    (set_asr_requests (asr_requests s ++ [req]) s).

(** [response.raise_for_status()] *)
Definition raise_for_status (r : Response) : M unit :=
  if (400 <=? status_code r) && (status_code r <? 600)
  then call (Raise (http_error r))
  else ret tt.

(** [response.json().get("text", "")] *)
Definition json_get_text (r : Response) : M pystr :=
  match body r with
  | NotJson err => call (Raise err)
  | JsonNotObject err => call (Raise err)
  | JsonObject (Some text) => ret text
  | JsonObject None => ret []
  end.

(** [if file_path.startswith("file://"): file_path = file_path[7:]] *)
Definition local_path (file_path : pystr) : pystr :=
  if Py.startswith file_path (Py.lit "file://") then drop 7 file_path
  else file_path.

(** The request of [transcribe_audio]: [url], [headers] with the key of the
    environment, the opened file and the model. *)
Definition asr_request (env : AsrEnv) (file_path : pystr) : Request :=
  let url := Py.lit "https://open.bigmodel.cn/api/paas/v4/audio/transcriptions" in
  let api_key := getenv_api_key env in
  let headers := Py.lit "Bearer " ++ Py.format_opt api_key in
  mkRequest url headers file_path (Py.lit "glm-asr-2512").

(** [transcribe_audio(file_path)] *)
Definition transcribe_audio (env : AsrEnv) (file_path : option pystr) : M pystr :=
  match file_path with
  | None => ret []
  | Some file_path =>
    if negb (Py.truthy file_path) then ret []
    else
      try_except
        (let file_path := local_path file_path in
         call (open_rb env file_path);;
         let* response := post env (asr_request env file_path) in
         raise_for_status response;;
         json_get_text response)
        (fun e =>
           add_log (Py.lit "ASR Error: " ++ e) RED_400 NORMAL;;
           ret [])
  end.

(** [agent.reset()], called on the event loop: the agent receives the
    call at once, and answers. *)
Definition agent_reset (outcome : Py.res unit) : M unit :=
  modify (fun s => set_agent_calls (agent_calls s ++ [CallReset]) s);;
  call outcome.

(** [agent.step(task)] or [agent.step()] as the worker thread of
    [asyncio.to_thread] runs it: the agent receives the call now. *)
Definition agent_step (arg : option pystr) : M unit :=
  modify (fun s => set_agent_calls (agent_calls s ++ [CallStep arg]) s).

(** The [except Exception as e] clause of [run_agent_task]. *)
Definition run_agent_task_except (e : pystr) : M (option Coroutine) :=
  add_log (CROSS_MARK ++ Py.lit " Error: " ++ e) RED_400 NORMAL;;
  ret None.

(** [run_agent_task(task)] from its first line to the first [await],
    where [agent.step] with the task is handed to a worker thread.
    A segment of a coroutine returns the coroutine as it is suspended, or
    [None] when it has returned. *)
Definition run_agent_task (reset : Py.res unit) (task : pystr) : M (option Coroutine) :=
  add_log (Py.lit "Starting: " ++ task) GREEN_400 NORMAL;;
  try_except
    (agent_reset reset;;
     add_log (Py.lit "Thinking...") GREY_400 NORMAL;;
     ret (Some (TaskAwaitStep task (Some task))))
    run_agent_task_except.

(** [run_agent_task] from an [await] of [agent.step], with what the worker
    thread returned or raised, to the next one, where [agent.step()] is
    handed to a worker thread: both awaits continue at the head of the
    [while True] body. *)
Definition run_agent_task_resume (task : pystr) (outcome : Py.res StepResult)
  : M (option Coroutine) :=
  try_except
    (let* step_result := call outcome in
     add_log (THOUGHT_BALLOON ++ Py.lit " " ++ thinking step_result) GREY_400 NORMAL;;
     add_log (DIRECT_HIT ++ Py.lit " " ++ action step_result) YELLOW_400 NORMAL;;
     if finished step_result then
       add_log (CHECK_MARK ++ Py.lit " " ++ Py.format_opt (message step_result))
               GREEN_400 BOLD;;
       ret None
     else
       ret (Some (TaskAwaitStep task None)))
    run_agent_task_except.

(** [page.run_task(coroutine, ...)]: the coroutine is queued on the event
    loop. *)
Definition run_task (c : Coroutine) : M unit :=
  modify (fun s => set_coros (coros s ++ [c]) s).

(** [send_message(e)] *)
Definition send_message : M unit :=
  let* v := get input_value in
  let task := Py.strip v in
  if negb (Py.truthy task) then ret tt
  else
    modify (set_input_value []);;
    add_log (Py.lit "You: " ++ task) BLUE_200 BOLD;;
    run_task (TaskScheduled task).

(** [audio_callback(indata, frames, time, status)] *)
Definition audio_callback (indata : Chunk) : M unit :=
  modify (fun s => set_recording_data (recording_data s ++ [indata]) s).

(** The [except Exception as ex] clause of the first branch of
    [on_voice_click]. *)
Definition start_except (ex : pystr) : M (option Coroutine) :=
  add_log (CROSS_MARK ++ Py.lit " Error: " ++ ex) RED_400 NORMAL;;
  modify (set_is_recording false);;
  ret None.

(** The [except Exception as ex] clause of the second branch. *)
Definition stop_except (ex : pystr) : M (option Coroutine) :=
  add_log (CROSS_MARK ++ Py.lit " Error: " ++ ex) RED_400 NORMAL;;
  modify (set_is_recording false);;
  modify (set_voice_disabled false);;
  ret None.

(** [on_voice_click(e)] from its first line to its [await], or to its end
    when it does not reach the [await]. *)
Definition on_voice_click (env : DeviceEnv) : M (option Coroutine) :=
  let* recording := get is_recording in
  if negb recording then
    try_except
      (modify (set_recording_data []);;
       modify (set_is_recording true);;
       let* rate := call (query_devices env) in
       modify (set_samplerate rate);;
       call (input_stream env);;
       modify (set_has_stream true);;
       call (stream_start env);;
       add_log (MICROPHONE ++ Py.lit " Listening...") BLUE_200 NORMAL;;
       ret None)
      start_except
  else
    try_except
      (modify (set_voice_disabled true);;
       let* stream := get has_stream in
       (if stream then call (stream_stop env);; call (stream_close env)
        else ret tt);;
       modify (set_is_recording false);;
       modify (set_voice_disabled false);;
       let* data := get recording_data in
       match data with
       | _ :: _ =>
         let temp_path := Py.path_join (gettempdir env) (Py.lit "voice_input.wav") in
         call (write_wav env);;
         add_log (HOURGLASS ++ Py.lit " Transcribing...") GREY_400 NORMAL;;
         ret (Some (VoiceAwaitTranscribe temp_path))
       | [] => ret None
       end)
      stop_except.

(** [on_voice_click] from its [await], once the worker thread has
    finished, to its end. *)
Definition on_voice_click_resume (outcome : Py.res pystr) : M (option Coroutine) :=
  try_except
    (let* text := call outcome in
     (if Py.truthy text then
        modify (set_input_value text);;
        add_log (SPARKLES ++ Py.lit " " ++ text) BLUE_200 NORMAL;;
        send_message
      else
        add_log (CROSS_MARK ++ Py.lit " Failed.") RED_400 NORMAL);;
     ret None)
    stop_except.

(** ** The event loop *)

(** What can happen next: an action of the user, a callback of the audio
    driver, a worker thread running the call it was handed, or a coroutine
    of the list running its next segment, with the answers of the world
    the turn receives. *)
Inductive Label :=
| UserTypes (text : pystr)                      (* the user edits input_field *)
| SendMessage                                   (* on_submit, or send_btn.on_click *)
| VoiceClick (env : DeviceEnv)                  (* voice_button.on_click *)
| AudioCallback (indata : Chunk)                (* the stream delivers a chunk *)
| TaskStarts (k : nat) (reset : Py.res unit)    (* coroutine k enters run_agent_task *)
| StepReturns (k : nat) (r : Py.res StepResult) (* the worker thread of coroutine k
                                                   runs agent.step, which ends in r *)
| TaskResumes (k : nat)                         (* coroutine k leaves its await *)
| TranscribeRuns (k : nat) (env : AsrEnv)       (* the worker thread of coroutine k *)
| VoiceResumes (k : nat)                        (* coroutine k leaves its await *).

(** Coroutine [k] is suspended again as [c], or has returned. *)
Definition settle (k : nat) (c : option Coroutine) : M unit :=
  modify (fun s =>
    set_coros (match c with
               | Some c' => <[k:=c']> (coros s)
               | None => delete k (coros s)
               end) s).

(** Coroutine [k] runs the segment [seg]; an exception leaving the segment
    ends the coroutine. *)
Definition resume (k : nat) (seg : M (option Coroutine)) : M unit :=
  fun s => match seg s with
           | (Ok c, s') => settle k c s'
           | (Raise e, s') => (Raise e, snd (settle k None s'))
           end.

(** One turn of the event loop.  A click on the disabled voice button is
    not delivered; a label that names no coroutine in the matching state
    changes nothing. *)
Definition exec (l : Label) : M unit :=
  match l with
  | UserTypes text => modify (set_input_value text)
  | SendMessage => send_message
  | VoiceClick env =>
    let* disabled := get voice_disabled in
    if disabled then ret tt
    else
      let* c := on_voice_click env in
      match c with Some c' => run_task c' | None => ret tt end
  | AudioCallback indata => audio_callback indata
  | TaskStarts k reset =>
    let* c := get (fun s => coros s !! k) in
    match c with
    | Some (TaskScheduled task) => resume k (run_agent_task reset task)
    | _ => ret tt
    end
  | StepReturns k r =>
    let* c := get (fun s => coros s !! k) in
    match c with
    | Some (TaskAwaitStep task arg) =>
      agent_step arg;;
      settle k (Some (TaskStepped task r))
    | _ => ret tt
    end
  | TaskResumes k =>
    let* c := get (fun s => coros s !! k) in
    match c with
    | Some (TaskStepped task r) => resume k (run_agent_task_resume task r)
    | _ => ret tt
    end
  | TranscribeRuns k env =>
    let* c := get (fun s => coros s !! k) in
    match c with
    | Some (VoiceAwaitTranscribe temp_path) =>
      fun s => let (r, s') := transcribe_audio env (Some temp_path) s in
               settle k (Some (VoiceTranscribed r)) s'
    | _ => ret tt
    end
  | VoiceResumes k =>
    let* c := get (fun s => coros s !! k) in
    match c with
    | Some (VoiceTranscribed r) => resume k (on_voice_click_resume r)
    | _ => ret tt
    end
  end.

(** The state after one turn. *)
Definition step (s : State) (l : Label) : State := snd (exec l s).

(** The state after a sequence of turns. *)
Definition run (s : State) (ls : list Label) : State := fold_left step ls s.

(** Nothing is in flight: no recording, no coroutine waiting, and the voice
    button accepts clicks. *)
Definition idle (s : State) : Prop :=
  is_recording s = false /\ voice_disabled s = false /\ coros s = [].

(** No recording is active and the voice button accepts clicks. *)
Definition quiet (s : State) : Prop :=
  is_recording s = false /\ voice_disabled s = false.

(** ** The lines of the log, by the events they report *)

Definition Listening : Text :=
  mkText (MICROPHONE ++ Py.lit " Listening...") BLUE_200 NORMAL.
Definition Transcribing : Text :=
  mkText (HOURGLASS ++ Py.lit " Transcribing...") GREY_400 NORMAL.
Definition Transcribed (text : pystr) : Text :=
  mkText (SPARKLES ++ Py.lit " " ++ text) BLUE_200 NORMAL.
Definition TranscriptionFailed : Text :=
  mkText (CROSS_MARK ++ Py.lit " Failed.") RED_400 NORMAL.
Definition AsrError (reason : pystr) : Text :=
  mkText (Py.lit "ASR Error: " ++ reason) RED_400 NORMAL.
Definition You (task : pystr) : Text :=
  mkText (Py.lit "You: " ++ task) BLUE_200 BOLD.
Definition Started (task : pystr) : Text :=
  mkText (Py.lit "Starting: " ++ task) GREEN_400 NORMAL.
Definition Waiting : Text :=
  mkText (Py.lit "Thinking...") GREY_400 NORMAL.
Definition Thinking (note : pystr) : Text :=
  mkText (THOUGHT_BALLOON ++ Py.lit " " ++ note) GREY_400 NORMAL.
Definition Acting (note : pystr) : Text :=
  mkText (DIRECT_HIT ++ Py.lit " " ++ note) YELLOW_400 NORMAL.
Definition Finished (msg : option pystr) : Text :=
  mkText (CHECK_MARK ++ Py.lit " " ++ Py.format_opt msg) GREEN_400 BOLD.
Definition Errored (reason : pystr) : Text :=
  mkText (CROSS_MARK ++ Py.lit " Error: " ++ reason) RED_400 NORMAL.


(** ** Runs of one task *)

(** The notes of a step result are texts that standard output encodes. *)
Definition step_printable (r : StepResult) : Prop :=
  Py.encodable (thinking r) = true /\ Py.encodable (action r) = true.

(** The lines reporting the results of the steps, in order. *)
Definition steps_events (rs : list StepResult) : list Text :=
  flat_map (fun r => [Thinking (thinking r); Acting (action r)]) rs.

(** The agent answers the steps of coroutine [k] with [rs], one by one,
    and the coroutine takes up each answer. *)
Definition steps_return (k : nat) (rs : list StepResult) : list Label :=
  flat_map (fun r => [StepReturns k (Ok r); TaskResumes k]) rs.

(** The calls the agent receives from one task alone: [reset], the step
    with the text, and one step without text per result that does not
    finish. *)
Definition task_calls (task : pystr) (rs : list StepResult) : list AgentCall :=
  [CallReset; CallStep (Some task)] ++ repeat (CallStep None) (List.length rs).

(** The argument of the step a task waits for once the results [rs] have
    come back: the text of the task for the first step, nothing for the
    later ones. *)
Definition next_arg (task : pystr) (rs : list StepResult) : option pystr :=
  match rs with [] => Some task | _ :: _ => None end.

(** The steps the agent has received for a task once the results [rs]
    have come back. *)
Definition steps_received (task : pystr) (rs : list StepResult)
  : list AgentCall :=
  match rs with
  | [] => []
  | _ :: rs' => CallStep (Some task) :: repeat (CallStep None) (List.length rs')
  end.

(** A task typed and sent while nothing else is in flight: [reset] succeeds,
    the steps return [rs] and then [final]. *)
Definition typed_task (text : pystr) (rs : list StepResult) (final : StepResult)
  : list Label :=
  [UserTypes text; SendMessage; TaskStarts 0 (Ok tt)]
    ++ steps_return 0 (rs ++ [final]).

(** A task spoken while nothing else is in flight: a click, the chunks the
    driver delivers, a second click, the transcription, then the task. *)
Definition voice_task (dev : DeviceEnv) (chunks : list Chunk) (asr : AsrEnv)
    (rs : list StepResult) (final : StepResult) : list Label :=
  [VoiceClick dev] ++ map AudioCallback chunks
    ++ [VoiceClick dev; TranscribeRuns 0 asr; VoiceResumes 0; TaskStarts 0 (Ok tt)]
    ++ steps_return 0 (rs ++ [final]).

(** Every call [on_voice_click] makes on the audio device and on the
    temporary file succeeds. *)
Definition device_works (dev : DeviceEnv) : Prop :=
  (exists rate, query_devices dev = Ok rate)
  /\ input_stream dev = Ok tt /\ stream_start dev = Ok tt
  /\ stream_stop dev = Ok tt /\ stream_close dev = Ok tt
  /\ write_wav dev = Ok tt.

(** The value of [response.json().get("text", "")] on an object. *)
Definition text_of (obj : option pystr) : pystr :=
  match obj with Some text => text | None => [] end.

(** The status [raise_for_status] lets through. *)
Definition status_ok (r : Response) : Prop := status_code r < 400 \/ 600 <= status_code r.

(** The service answers the request for [file_path] with a response that
    passes [raise_for_status] and whose body is the object [obj]. *)
Definition service_answers (env : AsrEnv) (file_path : pystr) (obj : option pystr)
  : Prop :=
  open_rb env (local_path file_path) = Ok tt
  /\ exists r, requests_post env (asr_request env (local_path file_path)) = Ok r
              /\ status_ok r /\ body r = JsonObject obj.

(** The transcription of [file_path] fails with the exception text [e]:
    the file does not open, the request raises, the status is an error, or
    the body does not decode to an object. *)
Inductive asr_fails (env : AsrEnv) (file_path : pystr) (e : pystr) : Prop :=
| open_fails :
    open_rb env (local_path file_path) = Raise e -> asr_fails env file_path e
| post_fails :
    open_rb env (local_path file_path) = Ok tt ->
    requests_post env (asr_request env (local_path file_path)) = Raise e ->
    asr_fails env file_path e
| status_fails r :
    open_rb env (local_path file_path) = Ok tt ->
    requests_post env (asr_request env (local_path file_path)) = Ok r ->
    400 <= status_code r < 600 -> http_error r = e ->
    asr_fails env file_path e
| decode_fails r :
    open_rb env (local_path file_path) = Ok tt ->
    requests_post env (asr_request env (local_path file_path)) = Ok r ->
    status_ok r -> (body r = NotJson e \/ body r = JsonNotObject e) ->
    asr_fails env file_path e.

(** Opening the microphone fails with the exception text [e]. *)
Inductive start_fails (env : DeviceEnv) (e : pystr) : Prop :=
| query_raises :
    query_devices env = Raise e -> start_fails env e
| constructor_raises rate :
    query_devices env = Ok rate -> input_stream env = Raise e ->
    start_fails env e
| start_raises rate :
    query_devices env = Ok rate -> input_stream env = Ok tt ->
    stream_start env = Raise e -> start_fails env e.

(** Closing the recording of state [s] fails with the exception text [e]:
    in stopping or closing the stream, or in writing the samples. *)
Inductive stop_fails (s : State) (env : DeviceEnv) (e : pystr) : Prop :=
| stop_raises :
    has_stream s = true -> stream_stop env = Raise e -> stop_fails s env e
| close_raises :
    has_stream s = true -> stream_stop env = Ok tt ->
    stream_close env = Raise e -> stop_fails s env e
| write_raises :
    has_stream s = false
      \/ (stream_stop env = Ok tt /\ stream_close env = Ok tt) ->
    recording_data s <> [] -> write_wav env = Raise e -> stop_fails s env e.

Definition temp_path (env : DeviceEnv) : pystr :=
  Py.path_join (gettempdir env) (Py.lit "voice_input.wav").

(** The sequence of section 8 of the specification for a successful task. *)
Definition spec_success_events (voice : bool) (task : pystr)
    (rs : list StepResult) (final : StepResult) : list Text :=
  (if voice then [Listening; Transcribing] else [])
    ++ [Started task] ++ steps_events (rs ++ [final])
    ++ [Finished (message final)].

(** The lines [ui.py] writes for a successful task; [heard] is the text of
    the transcription when the task was spoken. *)
Definition success_events (heard : option pystr) (task : pystr)
    (rs : list StepResult) (final : StepResult) : list Text :=
  match heard with
  | Some text => [Listening; Transcribing; Transcribed text]
  | None => []
  end
    ++ [You task; Started task; Waiting] ++ steps_events (rs ++ [final])
    ++ [Finished (message final)].

(** ** Sample inputs *)

Definition mic : DeviceEnv :=
  mkDeviceEnv (Ok 16000) (Ok tt) (Ok tt) (Ok tt) (Ok tt) (Py.lit "/tmp") (Ok tt)
              eq_refl.

Definition no_mic : DeviceEnv :=
  mkDeviceEnv (Raise (Py.lit "Error querying device -1")) (Ok tt) (Ok tt) (Ok tt)
              (Ok tt) (Py.lit "/tmp") (Ok tt) eq_refl.

(** A service that answers every request with one response, after the
    requests [more] the library is redirected to. *)
Definition service_via (more : list Request) (status : Z) (reason : pystr)
    (b : Body) (H : response_printable (mkResponse status reason b) = true)
  : AsrEnv :=
  mkAsrEnv (Some (Py.lit "key")) (fun _ => Ok tt)
           (fun _ => Ok (mkResponse status reason b)) (fun _ => more)
           (fun _ _ => H).

(** A service that answers at once. *)
Definition service (status : Z) (reason : pystr) (b : Body)
    (H : response_printable (mkResponse status reason b) = true) : AsrEnv :=
  service_via [] status reason b H.

Definition unauthorized : AsrEnv :=
  service 401 (Py.lit "401 Client Error: Unauthorized") (NotJson []) eq_refl.

(** The service answers with an empty text. *)
Definition nothing_heard : AsrEnv :=
  service 200 [] (JsonObject (Some [])) eq_refl.

(** The service answers with a text that has white space around it. *)
Definition padded : AsrEnv :=
  service 200 [] (JsonObject (Some (Py.lit " turn on the light "))) eq_refl.


(** A text that holds a lone surrogate, as [json.loads] delivers it from
    the escape [\ud800]. *)
Definition lone_surrogate : pystr := [55296%N].

(** A step result whose thinking note is such a text; the step is not the
    last one. *)
Definition garbled : StepResult :=
  mkStepResult lone_surrogate (Py.lit "tap") false None.

Definition plan : StepResult :=
  mkStepResult (Py.lit "plan") (Py.lit "toggle") false None.
Definition verify : StepResult :=
  mkStepResult (Py.lit "verify") (Py.lit "none") true (Some (Py.lit "done")).

(** ** The widgets

    The controls that [toggle_input_mode], [animate_recording] and
    [on_voice_click] change besides the state above: the visibility of the
    input field and of the buttons, the icons, and the scale of the voice
    button. *)

Inductive Icon :=
| MIC_ROUNDED | STOP_CIRCLE_ROUNDED | KEYBOARD_ROUNDED | SEND_ROUNDED.

(** The two values [animate_recording] gives to [voice_button.scale]. *)
Inductive Scale :=
| SCALE_1_0   (* 1.0 *)
| SCALE_1_3   (* 1.3 *).

(** A task [animate_recording()] between two runs on the event loop. *)
Inductive Pulse :=
| PulseCreated   (* asyncio.create_task(animate_recording()), not started yet *)
| PulseGrown     (* at the first  await asyncio.sleep(0.6) *)
| PulseShrunk    (* at the second await asyncio.sleep(0.6) *).

Record Widgets := mkWidgets {
  input_visible : bool;        (* input_field.visible *)
  send_visible : bool;         (* send_btn.visible *)
  voice_visible : bool;        (* voice_button.visible *)
  toggle_icon : Icon;          (* toggle_btn.icon *)
  voice_icon : Icon;           (* voice_button.icon *)
  voice_icon_color : Color;    (* voice_button.icon_color *)
  voice_scale : Scale;         (* voice_button.scale *)
  pulses : list Pulse          (* the animate_recording tasks alive *)
}.

(** The controls as [main] builds them. *)
Definition initial_widgets : Widgets :=
  mkWidgets true true false MIC_ROUNDED MIC_ROUNDED WHITE SCALE_1_0 [].

Definition set_input_visible (b : bool) (w : Widgets) : Widgets :=
  mkWidgets b (send_visible w) (voice_visible w) (toggle_icon w) (voice_icon w)
            (voice_icon_color w) (voice_scale w) (pulses w).
Definition set_send_visible (b : bool) (w : Widgets) : Widgets :=
  mkWidgets (input_visible w) b (voice_visible w) (toggle_icon w) (voice_icon w)
            (voice_icon_color w) (voice_scale w) (pulses w).
Definition set_voice_visible (b : bool) (w : Widgets) : Widgets :=
  mkWidgets (input_visible w) (send_visible w) b (toggle_icon w) (voice_icon w)
            (voice_icon_color w) (voice_scale w) (pulses w).
Definition set_toggle_icon (i : Icon) (w : Widgets) : Widgets :=
  mkWidgets (input_visible w) (send_visible w) (voice_visible w) i (voice_icon w)
            (voice_icon_color w) (voice_scale w) (pulses w).
Definition set_voice_icon (i : Icon) (w : Widgets) : Widgets :=
  mkWidgets (input_visible w) (send_visible w) (voice_visible w) (toggle_icon w)
            i (voice_icon_color w) (voice_scale w) (pulses w).
Definition set_voice_icon_color (c : Color) (w : Widgets) : Widgets :=
  mkWidgets (input_visible w) (send_visible w) (voice_visible w) (toggle_icon w)
            (voice_icon w) c (voice_scale w) (pulses w).
Definition set_voice_scale (x : Scale) (w : Widgets) : Widgets :=
  mkWidgets (input_visible w) (send_visible w) (voice_visible w) (toggle_icon w)
            (voice_icon w) (voice_icon_color w) x (pulses w).
Definition set_pulses (p : list Pulse) (w : Widgets) : Widgets :=
  mkWidgets (input_visible w) (send_visible w) (voice_visible w) (toggle_icon w)
            (voice_icon w) (voice_icon_color w) (voice_scale w) p.

(** The state of the handlers together with the widgets. *)
Record UI := mkUI { core : State; widgets : Widgets }.

Definition initial_ui : UI := mkUI initial initial_widgets.

(** The monad of the handlers over both. *)
Definition MU (A : Type) : Type := UI -> Py.res A * UI.

Definition retU {A} (a : A) : MU A := fun u => (Ok a, u).

Definition bindU {A B} (m : MU A) (k : A -> MU B) : MU B :=
  fun u => match m u with
           | (Ok a, u') => k a u'
           | (Raise e, u') => (Raise e, u')
           end.

Notation "'let+' x := m 'in' k" := (bindU m (fun x => k))
  (at level 10, x name, m at level 100, k at level 200, only parsing).
Notation "m ;+ k" := (bindU m (fun _ => k))
  (at level 100, k at level 200, right associativity, only parsing).

Definition try_exceptU {A} (body : MU A) (handler : pystr -> MU A) : MU A :=
  fun u => match body u with
           | (Ok a, u') => (Ok a, u')
           | (Raise e, u') => handler e u'
           end.

(** A computation on the state of the handlers leaves the widgets alone. *)
Definition lift {A} (m : M A) : MU A :=
  fun u => let (r, s') := m (core u) in (r, mkUI s' (widgets u)).

Definition modifyW (f : Widgets -> Widgets) : MU unit :=
  fun u => (Ok tt, mkUI (core u) (f (widgets u))).

Definition getW {A} (f : Widgets -> A) : MU A :=
  fun u => (Ok (f (widgets u)), u).

(** [toggle_input_mode(e)] *)
Definition toggle_input_mode : MU unit :=
  let+ visible := getW input_visible in
  modifyW (set_input_visible (negb visible));+
  let+ visible := getW input_visible in
  modifyW (set_send_visible visible);+
  let+ visible := getW input_visible in
  modifyW (set_voice_visible (negb visible));+
  let+ voice := getW voice_visible in
  modifyW (set_toggle_icon (if voice then KEYBOARD_ROUNDED else MIC_ROUNDED)).

(** [animate_recording()] at the head of its [while] loop. *)
Definition animate_recording : MU (option Pulse) :=
  let+ recording := lift (get is_recording) in
  if recording then
    modifyW (set_voice_scale SCALE_1_3);+
    retU (Some PulseGrown)
  else retU None.

(** [animate_recording()] from one suspension to the next, or to its
    end. *)
Definition animate_recording_resume (p : Pulse) : MU (option Pulse) :=
  match p with
  | PulseCreated => animate_recording
  | PulseGrown =>
    modifyW (set_voice_scale SCALE_1_0);+
    retU (Some PulseShrunk)
  | PulseShrunk => animate_recording
  end.

(** [asyncio.create_task(animate_recording())] *)
Definition create_task (p : Pulse) : MU unit :=
  modifyW (fun w => set_pulses (pulses w ++ [p]) w).

(** [on_voice_click(e)] from its first line to its [await], with the
    icons it sets and the animation it starts. *)
Definition on_voice_click_ui (env : DeviceEnv) : MU (option Coroutine) :=
  let+ recording := lift (get is_recording) in
  if negb recording then
    try_exceptU
      (lift (modify (set_recording_data []));+
       lift (modify (set_is_recording true));+
       let+ rate := lift (call (query_devices env)) in
       lift (modify (set_samplerate rate));+
       lift (call (input_stream env));+
       lift (modify (set_has_stream true));+
       lift (call (stream_start env));+
       modifyW (set_voice_icon STOP_CIRCLE_ROUNDED);+
       modifyW (set_voice_icon_color RED_400);+
       lift (add_log (MICROPHONE ++ Py.lit " Listening...") BLUE_200 NORMAL);+
       create_task PulseCreated;+
       retU None)
      (fun ex => lift (start_except ex))
  else
    try_exceptU
      (lift (modify (set_voice_disabled true));+
       let+ stream := lift (get has_stream) in
       (if stream then
          lift (call (stream_stop env));+ lift (call (stream_close env))
        else retU tt);+
       lift (modify (set_is_recording false));+
       modifyW (set_voice_icon MIC_ROUNDED);+
       modifyW (set_voice_icon_color WHITE);+
       lift (modify (set_voice_disabled false));+
       let+ data := lift (get recording_data) in
       match data with
       | _ :: _ =>
         let temp_path := Py.path_join (gettempdir env) (Py.lit "voice_input.wav") in
         lift (call (write_wav env));+
         lift (add_log (HOURGLASS ++ Py.lit " Transcribing...") GREY_400 NORMAL);+
         retU (Some (VoiceAwaitTranscribe temp_path))
       | [] => retU None
       end)
      (fun ex => lift (stop_except ex)).

(** What can happen next, the widgets included. *)
Inductive UILabel :=
| Core (l : Label)          (* a turn of the handlers above *)
| ToggleInputMode           (* toggle_btn.on_click *)
| PulseWakes (k : nat)      (* the k-th animate_recording task runs on *).

(** The animation task [k] is suspended again as [p], or has returned. *)
Definition settle_pulse (k : nat) (p : option Pulse) : MU unit :=
  modifyW (fun w =>
    set_pulses (match p with
                | Some p' => <[k:=p']> (pulses w)
                | None => delete k (pulses w)
                end) w).

(** One turn of the event loop, the widgets included. *)
Definition ui_exec (l : UILabel) : MU unit :=
  match l with
  | Core (VoiceClick env) =>
    let+ disabled := lift (get voice_disabled) in
    if disabled then retU tt
    else
      let+ c := on_voice_click_ui env in
      match c with Some c' => lift (run_task c') | None => retU tt end
  | Core l' => lift (exec l')
  | ToggleInputMode => toggle_input_mode
  | PulseWakes k =>
    let+ p := getW (fun w => pulses w !! k) in
    match p with
    | Some p' =>
      let+ next := animate_recording_resume p' in
      settle_pulse k next
    | None => retU tt
    end
  end.

Definition ui_step (u : UI) (l : UILabel) : UI := snd (ui_exec l u).

Definition ui_run (u : UI) (ls : list UILabel) : UI := fold_left ui_step ls u.

(** The input field and the voice button are shown in turn, the send
    button with the input field, and the toggle button shows the mode it
    leads to. *)
Definition layout_ok (w : Widgets) : Prop :=
  send_visible w = input_visible w
  /\ voice_visible w = negb (input_visible w)
  /\ toggle_icon w = (if voice_visible w then KEYBOARD_ROUNDED else MIC_ROUNDED).

(** ** Properties of the states *)

(** The kinds of lines the handlers write. *)
Definition is_event (t : Text) : Prop :=
  t = Listening \/ t = Transcribing \/ (exists text, t = Transcribed text)
  \/ t = TranscriptionFailed \/ (exists e, t = AsrError e)
  \/ (exists task, t = You task) \/ (exists task, t = Started task)
  \/ t = Waiting \/ (exists note, t = Thinking note)
  \/ (exists note, t = Acting note) \/ (exists msg, t = Finished msg)
  \/ (exists e, t = Errored e).

(** A transcription in flight has a path that is not empty, and one that
    is over has returned a text. *)
Definition await_ok (c : Coroutine) : Prop :=
  match c with
  | VoiceAwaitTranscribe p =>
    Py.truthy p = true
    /\ exists dir, p = Py.path_join dir (Py.lit "voice_input.wav")
  | VoiceTranscribed r => exists text, r = Ok text
  | _ => True
  end.

(** The labels of the handlers among the turns. *)
Definition core_labels (ls : list UILabel) : list Label :=
  flat_map (fun l => match l with Core l' => [l'] | _ => [] end) ls.

(** The stream of a recording cannot be stopped, or cannot be closed. *)
Definition stream_fails (env : DeviceEnv) (e : pystr) : Prop :=
  stream_stop env = Raise e
  \/ (stream_stop env = Ok tt /\ stream_close env = Raise e).

(** An active recording shows as the red stop icon. *)
Definition icon_ok (u : UI) : Prop :=
  is_recording (core u) = true ->
  voice_icon (widgets u) = STOP_CIRCLE_ROUNDED
  /\ voice_icon_color (widgets u) = RED_400.

(** The voice button is enlarged only while an animation task is at its
    first sleep. *)
Definition pulse_ok (w : Widgets) : Prop :=
  voice_scale w = SCALE_1_3 -> exists j, pulses w !! j = Some PulseGrown.

(** The first and the last character of a text are not white space. *)
Definition trimmed (t : pystr) : Prop :=
  (exists c, head t = Some c /\ Py.isspace c = false)
  /\ (exists c, last t = Some c /\ Py.isspace c = false).

(** A text as [send_message] hands it on: stripped, not empty, and one
    that standard output encodes. *)
Definition sendable (t : pystr) : Prop := trimmed t /\ Py.encodable t = true.

(** The text of a task that waits to start, or whose first step waits
    for its worker thread, is such a text; the step carries the text of
    its task. *)
Definition task_ok (c : Coroutine) : Prop :=
  match c with
  | TaskScheduled task => sendable task
  | TaskAwaitStep task (Some arg) => sendable task /\ arg = task
  | _ => True
  end.

Definition is_reset (c : AgentCall) : bool :=
  match c with CallReset => true | CallStep _ => false end.

Definition is_first_step (c : AgentCall) : bool :=
  match c with CallStep (Some _) => true | _ => false end.

(** The first step of the task has been handed to a worker thread that
    has not run yet. *)
Definition awaits_first_step (c : Coroutine) : bool :=
  match c with TaskAwaitStep _ (Some _) => true | _ => false end.

(** The number of elements of a list with a property. *)
Definition count {A} (f : A -> bool) (l : list A) : nat :=
  List.length (List.filter f l).

Arguments count : simpl never.

(** At every moment the agent has received at least as many calls of
    [reset] as steps that carry a task text, and every such text is one
    [send_message] handed on. *)
Definition first_steps_ok (calls : list AgentCall) : Prop :=
  (forall n : nat,
      (count is_first_step (take n calls) <= count is_reset (take n calls))%nat)
  /\ (forall (i : nat) (task : pystr),
         calls !! i = Some (CallStep (Some task)) -> sendable task).

(** The first steps that are still to come have had their [reset]. *)
Definition resets_ok (s : State) : Prop :=
  (count is_first_step (agent_calls s) + count awaits_first_step (coros s)
   <= count is_reset (agent_calls s))%nat.

(** While a recording is active the stream object exists. *)
Definition stream_ok (s : State) : Prop :=
  is_recording s = true -> has_stream s = true.

(** ** Texts that standard output encodes *)

Lemma lit_encodable (s : string) : Py.encodable (Py.lit s) = true.
Proof.
  unfold Py.lit, Py.encodable. induction s as [|a s IH]; [reflexivity|].
  cbn [list_ascii_of_string map forallb]. rewrite IH, andb_true_r.
  pose proof (N_ascii_bounded a) as Ha. unfold Py.is_surrogate.
  destruct (N.leb_spec 55296 (N_of_ascii a)); [lia|reflexivity].
Qed.

Lemma encodable_app (s t : pystr) :
  Py.encodable (s ++ t) = Py.encodable s && Py.encodable t.
Proof. apply forallb_app. Qed.

Lemma encode_error_encodable (start c run : N) :
  Py.encodable (Py.unicode_encode_error start c run) = true.
Proof. apply lit_encodable. Qed.

Lemma utf8_from_ok (s : pystr) :
  forall pos, Py.encodable s = true -> Py.utf8_strict_from pos s = Ok tt.
Proof.
  induction s as [|c s IH]; intros pos H; [reflexivity|].
  cbn in H. apply andb_true_iff in H as [Hc Hs].
  cbn. apply negb_true_iff in Hc. rewrite Hc. apply IH, Hs.
Qed.

Lemma utf8_from_raise (s : pystr) :
  forall pos, Py.encodable s = false ->
    exists start c run,
      Py.utf8_strict_from pos s = Raise (Py.unicode_encode_error start c run).
Proof.
  induction s as [|c s IH]; intros pos H; [discriminate H|].
  cbn in H. cbn. destruct (Py.is_surrogate c); [do 3 eexists; reflexivity|].
  apply IH. exact H.
Qed.

Lemma utf8_from_error (s : pystr) :
  forall pos e, Py.utf8_strict_from pos s = Raise e ->
    Py.encodable s = false
    /\ exists start c run, e = Py.unicode_encode_error start c run.
Proof.
  induction s as [|c s IH]; intros pos e H; [discriminate H|].
  cbn in H. cbn. destruct (Py.is_surrogate c).
  - split; [reflexivity|]. injection H as <-. do 3 eexists; reflexivity.
  - apply (IH _ _ H).
Qed.

(** [print] returns on a text that encodes. *)
Lemma utf8_ok (s : pystr) : Py.encodable s = true -> Py.utf8_strict s = Ok tt.
Proof. apply utf8_from_ok. Qed.

(** [print] raises a [UnicodeEncodeError] on a text that does not. *)
Lemma utf8_raise (s : pystr) :
  Py.encodable s = false ->
  exists start c run,
    Py.utf8_strict s = Raise (Py.unicode_encode_error start c run).
Proof. apply utf8_from_raise. Qed.

Lemma utf8_error (s e : pystr) :
  Py.utf8_strict s = Raise e ->
  Py.encodable s = false
  /\ exists start c run, e = Py.unicode_encode_error start c run.
Proof. apply utf8_from_error. Qed.

Lemma utf8_error_encodable (s e : pystr) :
  Py.utf8_strict s = Raise e -> Py.encodable e = true.
Proof.
  intros H. apply utf8_error in H as (_ & start & c & run & ->).
  apply encode_error_encodable.
Qed.

Lemma utf8_unit (s : pystr) (u : unit) : Py.utf8_strict s = Ok u -> Py.encodable s = true.
Proof.
  intros H. destruct (Py.encodable s) eqn:Hs; [reflexivity|].
  apply utf8_raise in Hs as (? & ? & ? & Hs). congruence.
Qed.

(** White space encodes. *)
Lemma space_not_surrogate (c : N) :
  Py.isspace c = true -> Py.is_surrogate c = false.
Proof.
  intros Hc. destruct (Py.is_surrogate c) eqn:Hs; [|reflexivity].
  unfold Py.is_surrogate in Hs. apply andb_true_iff in Hs as [H1 H2].
  apply N.leb_le in H1, H2. exfalso. revert Hc. unfold Py.isspace.
  repeat match goal with
         | |- context [(c <=? ?k)%N] =>
           replace (c <=? k)%N with false by (symmetry; apply N.leb_gt; lia)
         | |- context [(c =? ?k)%N] =>
           replace (c =? k)%N with false by (symmetry; apply N.eqb_neq; lia)
         end.
  rewrite ?andb_false_r. cbn. discriminate.
Qed.

Lemma spaces_encodable (s : pystr) :
  forallb Py.isspace s = true -> Py.encodable s = true.
Proof.
  induction s as [|c s IH]; [reflexivity|]. cbn.
  intros H. apply andb_true_iff in H as [Hc Hs].
  rewrite (space_not_surrogate c Hc). apply IH, Hs.
Qed.

(** ** [str.strip] as [send_message] uses it *)

Lemma lstrip_nil (s : pystr) :
  Py.lstrip s = [] <-> forallb Py.isspace s = true.
Proof.
  induction s as [|c s IH]; [split; reflexivity|].
  cbn [Py.lstrip forallb]. destruct (Py.isspace c); cbn [andb].
  - exact IH.
  - split; discriminate.
Qed.

Lemma lstrip_split (s : pystr) :
  exists pre, s = pre ++ Py.lstrip s /\ forallb Py.isspace pre = true.
Proof.
  induction s as [|c s (pre & Hs & Hpre)]; [exists []; split; reflexivity|].
  cbn [Py.lstrip]. destruct (Py.isspace c) eqn:Hc.
  - exists (c :: pre). split; [cbn; f_equal; exact Hs|].
    cbn. rewrite Hc. exact Hpre.
  - exists []. split; reflexivity.
Qed.

Lemma lstrip_head (s : pystr) (c : N) (t : pystr) :
  Py.lstrip s = c :: t -> Py.isspace c = false.
Proof.
  induction s as [|d s IH]; [discriminate|].
  cbn [Py.lstrip]. destruct (Py.isspace d) eqn:Hd; [exact IH|].
  intros H. injection H as -> _. exact Hd.
Qed.

Lemma lstrip_fixed (c : N) (t : pystr) :
  Py.isspace c = false -> Py.lstrip (c :: t) = c :: t.
Proof. intros Hc. cbn. rewrite Hc. reflexivity. Qed.

Lemma forallb_rev {A} (f : A -> bool) (l : list A) :
  forallb f (rev l) = forallb f l.
Proof.
  induction l as [|x l IH]; [reflexivity|].
  cbn. rewrite forallb_app, IH. cbn. rewrite andb_true_r. apply andb_comm.
Qed.

Lemma strip_nil (s : pystr) :
  Py.strip s = [] <-> forallb Py.isspace s = true.
Proof.
  unfold Py.strip, Py.rstrip. split.
  - intros H. apply (f_equal (@rev N)) in H. rewrite rev_involutive in H.
    cbn in H. apply lstrip_nil in H. rewrite forallb_rev in H.
    destruct (Py.lstrip s) as [|c t] eqn:Hl; [apply lstrip_nil; exact Hl|].
    apply lstrip_head in Hl. cbn in H. rewrite Hl in H. discriminate H.
  - intros H. apply lstrip_nil in H. rewrite H. reflexivity.
Qed.

Lemma strip_trimmed (s : pystr) : Py.strip s <> [] -> trimmed (Py.strip s).
Proof.
  unfold Py.strip, Py.rstrip. intros Hne.
  destruct (Py.lstrip (rev (Py.lstrip s))) as [|c w] eqn:Hw;
    [exfalso; apply Hne; reflexivity|].
  pose proof (lstrip_head _ _ _ Hw) as Hc.
  destruct (lstrip_split (rev (Py.lstrip s))) as (pre & Hrev & Hpre).
  rewrite Hw in Hrev.
  split.
  - destruct (Py.lstrip s) as [|d t] eqn:Hl.
    + destruct pre; discriminate Hrev.
    + pose proof (lstrip_head _ _ _ Hl) as Hd.
      apply (f_equal (@rev N)) in Hrev. rewrite rev_involutive in Hrev.
      rewrite rev_app_distr in Hrev.
      exists d. split; [|exact Hd].
      destruct (rev (c :: w)) as [|x xs] eqn:Hx.
      * apply (f_equal (@rev N)) in Hx. rewrite rev_involutive in Hx.
        discriminate Hx.
      * cbn in Hrev. injection Hrev as -> _. reflexivity.
  - exists c. split; [|exact Hc].
    cbn [rev]. apply last_snoc.
Qed.

(** [strip] removes white space only: the text encodes exactly when its
    stripped form does. *)
Lemma lstrip_encodable (s : pystr) :
  Py.encodable (Py.lstrip s) = Py.encodable s.
Proof.
  destruct (lstrip_split s) as (pre & Hs & Hpre).
  rewrite Hs at 2. rewrite encodable_app, (spaces_encodable pre Hpre).
  reflexivity.
Qed.

Lemma strip_encodable (s : pystr) :
  Py.encodable (Py.strip s) = Py.encodable s.
Proof.
  unfold Py.strip, Py.rstrip, Py.encodable.
  rewrite forallb_rev. fold (Py.encodable (Py.lstrip (rev (Py.lstrip s)))).
  rewrite lstrip_encodable. unfold Py.encodable. rewrite forallb_rev.
  apply lstrip_encodable.
Qed.

Lemma blank_encodable (s : pystr) : Py.strip s = [] -> Py.encodable s = true.
Proof. intros H. apply spaces_encodable, strip_nil, H. Qed.

(** The texts of the [UnicodeEncodeError] of [print], as CPython words
    them: one surrogate, a run of surrogates, and a line that encodes. *)
Example print_lone_surrogate :
  Py.utf8_strict (Py.lit "UI LOG: a" ++ [55296%N])
  = Raise (Py.lit "'utf-8' codec can't encode character '\ud800' in position 9: surrogates not allowed").
Proof. reflexivity. Qed.

Example print_surrogate_run :
  Py.utf8_strict (Py.lit "UI LOG: abcde" ++ [55296%N; 56000%N; 57343%N; 65%N; 55296%N])
  = Raise (Py.lit "'utf-8' codec can't encode characters in position 13-15: surrogates not allowed").
Proof. reflexivity. Qed.

Example print_astral :
  Py.utf8_strict (Py.lit "UI LOG: " ++ [128173%N; 32%N; 233%N; 1114111%N]) = Ok tt.
Proof. reflexivity. Qed.

(** ** The exception texts of the libraries *)

Lemma device_error_encodable (env : DeviceEnv) (e : pystr) :
  query_devices env = Raise e \/ input_stream env = Raise e
  \/ stream_start env = Raise e \/ stream_stop env = Raise e
  \/ stream_close env = Raise e \/ write_wav env = Raise e ->
  Py.encodable e = true.
Proof.
  pose proof (device_printable env) as H.
  repeat (apply andb_true_iff in H as [H ?]).
  intros [He|[He|[He|[He|[He|He]]]]]; rewrite He in *; assumption.
Qed.

Lemma open_error_encodable (env : AsrEnv) (p e : pystr) :
  open_rb env p = Raise e -> Py.encodable e = true.
Proof.
  intros He.
  pose proof (asr_printable env p (mkRequest [] [] [] [])) as H.
  apply andb_true_iff in H as [H _]. rewrite He in H. exact H.
Qed.

Lemma post_error_encodable (env : AsrEnv) (req : Request) (e : pystr) :
  requests_post env req = Raise e -> Py.encodable e = true.
Proof.
  intros He. pose proof (asr_printable env [] req) as H.
  apply andb_true_iff in H as [_ H]. rewrite He in H. exact H.
Qed.

Lemma response_encodable (env : AsrEnv) (req : Request) (r : Response) :
  requests_post env req = Ok r ->
  Py.encodable (http_error r) = true
  /\ (forall e, body r = NotJson e \/ body r = JsonNotObject e ->
                Py.encodable e = true).
Proof.
  intros Hr. pose proof (asr_printable env [] req) as H.
  apply andb_true_iff in H as [_ H]. rewrite Hr in H.
  unfold answer_printable, response_printable in H.
  apply andb_true_iff in H as [H1 H2]. split; [exact H1|].
  intros e [He|He]; rewrite He in H2; exact H2.
Qed.

Lemma http_error_encodable (env : AsrEnv) (req : Request) (r : Response) :
  requests_post env req = Ok r -> Py.encodable (http_error r) = true.
Proof. intros H. exact (proj1 (response_encodable _ _ _ H)). Qed.

Lemma body_error_encodable (env : AsrEnv) (req : Request) (r : Response)
    (e : pystr) :
  requests_post env req = Ok r ->
  body r = NotJson e \/ body r = JsonNotObject e -> Py.encodable e = true.
Proof. intros H. exact (proj2 (response_encodable _ _ _ H) e). Qed.

Lemma asr_error_encodable (env : AsrEnv) (p e : pystr) :
  asr_fails env p e -> Py.encodable e = true.
Proof.
  intros [Hopen|Hopen Hpost|r Hopen Hpost Hstatus Herr|r Hopen Hpost Hstatus Hbody].
  - eapply open_error_encodable, Hopen.
  - eapply post_error_encodable, Hpost.
  - subst e. exact (proj1 (response_encodable _ _ _ Hpost)).
  - exact (proj2 (response_encodable _ _ _ Hpost) e Hbody).
Qed.

Lemma encodable_cons (c : N) (s : pystr) :
  Py.is_surrogate c = false -> Py.encodable (c :: s) = Py.encodable s.
Proof. intros Hc. cbn. rewrite Hc. reflexivity. Qed.

(** A line [add_log] is given prints when its message encodes. *)
Lemma print_line_ok (msg : pystr) :
  Py.encodable msg = true -> Py.utf8_strict (Py.lit "UI LOG: " ++ msg) = Ok tt.
Proof.
  intros H. apply utf8_ok. rewrite encodable_app, lit_encodable. exact H.
Qed.

Lemma print_line_raise (msg : pystr) :
  Py.encodable msg = false ->
  exists start c run,
    Py.utf8_strict (Py.lit "UI LOG: " ++ msg)
    = Raise (Py.unicode_encode_error start c run).
Proof.
  intros H. apply utf8_raise. rewrite encodable_app, lit_encodable. exact H.
Qed.

Lemma print_line_error (msg e : pystr) :
  Py.utf8_strict (Py.lit "UI LOG: " ++ msg) = Raise e ->
  Py.encodable msg = false /\ Py.encodable e = true.
Proof.
  intros H. split; [|eapply utf8_error_encodable, H].
  apply utf8_error in H as [H _].
  rewrite encodable_app, lit_encodable in H. exact H.
Qed.

Lemma format_opt_encodable (o : option pystr) :
  match o with Some m => Py.encodable m = true | None => True end ->
  Py.encodable (Py.format_opt o) = true.
Proof. destruct o; [trivial|intros _; apply lit_encodable]. Qed.

(** The message encodes. *)
Ltac enc :=
  repeat first [ rewrite encodable_app | rewrite lit_encodable
               | rewrite encodable_cons by reflexivity
               | rewrite encode_error_encodable ];
  cbn [andb];
  first [ reflexivity | assumption
        | rewrite strip_encodable; assumption
        | rewrite <- strip_encodable; assumption
        | eapply utf8_error_encodable; eassumption
        | eapply print_line_error; eassumption
        | eapply device_error_encodable; eauto 7; fail
        | eapply open_error_encodable; eassumption
        | eapply post_error_encodable; eassumption
        | eapply http_error_encodable; eassumption
        | eapply body_error_encodable; [eassumption|eauto; fail]
        | eapply asr_error_encodable; eassumption
        | apply blank_encodable; assumption ].

(** The lines whose message encodes are printed. *)
Ltac prints :=
  repeat match goal with
         | |- context [Py.utf8_strict (Py.lit "UI LOG: " ++ ?m)] =>
           rewrite (print_line_ok m) by enc
         end.

(** ** Equations of the handlers *)

Ltac unfold_handlers :=
  unfold exec, resume, settle, send_message, run_task, audio_callback,
    on_voice_click, on_voice_click_resume, start_except, stop_except,
    run_agent_task, run_agent_task_resume, run_agent_task_except,
    agent_reset, agent_step, transcribe_audio, post, raise_for_status,
    json_get_text, add_log, print, try_except, bind, ret, call, get,
    modify in *.

Lemma delete_app_lt {A} (l1 l2 : list A) (k : nat) :
  (k < List.length l1)%nat -> delete k (l1 ++ l2) = delete k l1 ++ l2.
Proof.
  revert k. induction l1 as [|x l1 IH]; intros k Hk; simpl in Hk; [lia|].
  destruct k as [|k]; [reflexivity|].
  cbn. f_equal. apply IH. lia.
Qed.

Lemma delete_insert_lt {A} (l : list A) (k : nat) (x : A) :
  (k < List.length l)%nat -> delete k (<[k:=x]> l) = delete k l.
Proof.
  revert k. induction l as [|y l IH]; intros k Hk; [reflexivity|].
  destruct k as [|k]; [reflexivity|].
  cbn in *. f_equal. apply IH. lia.
Qed.

Lemma delete_snoc {A} (l : list A) (x : A) :
  delete (List.length l) (l ++ [x]) = l.
Proof.
  induction l as [|y l IH]; [reflexivity|]. cbn. f_equal. exact IH.
Qed.

Lemma insert_snoc {A} (l : list A) (x y : A) :
  <[List.length l:=y]> (l ++ [x]) = l ++ [y].
Proof.
  induction l as [|z l IH]; [reflexivity|]. cbn. f_equal. exact IH.
Qed.

(** Two states are equal when their fields are. *)
Lemma state_ext (s1 s2 : State) :
  is_recording s1 = is_recording s2 -> samplerate s1 = samplerate s2 ->
  has_stream s1 = has_stream s2 -> recording_data s1 = recording_data s2 ->
  input_value s1 = input_value s2 -> voice_disabled s1 = voice_disabled s2 ->
  log s1 = log s2 -> agent_calls s1 = agent_calls s2 ->
  asr_requests s1 = asr_requests s2 -> http_requests s1 = http_requests s2 ->
  coros s1 = coros s2 ->
  s1 = s2.
Proof.
  destruct s1, s2. cbn. intros. subst. reflexivity.
Qed.

Ltac state_eq :=
  apply state_ext; cbn;
  repeat match goal with
         | H : ?l !! ?k = Some _ |- context [<[?k:=_]> ?l] =>
           rewrite (list_insert_id l k) by exact H
         end;
  rewrite <- ?app_assoc; try reflexivity; try congruence.

Lemma truthy_nil (s : pystr) : Py.truthy s = false <-> s = [].
Proof. destruct s; simpl; split; congruence. Qed.

Lemma truthy_cons (s : pystr) : Py.truthy s = true <-> s <> [].
Proof. destruct s; simpl; split; congruence. Qed.

Lemma add_log_ok (msg : pystr) (c : Color) (w : FontWeight) (s : State) :
  Py.encodable msg = true ->
  add_log msg c w s = (Ok tt, set_log (log s ++ [mkText msg c w]) s).
Proof. intros H. unfold_handlers. prints. reflexivity. Qed.

Lemma add_log_raise (msg : pystr) (c : Color) (w : FontWeight) (s : State) :
  Py.encodable msg = false ->
  exists start ch run,
    add_log msg c w s = (Raise (Py.unicode_encode_error start ch run), s).
Proof.
  intros H. destruct (print_line_raise msg H) as (start & ch & run & Hp).
  exists start, ch, run. unfold_handlers. rewrite Hp. reflexivity.
Qed.

Lemma send_message_blank (s : State) :
  Py.strip (input_value s) = [] -> send_message s = (Ok tt, s).
Proof.
  intros Hblank. unfold_handlers. rewrite Hblank. reflexivity.
Qed.

Lemma send_message_task (s : State) :
  Py.strip (input_value s) <> [] ->
  Py.encodable (Py.strip (input_value s)) = true ->
  send_message s =
    (Ok tt,
     set_coros (coros s ++ [TaskScheduled (Py.strip (input_value s))])
       (set_log (log s ++ [You (Py.strip (input_value s))])
          (set_input_value [] s))).
Proof.
  intros Htask Henc. apply truthy_cons in Htask. unfold_handlers.
  rewrite Htask. cbn. prints. try (f_equal; state_eq).
Qed.

(** A text that does not encode: the field is cleared, then [print]
    raises and nothing is written or queued. *)
Lemma send_message_raise (s : State) :
  Py.strip (input_value s) <> [] ->
  Py.encodable (Py.strip (input_value s)) = false ->
  exists start c run,
    send_message s
    = (Raise (Py.unicode_encode_error start c run), set_input_value [] s).
Proof.
  intros Htask Henc. apply truthy_cons in Htask.
  assert (Hm : Py.encodable (Py.lit "You: " ++ Py.strip (input_value s)) = false)
    by (rewrite encodable_app, lit_encodable; exact Henc).
  destruct (print_line_raise _ Hm) as (start & c & run & Hp).
  exists start, c, run. unfold_handlers. rewrite Htask. cbn. rewrite Hp.
  reflexivity.
Qed.

Lemma task_starts_ok (s : State) (k : nat) (task : pystr) :
  coros s !! k = Some (TaskScheduled task) -> Py.encodable task = true ->
  exec (TaskStarts k (Ok tt)) s =
    (Ok tt,
     set_coros (<[k:=TaskAwaitStep task (Some task)]> (coros s))
       (set_agent_calls (agent_calls s ++ [CallReset])
          (set_log (log s ++ [Started task; Waiting]) s))).
Proof.
  intros Hk Henc. unfold_handlers. rewrite Hk. cbn. prints. cbn. prints.
  try (f_equal; state_eq).
Qed.

Lemma task_starts_raise (s : State) (k : nat) (task e : pystr) :
  coros s !! k = Some (TaskScheduled task) -> Py.encodable task = true ->
  Py.encodable e = true ->
  exec (TaskStarts k (Raise e)) s =
    (Ok tt,
     set_coros (delete k (coros s))
       (set_agent_calls (agent_calls s ++ [CallReset])
          (set_log (log s ++ [Started task; Errored e]) s))).
Proof.
  intros Hk Henc He. unfold_handlers. rewrite Hk. cbn. prints. cbn. prints.
  try (f_equal; state_eq).
Qed.

(** The worker thread of a step: the agent receives the call, and the
    outcome waits for the coroutine. *)
Lemma step_runs (s : State) (k : nat) (task : pystr) (arg : option pystr)
    (r : Py.res StepResult) :
  coros s !! k = Some (TaskAwaitStep task arg) ->
  exec (StepReturns k r) s =
    (Ok tt,
     set_coros (<[k:=TaskStepped task r]> (coros s))
       (set_agent_calls (agent_calls s ++ [CallStep arg]) s)).
Proof.
  intros Hk. unfold_handlers. rewrite Hk. cbn. try (f_equal; state_eq).
Qed.

Lemma task_resumes_more (s : State) (k : nat) (task : pystr) (r : StepResult) :
  coros s !! k = Some (TaskStepped task (Ok r)) -> finished r = false ->
  Py.encodable (thinking r) = true -> Py.encodable (action r) = true ->
  exec (TaskResumes k) s =
    (Ok tt,
     set_coros (<[k:=TaskAwaitStep task None]> (coros s))
       (set_log (log s ++ [Thinking (thinking r); Acting (action r)]) s)).
Proof.
  intros Hk Hr Ht Ha. unfold_handlers. rewrite Hk. cbn. prints. cbn. prints.
  rewrite Hr. cbn. try (f_equal; state_eq).
Qed.

Lemma task_resumes_finished (s : State) (k : nat) (task : pystr) (r : StepResult) :
  coros s !! k = Some (TaskStepped task (Ok r)) -> finished r = true ->
  Py.encodable (thinking r) = true -> Py.encodable (action r) = true ->
  Py.encodable (Py.format_opt (message r)) = true ->
  exec (TaskResumes k) s =
    (Ok tt,
     set_coros (delete k (coros s))
       (set_log (log s ++ [Thinking (thinking r); Acting (action r);
                           Finished (message r)]) s)).
Proof.
  intros Hk Hr Ht Ha Hm. unfold_handlers. rewrite Hk. cbn. prints. cbn. prints.
  rewrite Hr. cbn. prints. try (f_equal; state_eq).
Qed.

Lemma task_resumes_raise (s : State) (k : nat) (task e : pystr) :
  coros s !! k = Some (TaskStepped task (Raise e)) -> Py.encodable e = true ->
  exec (TaskResumes k) s =
    (Ok tt, set_coros (delete k (coros s)) (set_log (log s ++ [Errored e]) s)).
Proof.
  intros Hk He. unfold_handlers. rewrite Hk. cbn. prints. try (f_equal; state_eq).
Qed.

Lemma run_app (s : State) (ls1 ls2 : list Label) :
  run s (ls1 ++ ls2) = run (run s ls1) ls2.
Proof. apply fold_left_app. Qed.

Lemma run_cons (s : State) (l : Label) (ls : list Label) :
  run s (l :: ls) = run (step s l) ls.
Proof. reflexivity. Qed.

Lemma step_exec (s s' : State) (l : Label) (r : Py.res unit) :
  exec l s = (r, s') -> step s l = s'.
Proof. unfold step. intros ->. reflexivity. Qed.

(** The loop of [run_agent_task] while the steps do not finish: one pair of
    lines and one further [agent.step()] per result. *)
Lemma steps_loop (rs : list StepResult) :
  forall (s : State) (k : nat) (task : pystr) (arg : option pystr),
    coros s !! k = Some (TaskAwaitStep task arg) ->
    Forall (fun r => finished r = false) rs ->
    Forall step_printable rs ->
    run s (steps_return k rs) =
      set_coros (match rs with
                 | [] => coros s
                 | _ :: _ => <[k:=TaskAwaitStep task None]> (coros s)
                 end)
        (set_agent_calls
           (agent_calls s
              ++ match rs with
                 | [] => []
                 | _ :: rs' => CallStep arg :: repeat (CallStep None) (List.length rs')
                 end)
           (set_log (log s ++ steps_events rs) s)).
Proof.
  induction rs as [|r rs IH]; intros s k task arg Hk Hrs Henc.
  - cbn. rewrite !app_nil_r. destruct s; reflexivity.
  - inversion Hrs as [|? ? Hr Hrs']; subst.
    inversion Henc as [|? ? [Ht Ha] Henc']; subst.
    assert (Hlt : (k < List.length (coros s))%nat)
      by (eapply lookup_lt_Some; eauto).
    cbn [steps_return flat_map app]. rewrite !run_cons.
    rewrite (step_exec _ _ _ _ (step_runs s k task arg (Ok r) Hk)).
    erewrite (step_exec _ _ (TaskResumes k));
      [|apply (task_resumes_more _ k task r); try assumption;
        cbn; apply list_lookup_insert_eq; exact Hlt].
    fold (steps_return k rs).
    rewrite (IH _ k task None); [| |exact Hrs'|exact Henc'].
    2:{ cbn. apply list_lookup_insert_eq. rewrite length_insert. exact Hlt. }
    destruct rs as [|r' rs].
    + state_eq. apply list_insert_insert_eq.
    + state_eq. rewrite !list_insert_insert_eq. reflexivity.
Qed.

(** *** [transcribe_audio] *)

Lemma status_ok_test (r : Response) :
  status_ok r -> (400 <=? status_code r) && (status_code r <? 600) = false.
Proof.
  unfold status_ok. intros H.
  destruct (Z.leb_spec 400 (status_code r)), (Z.ltb_spec (status_code r) 600);
    simpl; try reflexivity; lia.
Qed.

Lemma status_error_test (r : Response) :
  400 <= status_code r < 600 ->
  (400 <=? status_code r) && (status_code r <? 600) = true.
Proof.
  intros H.
  destruct (Z.leb_spec 400 (status_code r)), (Z.ltb_spec (status_code r) 600);
    simpl; try reflexivity; lia.
Qed.

Lemma transcribe_no_path (env : AsrEnv) (file_path : option pystr) (s : State) :
  Py.truthy_opt file_path = false ->
  transcribe_audio env file_path s = (Ok [], s).
Proof.
  intros Hp. unfold transcribe_audio.
  destruct file_path as [p|]; [|reflexivity].
  simpl in Hp. rewrite Hp. reflexivity.
Qed.

Lemma transcribe_answer (env : AsrEnv) (p : pystr) (obj : option pystr) (s : State) :
  Py.truthy p = true -> service_answers env p obj ->
  transcribe_audio env (Some p) s =
    (Ok (text_of obj), posted env (asr_request env (local_path p)) s).
Proof.
  intros Hp (Hopen & r & Hpost & Hstatus & Hbody).
  unfold transcribe_audio.
  rewrite Hp. unfold_handlers. cbn [negb]. rewrite Hopen. cbn.
  rewrite Hpost. rewrite (status_ok_test r Hstatus), Hbody.
  destruct obj; reflexivity.
Qed.

Lemma transcribe_failure (env : AsrEnv) (p e : pystr) (s : State) :
  Py.truthy p = true -> asr_fails env p e ->
  exists s0,
    transcribe_audio env (Some p) s = (Ok [], set_log (log s ++ [AsrError e]) s0)
    /\ (s0 = s \/ s0 = posted env (asr_request env (local_path p)) s).
Proof.
  intros Hp Hfail. pose proof (asr_error_encodable env p e Hfail) as He.
  unfold transcribe_audio. rewrite Hp. cbn [negb].
  destruct Hfail as [Hopen|Hopen Hpost|r Hopen Hpost Hstatus Herr
                    |r Hopen Hpost Hstatus Hbody];
    unfold_handlers.
  - rewrite Hopen. prints. exists s. split; [|left; reflexivity].
    reflexivity.
  - rewrite Hopen. cbn. rewrite Hpost. prints.
    eexists. split; [|right; reflexivity]. reflexivity.
  - rewrite Hopen. cbn. rewrite Hpost, (status_error_test r Hstatus), Herr.
    prints. eexists. split; [|right; reflexivity]. reflexivity.
  - rewrite Hopen. cbn. rewrite Hpost, (status_ok_test r Hstatus).
    eexists. split; [|right; reflexivity].
    destruct Hbody as [-> | ->]; prints; reflexivity.
Qed.

(** [transcribe_audio] returns a text, and touches the log and the lists
    of requests only. *)
Lemma transcribe_frame (env : AsrEnv) (file_path : option pystr) (s : State) :
  exists text lines reqs https,
    transcribe_audio env file_path s
    = (Ok text,
       set_log (log s ++ lines)
         (set_http_requests (http_requests s ++ https)
            (set_asr_requests (asr_requests s ++ reqs) s))).
Proof.
  assert (Hsame : s = set_log (log s ++ [])
                        (set_http_requests (http_requests s ++ [])
                           (set_asr_requests (asr_requests s ++ []) s)))
    by (rewrite !app_nil_r; destruct s; reflexivity).
  unfold transcribe_audio. destruct file_path as [p|];
    [|exists [], [], [], []; cbn; f_equal; exact Hsame].
  destruct (Py.truthy p); cbn [negb];
    [|exists [], [], [], []; cbn; f_equal; exact Hsame].
  unfold_handlers.
  destruct (open_rb env _) eqn:Hopen.
  2:{ prints. eexists [], _, [], []. f_equal. state_eq;
        rewrite ?app_nil_r; reflexivity. }
  cbn.
  destruct (requests_post env _) as [r|] eqn:Hpost.
  2:{ prints. eexists [], _, _, _. f_equal. }
  destruct ((400 <=? status_code r) && (status_code r <? 600)).
  { prints. eexists [], _, _, _. f_equal. }
  destruct (body r) as [?|[?|]|?] eqn:Hbody; prints.
  - eexists [], _, _, _. f_equal.
  - eexists _, [], _, _. f_equal. state_eq; rewrite ?app_nil_r; reflexivity.
  - eexists _, [], _, _. f_equal. state_eq; rewrite ?app_nil_r; reflexivity.
  - eexists [], _, _, _. f_equal.
Qed.

Lemma transcribe_returns (env : AsrEnv) (file_path : option pystr) (s : State) :
  exists text, fst (transcribe_audio env file_path s) = Ok text.
Proof.
  destruct (transcribe_frame env file_path s) as (text & ? & ? & ? & H).
  exists text. rewrite H. reflexivity.
Qed.

(** One call of [requests.post] once the file is open, whatever comes
    back. *)
Lemma transcribe_opened (env : AsrEnv) (p : pystr) (s : State) :
  Py.truthy p = true -> open_rb env (local_path p) = Ok tt ->
  exists lines,
    snd (transcribe_audio env (Some p) s)
    = set_log (log s ++ lines) (posted env (asr_request env (local_path p)) s).
Proof.
  intros Hp Hopen. unfold transcribe_audio. rewrite Hp. cbn [negb].
  unfold_handlers. rewrite Hopen. cbn.
  destruct (requests_post env _) as [r|] eqn:Hpost.
  2:{ prints. eexists. reflexivity. }
  destruct ((400 <=? status_code r) && (status_code r <? 600)).
  { prints. eexists. reflexivity. }
  destruct (body r) as [?|[?|]|?] eqn:Hbody; prints;
    first [ eexists; reflexivity
          | exists []; cbn; state_eq; rewrite ?app_nil_r; reflexivity ].
Qed.

(** No request unless the file opens. *)
Lemma transcribe_not_opened (env : AsrEnv) (p e : pystr) (s : State) :
  open_rb env (local_path p) = Raise e ->
  asr_requests (snd (transcribe_audio env (Some p) s)) = asr_requests s
  /\ http_requests (snd (transcribe_audio env (Some p) s)) = http_requests s.
Proof.
  intros Hopen. unfold transcribe_audio.
  destruct (Py.truthy p); cbn [negb]; [|split; reflexivity].
  unfold_handlers. rewrite Hopen. prints. split; reflexivity.
Qed.

Lemma temp_path_truthy (env : DeviceEnv) : Py.truthy (temp_path env) = true.
Proof.
  unfold temp_path, Py.path_join. cbn [Py.startswith Py.lit].
  change (Py.startswith _ _) with false. cbn iota.
  destruct (last (gettempdir env)) as [c|]; [|reflexivity].
  destruct (c =? 47)%N; destruct (gettempdir env); reflexivity.
Qed.

Lemma voice_start_ok (s : State) (env : DeviceEnv) (rate : Z) :
  is_recording s = false -> voice_disabled s = false ->
  query_devices env = Ok rate -> input_stream env = Ok tt ->
  stream_start env = Ok tt ->
  exec (VoiceClick env) s =
    (Ok tt,
     set_log (log s ++ [Listening])
       (set_has_stream true
          (set_samplerate rate
             (set_is_recording true (set_recording_data [] s))))).
Proof.
  intros Hrec Hdis Hq Hc Hs. unfold_handlers.
  rewrite Hdis, Hrec, Hq, Hc, Hs. cbn. prints. reflexivity.
Qed.

Lemma start_error_encodable (env : DeviceEnv) (e : pystr) :
  start_fails env e -> Py.encodable e = true.
Proof.
  intros [H|? ? H|? ? ? H]; eapply device_error_encodable; eauto 7.
Qed.

Lemma stop_error_encodable (s : State) (env : DeviceEnv) (e : pystr) :
  stop_fails s env e -> Py.encodable e = true.
Proof.
  intros [? H|? ? H|? ? H]; eapply device_error_encodable; eauto 7.
Qed.

Lemma voice_start_fails (s : State) (env : DeviceEnv) (e : pystr) :
  is_recording s = false -> voice_disabled s = false -> start_fails env e ->
  let s' := step s (VoiceClick env) in
  fst (exec (VoiceClick env) s) = Ok tt
  /\ log s' = log s ++ [Errored e]
  /\ is_recording s' = false /\ voice_disabled s' = false
  /\ coros s' = coros s /\ agent_calls s' = agent_calls s
  /\ asr_requests s' = asr_requests s.
Proof.
  intros Hrec Hdis Hfail. pose proof (start_error_encodable env e Hfail) as He.
  unfold step. unfold_handlers. rewrite Hdis, Hrec.
  destruct Hfail as [Hq|rate Hq Hc|rate Hq Hc Hs].
  - rewrite Hq. cbn. prints. cbn. rewrite Hdis. repeat split; reflexivity.
  - rewrite Hq, Hc. cbn. prints. cbn. rewrite Hdis. repeat split; reflexivity.
  - rewrite Hq, Hc, Hs. cbn. prints. cbn. rewrite Hdis.
    repeat split; reflexivity.
Qed.

Lemma voice_stop_ok (s : State) (env : DeviceEnv) :
  is_recording s = true -> voice_disabled s = false ->
  has_stream s = false \/ (stream_stop env = Ok tt /\ stream_close env = Ok tt) ->
  recording_data s <> [] -> write_wav env = Ok tt ->
  exec (VoiceClick env) s =
    (Ok tt,
     set_coros (coros s ++ [VoiceAwaitTranscribe (temp_path env)])
       (set_log (log s ++ [Transcribing]) (set_is_recording false s))).
Proof.
  intros Hrec Hdis Hstream Hdata Hw. unfold_handlers. rewrite Hdis, Hrec.
  cbn. destruct (recording_data s) as [|c cs] eqn:Hd; [congruence|].
  destruct Hstream as [Hs | [Hstop Hclose]].
  - rewrite Hs. cbn. rewrite Hd, Hw. cbn. prints. f_equal. state_eq.
  - rewrite Hstop, Hclose. destruct (has_stream s) eqn:Hs; cbn;
      rewrite Hd, Hw; cbn; prints; f_equal; state_eq.
Qed.

Lemma voice_stop_fails (s : State) (env : DeviceEnv) (e : pystr) :
  is_recording s = true -> voice_disabled s = false -> stop_fails s env e ->
  let s' := step s (VoiceClick env) in
  fst (exec (VoiceClick env) s) = Ok tt
  /\ log s' = log s ++ [Errored e]
  /\ is_recording s' = false /\ voice_disabled s' = false
  /\ coros s' = coros s /\ agent_calls s' = agent_calls s
  /\ asr_requests s' = asr_requests s.
Proof.
  intros Hrec Hdis Hfail. pose proof (stop_error_encodable s env e Hfail) as He.
  unfold step. unfold_handlers. rewrite Hdis, Hrec.
  cbn. destruct Hfail as [Hs Hstop|Hs Hstop Hclose|Hstream Hdata Hw].
  - rewrite Hs, Hstop. cbn. prints. repeat split; reflexivity.
  - rewrite Hs, Hstop, Hclose. cbn. prints. repeat split; reflexivity.
  - destruct (recording_data s) as [|c cs] eqn:Hd; [congruence|].
    destruct Hstream as [Hs | [Hstop Hclose]].
    + rewrite Hs. cbn. rewrite Hd, Hw. cbn. prints. repeat split; reflexivity.
    + rewrite Hstop, Hclose.
      destruct (has_stream s); cbn; rewrite Hd, Hw; cbn; prints;
        repeat split; reflexivity.
Qed.

(** A click that ends a recording without chunks: whatever the device
    answers, nothing is written, nothing is awaited. *)
Lemma voice_stop_empty (s : State) (env : DeviceEnv) :
  is_recording s = true -> voice_disabled s = false -> recording_data s = [] ->
  let s' := step s (VoiceClick env) in
  fst (exec (VoiceClick env) s) = Ok tt
  /\ (log s' = log s \/ exists e, log s' = log s ++ [Errored e])
  /\ is_recording s' = false /\ voice_disabled s' = false
  /\ coros s' = coros s /\ agent_calls s' = agent_calls s
  /\ asr_requests s' = asr_requests s.
Proof.
  intros Hrec Hdis Hdata. unfold step. unfold_handlers. rewrite Hdis, Hrec.
  cbn. destruct (has_stream s); cbn.
  - destruct (stream_stop env) as [[]|e] eqn:Hstop; cbn.
    + destruct (stream_close env) as [[]|e] eqn:Hclose; cbn.
      * rewrite Hdata. cbn. repeat split; try reflexivity. left; reflexivity.
      * prints. repeat split; try reflexivity. right; eexists; reflexivity.
    + prints. repeat split; try reflexivity. right; eexists; reflexivity.
  - rewrite Hdata. cbn. repeat split; try reflexivity. left; reflexivity.
Qed.

(** *** The transcription thread and the rest of [on_voice_click] *)

Lemma transcribe_runs (s : State) (k : nat) (p : pystr) (env : AsrEnv) :
  coros s !! k = Some (VoiceAwaitTranscribe p) ->
  exec (TranscribeRuns k env) s =
    (Ok tt,
     let s' := snd (transcribe_audio env (Some p) s) in
     set_coros (<[k:=VoiceTranscribed (fst (transcribe_audio env (Some p) s))]>
                  (coros s')) s').
Proof.
  intros Hk. unfold exec, bind, get. rewrite Hk.
  destruct (transcribe_audio env (Some p) s) as [r s']. reflexivity.
Qed.

(** The text came back empty: one line, and the coroutine is over. *)
Lemma voice_resumes_empty (s : State) (k : nat) :
  coros s !! k = Some (VoiceTranscribed (Ok [])) ->
  exec (VoiceResumes k) s =
    (Ok tt,
     set_coros (delete k (coros s)) (set_log (log s ++ [TranscriptionFailed]) s)).
Proof.
  intros Hk. unfold_handlers. rewrite Hk. cbn. prints. reflexivity.
Qed.

(** The text is white space only: it is shown, and [send_message] drops
    it. *)
Lemma voice_resumes_blank (s : State) (k : nat) (text : pystr) :
  coros s !! k = Some (VoiceTranscribed (Ok text)) ->
  text <> [] -> Py.strip text = [] ->
  exec (VoiceResumes k) s =
    (Ok tt,
     set_coros (delete k (coros s))
       (set_log (log s ++ [Transcribed text]) (set_input_value text s))).
Proof.
  intros Hk Htext Hblank. apply truthy_cons in Htext.
  unfold_handlers. rewrite Hk. cbn. rewrite Htext. cbn. prints. cbn.
  rewrite Hblank. reflexivity.
Qed.

(** The text holds a task: it is shown, submitted as if typed, and the
    task is queued behind the coroutines that are waiting. *)
Lemma voice_resumes_task (s : State) (k : nat) (text : pystr) :
  coros s !! k = Some (VoiceTranscribed (Ok text)) ->
  Py.strip text <> [] -> Py.encodable text = true ->
  exec (VoiceResumes k) s =
    (Ok tt,
     set_coros (delete k (coros s) ++ [TaskScheduled (Py.strip text)])
       (set_log (log s ++ [Transcribed text; You (Py.strip text)])
          (set_input_value [] s))).
Proof.
  intros Hk Htask Henc.
  assert (Htext : Py.truthy text = true).
  { destruct text; [exfalso; apply Htask; reflexivity|reflexivity]. }
  apply truthy_cons in Htask.
  unfold_handlers. rewrite Hk. cbn. rewrite Htext. cbn. prints. cbn.
  rewrite Htask. cbn. unfold_handlers. prints. cbn.
  rewrite delete_app_lt by (eapply lookup_lt_Some; exact Hk).
  f_equal. state_eq.
Qed.

(** The text does not encode: the field holds it, [print] raises inside
    the [try], and the [except] clause reports that. *)
Lemma voice_resumes_unprintable (s : State) (k : nat) (text : pystr) :
  coros s !! k = Some (VoiceTranscribed (Ok text)) ->
  Py.encodable text = false ->
  exists start c run,
    exec (VoiceResumes k) s =
      (Ok tt,
       set_coros (delete k (coros s))
         (set_voice_disabled false
            (set_is_recording false
               (set_log (log s ++ [Errored (Py.unicode_encode_error start c run)])
                  (set_input_value text s))))).
Proof.
  intros Hk Henc.
  assert (Htext : Py.truthy text = true) by (destruct text; [discriminate Henc|reflexivity]).
  assert (Hm : Py.encodable (SPARKLES ++ Py.lit " " ++ text) = false).
  { rewrite !encodable_app, lit_encodable. exact Henc. }
  destruct (print_line_raise _ Hm) as (start & c & run & Hp).
  exists start, c, run.
  unfold_handlers. rewrite Hk. cbn. rewrite Htext. cbn.
  unfold SPARKLES in Hp. cbn [app] in Hp. rewrite Hp. cbn. prints.
  reflexivity.
Qed.

(** The thread ended with an exception: the [except] clause reports it. *)
Lemma voice_resumes_raise (s : State) (k : nat) (e : pystr) :
  coros s !! k = Some (VoiceTranscribed (Raise e)) -> Py.encodable e = true ->
  exec (VoiceResumes k) s =
    (Ok tt,
     set_coros (delete k (coros s))
       (set_voice_disabled false
          (set_is_recording false (set_log (log s ++ [Errored e]) s)))).
Proof.
  intros Hk He. unfold_handlers. rewrite Hk. cbn. prints. reflexivity.
Qed.

Lemma print_line_error3 (msg e : pystr) :
  Py.utf8_strict (Py.lit "UI LOG: " ++ msg) = Raise e ->
  Py.encodable msg = false /\ Py.encodable e = true
  /\ exists start c run, e = Py.unicode_encode_error start c run.
Proof.
  intros H. split; [eapply print_line_error, H|].
  split; [eapply print_line_error, H|]. apply utf8_error in H as [_ H].
  exact H.
Qed.

(** What the outcome of a [print] says about the message. *)
Ltac learn :=
  repeat match goal with
         | H : Py.utf8_strict (Py.lit "UI LOG: " ++ _) = Ok _ |- _ =>
           apply utf8_unit in H;
           rewrite ?encodable_app, ?lit_encodable in H;
           rewrite ?encodable_cons in H by reflexivity;
           rewrite ?encodable_app, ?lit_encodable in H;
           cbn [andb] in H
         | H : Py.utf8_strict (Py.lit "UI LOG: " ++ _) = Raise _ |- _ =>
           apply print_line_error3 in H; destruct H as (H & ? & ?);
           rewrite ?encodable_app, ?lit_encodable in H;
           rewrite ?encodable_cons in H by reflexivity;
           rewrite ?encodable_app, ?lit_encodable in H;
           cbn [andb] in H
         end.

Ltac unfold_goal :=
  unfold exec, resume, settle, send_message, run_task, audio_callback,
    on_voice_click, on_voice_click_resume, start_except, stop_except,
    run_agent_task, run_agent_task_resume, run_agent_task_except,
    agent_reset, agent_step, transcribe_audio, post, raise_for_status,
    json_get_text, add_log, print, try_except, bind, ret, call, get,
    modify.

(** All the ways a turn can go: the label, the coroutine it names, and
    every answer of the world it looks at. *)
Ltac turn_cases :=
  unfold_goal; cbn; unfold_goal;
  repeat first
    [ progress prints
    | match goal with
      | |- context [match ?x with _ => _ end] =>
        lazymatch x with
        | context [match _ with _ => _ end] => fail
        | _ => destruct x eqn:?; cbn; unfold_goal; learn
        end
      end ].

(** *** Which turns return *)

Lemma voice_click_returns (env : DeviceEnv) (s : State) :
  fst (exec (VoiceClick env) s) = Ok tt.
Proof. turn_cases; reflexivity. Qed.

Lemma transcribe_runs_returns (k : nat) (env : AsrEnv) (s : State) :
  fst (exec (TranscribeRuns k env) s) = Ok tt.
Proof.
  destruct (coros s !! k) as [[task|task arg|task r|p|r]|] eqn:Hk;
    try (unfold exec, bind, get; rewrite Hk; reflexivity).
  rewrite (transcribe_runs s k p env Hk). reflexivity.
Qed.

(** The exception a turn lets out is the [UnicodeEncodeError] of a
    [print], in [send_message] or in an [except] clause. *)
Lemma exec_raises (l : Label) (s : State) (e : pystr) :
  fst (exec l s) = Raise e ->
  (exists start c run, e = Py.unicode_encode_error start c run)
  /\ ((l = SendMessage /\ Py.encodable (input_value s) = false)
      \/ (exists k reset task,
             l = TaskStarts k reset
             /\ coros s !! k = Some (TaskScheduled task)
             /\ (Py.encodable task = false
                 \/ exists e', reset = Raise e' /\ Py.encodable e' = false))
      \/ (exists k task e',
             l = TaskResumes k
             /\ coros s !! k = Some (TaskStepped task (Raise e'))
             /\ Py.encodable e' = false)
      \/ (exists k e',
             l = VoiceResumes k
             /\ coros s !! k = Some (VoiceTranscribed (Raise e'))
             /\ Py.encodable e' = false)).
Proof.
  destruct l as [text| |env|indata|k reset|k r|k|k env|k];
    try (intros Hr; rewrite ?voice_click_returns, ?transcribe_runs_returns in Hr;
         discriminate Hr);
    turn_cases; intros Hr; try discriminate Hr;
    injection Hr as <-; (split; [assumption|]).
  - left. split; [reflexivity|]. rewrite <- strip_encodable. assumption.
  - right; left. do 3 eexists. split; [reflexivity|]. split; [eassumption|].
    right. eexists. split; [reflexivity|assumption].
  - right; left. do 3 eexists. split; [reflexivity|]. split; [eassumption|].
    left. assumption.
  - right; right; left. do 3 eexists. split; [reflexivity|].
    split; [eassumption|assumption].
  - right; right; right. do 2 eexists. split; [reflexivity|].
    split; [eassumption|assumption].
Qed.

(** *** Runs *)

Lemma run_audio (chunks : list Chunk) :
  forall s : State,
    run s (map AudioCallback chunks) =
      set_recording_data (recording_data s ++ chunks) s.
Proof.
  induction chunks as [|c chunks IH]; intros s.
  - cbn. rewrite app_nil_r. destruct s; reflexivity.
  - cbn [map]. rewrite run_cons, IH. unfold step. unfold_handlers.
    destruct s; cbn. rewrite <- app_assoc. reflexivity.
Qed.

Lemma steps_events_app (rs1 rs2 : list StepResult) :
  steps_events (rs1 ++ rs2) = steps_events rs1 ++ steps_events rs2.
Proof. unfold steps_events. apply flat_map_app. Qed.

Lemma steps_return_app (k : nat) (rs1 rs2 : list StepResult) :
  steps_return k (rs1 ++ rs2) = steps_return k rs1 ++ steps_return k rs2.
Proof. unfold steps_return. apply flat_map_app. Qed.

(** A task that is scheduled as coroutine [k] and whose steps all return:
    the whole of [run_agent_task]. *)
Lemma task_run (s : State) (k : nat) (task : pystr)
    (rs : list StepResult) (final : StepResult) :
  coros s !! k = Some (TaskScheduled task) -> Py.encodable task = true ->
  Forall (fun r => finished r = false) rs -> finished final = true ->
  Forall step_printable rs -> step_printable final ->
  Py.encodable (Py.format_opt (message final)) = true ->
  run s (TaskStarts k (Ok tt) :: steps_return k (rs ++ [final])) =
    set_coros (delete k (coros s))
      (set_agent_calls (agent_calls s ++ task_calls task rs)
         (set_log
            (log s ++ [Started task; Waiting] ++ steps_events (rs ++ [final])
               ++ [Finished (message final)]) s)).
Proof.
  intros Hk Htask Hrs Hfinal Hprs [Ht Ha] Hm.
  assert (Hlt : (k < List.length (coros s))%nat) by (eapply lookup_lt_Some; eauto).
  rewrite run_cons, (step_exec _ _ _ _ (task_starts_ok s k task Hk Htask)).
  rewrite steps_return_app, run_app.
  rewrite (steps_loop rs _ k task (Some task)); [| |exact Hrs|exact Hprs].
  2:{ cbn. apply list_lookup_insert_eq. exact Hlt. }
  cbn [steps_return flat_map app]. rewrite !run_cons. cbn [run fold_left].
  rewrite steps_events_app. unfold task_calls.
  destruct rs as [|r rs].
  - erewrite (step_exec _ _ (StepReturns k _));
      [|apply (step_runs _ k task (Some task)); cbn;
        apply list_lookup_insert_eq; exact Hlt].
    erewrite (step_exec _ _ (TaskResumes k));
      [|apply (task_resumes_finished _ k task final); try assumption; cbn;
        apply list_lookup_insert_eq; rewrite length_insert; exact Hlt].
    state_eq. rewrite !delete_insert_lt; rewrite ?length_insert; auto.
  - erewrite (step_exec _ _ (StepReturns k _));
      [|apply (step_runs _ k task None); cbn;
        apply list_lookup_insert_eq; rewrite length_insert; exact Hlt].
    erewrite (step_exec _ _ (TaskResumes k));
      [|apply (task_resumes_finished _ k task final); try assumption; cbn;
        apply list_lookup_insert_eq; rewrite !length_insert; exact Hlt].
    state_eq.
    + cbn. do 2 f_equal. change (CallStep None :: repeat (CallStep None) (List.length rs))
        with (repeat (CallStep None) (S (List.length rs))).
      rewrite <- repeat_cons. reflexivity.
    + rewrite !delete_insert_lt; rewrite ?length_insert; auto.
Qed.

(** *** The voice button between two turns *)

(** [voice_button.disabled] is set and cleared inside one turn: between
    two turns the button is enabled. *)
Lemma step_keeps_button_enabled (s : State) (l : Label) :
  voice_disabled s = false -> voice_disabled (step s l) = false.
Proof.
  intros Hdis. unfold step.
  destruct l as [text| |env|indata|k reset|k r|k|k env|k];
    turn_cases; cbn; congruence.
Qed.

Lemma run_keeps_button_enabled (ls : list Label) :
  forall s : State, voice_disabled s = false -> voice_disabled (run s ls) = false.
Proof.
  induction ls as [|l ls IH]; intros s Hdis; [exact Hdis|].
  rewrite run_cons. apply IH. apply step_keeps_button_enabled. exact Hdis.
Qed.

(** The two turns that end a transcription: the worker thread, then the
    rest of [on_voice_click]. *)
Lemma failed_transcription_run (s : State) (k : nat) (p : pystr) (env : AsrEnv)
    (e : pystr) :
  coros s !! k = Some (VoiceAwaitTranscribe p) -> Py.truthy p = true ->
  asr_fails env p e ->
  exists s0,
    run s [TranscribeRuns k env; VoiceResumes k] =
      set_coros (delete k (coros s))
        (set_log (log s ++ [AsrError e; TranscriptionFailed]) s0)
    /\ (s0 = s \/ s0 = posted env (asr_request env (local_path p)) s).
Proof.
  intros Hk Hp Hfail.
  assert (Hlt : (k < List.length (coros s))%nat) by (eapply lookup_lt_Some; eauto).
  destruct (transcribe_failure env p e s Hp Hfail) as (s0 & Hrun & Hs0).
  exists s0. split; [|exact Hs0]. cbn [run fold_left].
  assert (H1 : step s (TranscribeRuns k env) =
    set_coros (<[k:=VoiceTranscribed (Ok [])]> (coros s))
      (set_log (log s ++ [AsrError e]) s0)).
  { unfold step. rewrite (transcribe_runs s k p env Hk), Hrun. cbn.
    destruct Hs0 as [-> | ->]; reflexivity. }
  rewrite H1. unfold step.
  rewrite voice_resumes_empty
    by (cbn; apply list_lookup_insert_eq; destruct Hs0 as [-> | ->]; exact Hlt).
  destruct Hs0 as [-> | ->]; state_eq; apply delete_insert_lt; exact Hlt.
Qed.

Lemma answered_transcription_step (s : State) (k : nat) (p : pystr)
    (env : AsrEnv) (obj : option pystr) :
  coros s !! k = Some (VoiceAwaitTranscribe p) -> Py.truthy p = true ->
  service_answers env p obj ->
  step s (TranscribeRuns k env) =
    set_coros (<[k:=VoiceTranscribed (Ok (text_of obj))]> (coros s))
      (posted env (asr_request env (local_path p)) s).
Proof.
  intros Hk Hp Hanswer. unfold step.
  rewrite (transcribe_runs s k p env Hk).
  rewrite (transcribe_answer env p obj s Hp Hanswer). reflexivity.
Qed.

Lemma empty_transcription_run (s : State) (k : nat) (p : pystr) (env : AsrEnv)
    (obj : option pystr) :
  coros s !! k = Some (VoiceAwaitTranscribe p) -> Py.truthy p = true ->
  service_answers env p obj -> text_of obj = [] ->
  run s [TranscribeRuns k env; VoiceResumes k] =
    set_coros (delete k (coros s))
      (set_log (log s ++ [TranscriptionFailed])
         (posted env (asr_request env (local_path p)) s)).
Proof.
  intros Hk Hp Hanswer Hempty.
  assert (Hlt : (k < List.length (coros s))%nat) by (eapply lookup_lt_Some; eauto).
  cbn [run fold_left].
  rewrite (answered_transcription_step s k p env obj Hk Hp Hanswer), Hempty.
  unfold step.
  rewrite voice_resumes_empty by (cbn; apply list_lookup_insert_eq; exact Hlt).
  state_eq. apply delete_insert_lt. exact Hlt.
Qed.

Lemma blank_transcription_run (s : State) (k : nat) (p : pystr) (env : AsrEnv)
    (text : pystr) :
  coros s !! k = Some (VoiceAwaitTranscribe p) -> Py.truthy p = true ->
  service_answers env p (Some text) -> text <> [] -> Py.strip text = [] ->
  run s [TranscribeRuns k env; VoiceResumes k] =
    set_coros (delete k (coros s))
      (set_log (log s ++ [Transcribed text])
         (set_input_value text
            (posted env (asr_request env (local_path p)) s))).
Proof.
  intros Hk Hp Hanswer Htext Hblank.
  assert (Hlt : (k < List.length (coros s))%nat) by (eapply lookup_lt_Some; eauto).
  cbn [run fold_left].
  rewrite (answered_transcription_step s k p env (Some text) Hk Hp Hanswer).
  unfold step.
  rewrite (voice_resumes_blank _ k text)
    by (try (cbn; apply list_lookup_insert_eq); assumption).
  state_eq. apply delete_insert_lt. exact Hlt.
Qed.

(** A transcription that holds a task: the text is shown and submitted. *)
Lemma task_transcription_run (s : State) (k : nat) (p : pystr) (env : AsrEnv)
    (text : pystr) :
  coros s !! k = Some (VoiceAwaitTranscribe p) -> Py.truthy p = true ->
  service_answers env p (Some text) -> Py.strip text <> [] ->
  Py.encodable text = true ->
  run s [TranscribeRuns k env; VoiceResumes k] =
    set_coros (delete k (coros s) ++ [TaskScheduled (Py.strip text)])
      (set_log (log s ++ [Transcribed text; You (Py.strip text)])
         (set_input_value []
            (posted env (asr_request env (local_path p)) s))).
Proof.
  intros Hk Hp Hanswer Htask Henc.
  assert (Hlt : (k < List.length (coros s))%nat) by (eapply lookup_lt_Some; eauto).
  cbn [run fold_left].
  rewrite (answered_transcription_step s k p env (Some text) Hk Hp Hanswer).
  unfold step.
  rewrite (voice_resumes_task _ k text)
    by (try (cbn; apply list_lookup_insert_eq); assumption).
  state_eq. rewrite delete_insert_lt by exact Hlt. reflexivity.
Qed.

(** * The claims *)

(** ** Blank submissions *)

(** C8: submitting a text that is blank or made of white space only is a
    silent no-op -- no line is written, the agent is neither reset nor
    stepped, no coroutine is queued -- and an idle state stays idle. *)
Theorem blank_submit_is_silent (s : State) (text : pystr) :
  Py.strip text = [] ->
  let s' := run s [UserTypes text; SendMessage] in
  fst (exec SendMessage (step s (UserTypes text))) = Ok tt
  /\ s' = step s (UserTypes text)
  /\ log s' = log s /\ agent_calls s' = agent_calls s
  /\ asr_requests s' = asr_requests s /\ coros s' = coros s
  /\ (idle s -> idle s').
Proof.
  intros Hblank s'. subst s'. cbn [run fold_left].
  assert (Hsend : send_message (step s (UserTypes text))
                  = (Ok tt, step s (UserTypes text))).
  { apply send_message_blank. exact Hblank. }
  assert (Hstep : step (step s (UserTypes text)) SendMessage
                  = step s (UserTypes text)).
  { unfold step at 1. cbn [exec]. rewrite Hsend. reflexivity. }
  rewrite Hstep. cbn [exec]. rewrite Hsend.
  repeat (split; [reflexivity|]).
  intros Hidle. exact Hidle.
Qed.

Lemma blank_submit_is_silent_witness :
  Py.strip [32%N; 9%N; 12288%N] = []
  /\ log (run initial [UserTypes [32%N; 9%N; 12288%N]; SendMessage]) = []
  /\ idle (run initial [UserTypes [32%N; 9%N; 12288%N]; SendMessage]).
Proof.
  assert (Hblank : Py.strip [32%N; 9%N; 12288%N] = []) by reflexivity.
  pose proof (blank_submit_is_silent initial [32%N; 9%N; 12288%N] Hblank)
    as (_ & _ & Hlog & _ & _ & _ & Hidle).
  split; [exact Hblank|]. split; [exact Hlog|].
  apply Hidle. repeat split.
Defined.

(** ** The loop of [run_agent_task] *)

(** The turns of a submission: the text is typed and sent. *)
Lemma submit_run (s : State) (text : pystr) :
  Py.strip text <> [] -> Py.encodable text = true ->
  exec SendMessage (step s (UserTypes text)) =
    (Ok tt,
     set_coros (coros s ++ [TaskScheduled (Py.strip text)])
       (set_log (log s ++ [You (Py.strip text)]) (set_input_value [] s))).
Proof.
  intros Htask Henc. cbn [exec].
  rewrite send_message_task
    by (cbn; first [exact Htask | rewrite strip_encodable; exact Henc]).
  f_equal.
Qed.

(** C4, at a step result whose thinking note holds a lone surrogate and
    which is not finished: the loop does not report the result as its
    thinking line followed by its acting line and does not go on to the
    next step; [print] raises inside [add_log], the [except] clause writes
    an error line, and the task is over although no result was finished
    and no step failed. *)
Lemma step_note_ends_the_loop :
  let a := Py.lit "a" in
  let s := run initial [UserTypes a; SendMessage; TaskStarts 0 (Ok tt);
                        StepReturns 0 (Ok garbled)] in
  let s' := step s (TaskResumes 0) in
  finished garbled = false
  /\ coros s = [TaskStepped a (Ok garbled)]
  /\ agent_calls s = [CallReset; CallStep (Some a)]
  /\ log s = [You a; Started a; Waiting]
  /\ fst (exec (TaskResumes 0) s) = Ok tt
  /\ log s' = [You a; Started a; Waiting;
               Errored (Py.unicode_encode_error 10 55296 1)]
  /\ coros s' = []
  /\ agent_calls (run s' [StepReturns 0 (Ok verify); TaskResumes 0])
     = agent_calls s.
Proof. vm_compute. repeat split; reflexivity. Qed.

(** ** The lines of a successful task *)

(** C1, as stated, fails: a typed task whose single step finishes writes
    six lines, the sent text and the waiting line among them, where the
    stated sequence has four; a spoken task writes the transcribed text as
    well. *)
Lemma success_events_counterexample :
  log (run initial (typed_task (Py.lit "a") [] verify))
    <> spec_success_events false (Py.lit "a") [] verify
  /\ log (run initial
            (voice_task mic [[1]]
               (service 200 [] (JsonObject (Some (Py.lit "a"))) eq_refl)
               [] verify))
       <> spec_success_events true (Py.lit "a") [] verify.
Proof.
  split; vm_compute; intros H; discriminate H.
Qed.

(** C1, amended: for every successful task run from an idle state, whose
    text, step notes and final message are texts that standard output
    encodes, the lines written are exactly: the listening line, the
    transcribing line and the transcribed text (only for a spoken task),
    the sent text, the start line with the stripped text, the waiting
    line, one thinking line followed by one acting line per step, and the
    final message; the state is idle again afterwards. *)
Theorem successful_task_events (s : State) (rs : list StepResult)
    (final : StepResult) :
  idle s ->
  Forall (fun r => finished r = false) rs -> finished final = true ->
  Forall step_printable rs -> step_printable final ->
  Py.encodable (Py.format_opt (message final)) = true ->
  (forall text : pystr,
      Py.strip text <> [] -> Py.encodable text = true ->
      let s' := run s (typed_task text rs final) in
      log s' = log s ++ success_events None (Py.strip text) rs final
      /\ idle s')
  /\ (forall (dev : DeviceEnv) (chunks : list Chunk) (asr : AsrEnv)
             (heard : pystr),
         device_works dev -> chunks <> [] ->
         service_answers asr (temp_path dev) (Some heard) ->
         Py.strip heard <> [] -> Py.encodable heard = true ->
         let s' := run s (voice_task dev chunks asr rs final) in
         log s' = log s ++ success_events (Some heard) (Py.strip heard) rs final
         /\ idle s').
Proof.
  intros (Hrec & Hdis & Hcoros) Hrs Hfinal Hprs Hpfinal Hmsg. split.
  - intros text Htask Henc s'. subst s'. unfold typed_task.
    cbn [app]. do 2 rewrite run_cons.
    rewrite (step_exec _ _ _ _ (submit_run s text Htask Henc)).
    rewrite (task_run _ 0 (Py.strip text) rs final);
      [|cbn; rewrite Hcoros; reflexivity
       |rewrite strip_encodable; exact Henc|exact Hrs|exact Hfinal
       |exact Hprs|exact Hpfinal|exact Hmsg].
    cbn. rewrite <- app_assoc. split; [reflexivity|].
    rewrite Hcoros. repeat split; assumption.
  - intros dev chunks asr heard
           ((rate & Hq) & Hc & Hstart & Hstop & Hclose & Hw) Hchunks Hasr Htask
           Henc s'.
    subst s'. unfold voice_task.
    cbn [app]. rewrite run_cons, run_app, run_audio. do 3 rewrite run_cons.
    rewrite (step_exec _ _ _ _ (voice_start_ok s dev rate Hrec Hdis Hq Hc Hstart)).
    match goal with |- context [step ?st (VoiceClick dev)] => set (s2 := st) end.
    assert (H2 : step s2 (VoiceClick dev) =
      set_coros [VoiceAwaitTranscribe (temp_path dev)]
        (set_log (log s ++ [Listening; Transcribing])
           (set_is_recording false s2))).
    { unfold step. rewrite voice_stop_ok;
        [|reflexivity|exact Hdis|right; split; assumption|exact Hchunks|exact Hw].
      subst s2. state_eq. rewrite Hcoros. reflexivity. }
    rewrite H2. clear H2.
    match goal with |- context [step ?st (TranscribeRuns 0 asr)] => set (s3 := st) end.
    change (run (step (step s3 (TranscribeRuns 0 asr)) (VoiceResumes 0)))
      with (run (run s3 [TranscribeRuns 0 asr; VoiceResumes 0])).
    rewrite (task_transcription_run s3 0 (temp_path dev) asr heard eq_refl
               (temp_path_truthy dev) Hasr Htask Henc).
    rewrite (task_run _ 0 (Py.strip heard) rs final);
      [|reflexivity|rewrite strip_encodable; exact Henc|exact Hrs|exact Hfinal
       |exact Hprs|exact Hpfinal|exact Hmsg].
    subst s3 s2. cbn. rewrite <- !app_assoc. split; [reflexivity|].
    unfold idle. cbn. repeat split; first [reflexivity|exact Hdis].
Qed.

Lemma successful_task_events_witness :
  log (run initial (typed_task (Py.lit "open the settings ") [plan] verify))
    = success_events None (Py.lit "open the settings") [plan] verify
  /\ log (run initial
            (voice_task mic [[1]; [2]; [3]]
               (service 200 [] (JsonObject (Some (Py.lit "turn on the light")))
                        eq_refl)
               [plan] verify))
     = success_events (Some (Py.lit "turn on the light"))
                      (Py.lit "turn on the light") [plan] verify.
Proof.
  assert (Hidle : idle initial) by (repeat split).
  assert (Hrs : Forall (fun r => finished r = false) [plan]).
  { repeat constructor. }
  assert (Hprs : Forall step_printable [plan]).
  { repeat constructor. }
  assert (Hpfinal : step_printable verify) by (split; reflexivity).
  pose proof (successful_task_events initial [plan] verify Hidle Hrs eq_refl
                Hprs Hpfinal eq_refl)
    as [Htyped Hvoice].
  split.
  - apply (Htyped (Py.lit "open the settings ")); [discriminate|reflexivity].
  - apply (Hvoice mic [[1]; [2]; [3]]
             (service 200 [] (JsonObject (Some (Py.lit "turn on the light")))
                      eq_refl)
             (Py.lit "turn on the light")).
    + repeat split. exists 16000. reflexivity.
    + discriminate.
    + split; [reflexivity|].
      eexists. split; [reflexivity|]. split; [left; reflexivity|reflexivity].
    + discriminate.
    + reflexivity.
Defined.

(** ** Operations that arrive while something is in flight *)

(** C2, as stated, fails: while the task "a" waits for its first step, a
    second submission is not rejected -- the task "b" is begun, the agent
    is reset a second time and the start line of "b" is written before any
    final line of "a" -- and a click on the voice button opens a
    recording. *)
Lemma busy_submit_counterexample :
  let a := Py.lit "a" in
  let b := Py.lit "b" in
  let s1 := run initial [UserTypes a; SendMessage; TaskStarts 0 (Ok tt)] in
  let s2 := run s1 [UserTypes b; SendMessage; TaskStarts 1 (Ok tt)] in
  ~ idle s1 /\ coros s1 = [TaskAwaitStep a (Some a)]
  /\ log s2 = [You a; Started a; Waiting; You b; Started b; Waiting]
  /\ coros s2 = [TaskAwaitStep a (Some a); TaskAwaitStep b (Some b)]
  /\ agent_calls s2 = [CallReset; CallReset]
  /\ is_recording (step s1 (VoiceClick mic)) = true
  /\ log (step s1 (VoiceClick mic)) = log s1 ++ [Listening].
Proof.
  split; [intros (_ & _ & Hcoros); vm_compute in Hcoros; discriminate Hcoros|].
  vm_compute. repeat split; reflexivity.
Qed.

(** C2, amended: [ui.py] keeps no table of states and rejects nothing.  In
    every state -- also while a recording, a transcription or another task
    is in flight -- a submission of a text that is not blank and that
    standard output encodes is accepted: the handler returns, writes the
    sent text and queues a new task.  In every state without an active
    recording a click on the voice button opens one when the device works,
    and in every state with an active recording the click is the stop
    operation and ends it; the click handler returns in every state,
    whatever the device answers. *)
Theorem operations_are_never_rejected (s : State) :
  (forall text : pystr,
      Py.strip text <> [] -> Py.encodable text = true ->
      let s' := run s [UserTypes text; SendMessage] in
      fst (exec SendMessage (step s (UserTypes text))) = Ok tt
      /\ log s' = log s ++ [You (Py.strip text)]
      /\ coros s' = coros s ++ [TaskScheduled (Py.strip text)]
      /\ is_recording s' = is_recording s)
  /\ (forall env : DeviceEnv,
         is_recording s = false -> voice_disabled s = false ->
         device_works env ->
         let s' := step s (VoiceClick env) in
         is_recording s' = true /\ log s' = log s ++ [Listening]
         /\ coros s' = coros s)
  /\ (forall env : DeviceEnv,
         is_recording s = true -> voice_disabled s = false ->
         is_recording (step s (VoiceClick env)) = false)
  /\ (forall env : DeviceEnv, fst (exec (VoiceClick env) s) = Ok tt).
Proof.
  split; [|split; [|split]].
  - intros text Htask Henc s'. subst s'. cbn [run fold_left].
    rewrite (step_exec _ _ _ _ (submit_run s text Htask Henc)).
    rewrite (submit_run s text Htask Henc).
    cbn. repeat split; reflexivity.
  - intros env Hrec Hdis ((rate & Hq) & Hc & Hstart & _) s'. subst s'.
    unfold step. rewrite (voice_start_ok s env rate Hrec Hdis Hq Hc Hstart).
    cbn. repeat split; reflexivity.
  - intros env Hrec Hdis. unfold step. unfold_goal. rewrite Hdis, Hrec.
    turn_cases; reflexivity.
  - intros env. apply voice_click_returns.
Qed.

Lemma operations_are_never_rejected_witness :
  let s1 := run initial [UserTypes (Py.lit "a"); SendMessage; TaskStarts 0 (Ok tt)] in
  coros (run s1 [UserTypes (Py.lit "b"); SendMessage])
    = coros s1 ++ [TaskScheduled (Py.lit "b")]
  /\ is_recording (step s1 (VoiceClick mic)) = true
  /\ is_recording (step (step s1 (VoiceClick mic)) (VoiceClick mic)) = false.
Proof.
  intros s1.
  pose proof (operations_are_never_rejected s1) as (Hsend & Hstart & _ & _).
  pose proof (operations_are_never_rejected (step s1 (VoiceClick mic)))
    as (_ & _ & Hstop & _).
  split; [|split].
  - apply (Hsend (Py.lit "b")); [discriminate|reflexivity].
  - apply (Hstart mic); [reflexivity|reflexivity|].
    repeat split. exists 16000. reflexivity.
  - apply (Hstop mic); reflexivity.
Defined.

(** ** Failures of a stage *)

(** C3, at a step of the agent that raises an exception whose text holds
    a lone surrogate: the error is caught by the [except] clause of
    [run_agent_task], but the clause calls [add_log], whose [print]
    raises in turn; no failure line is written and the exception leaves
    the coroutine. *)
Lemma unprintable_error_escapes :
  let a := Py.lit "a" in
  let s := run initial [UserTypes a; SendMessage; TaskStarts 0 (Ok tt);
                        StepReturns 0 (Raise lone_surrogate)] in
  let s' := step s (TaskResumes 0) in
  coros s = [TaskStepped a (Raise lone_surrogate)]
  /\ log s = [You a; Started a; Waiting]
  /\ fst (exec (TaskResumes 0) s)
     = Raise (Py.unicode_encode_error 17 55296 1)
  /\ log s' = [You a; Started a; Waiting]
  /\ coros s' = [].
Proof. vm_compute. repeat split; reflexivity. Qed.

(** ** What the transcription returns *)

(** C5, as stated, fails: [transcribe_audio] hands the same value to
    [on_voice_click] when the service answers with an empty text and when
    it refuses the key, so the caller cannot tell the two apart. *)
Lemma empty_result_counterexample :
  fst (transcribe_audio nothing_heard (Some (temp_path mic)) initial)
  = fst (transcribe_audio unauthorized (Some (temp_path mic)) initial).
Proof. reflexivity. Qed.

(** C5, amended: a transcription whose text member is empty or missing
    returns the empty string, the very value returned after a network or
    authorization failure; the failure alone adds a line with the text of
    the exception, written by [transcribe_audio] itself.  In both cases
    [on_voice_click] then writes exactly one failed line, queues no task and
    makes no call on the agent.  In particular, ending a recording while the
    service refuses the key writes the transcribing line, the line of the
    exception and one failed line, and the agent is never called. *)
Theorem empty_text_and_failure_look_alike (s : State) (k : nat) (p : pystr)
    (env : AsrEnv) :
  coros s !! k = Some (VoiceAwaitTranscribe p) -> Py.truthy p = true ->
  let s' := run s [TranscribeRuns k env; VoiceResumes k] in
  (forall obj : option pystr,
      service_answers env p obj -> text_of obj = [] ->
      fst (transcribe_audio env (Some p) s) = Ok []
      /\ log s' = log s ++ [TranscriptionFailed]
      /\ agent_calls s' = agent_calls s /\ coros s' = delete k (coros s))
  /\ (forall e : pystr,
         asr_fails env p e ->
         fst (transcribe_audio env (Some p) s) = Ok []
         /\ log s' = log s ++ [AsrError e; TranscriptionFailed]
         /\ agent_calls s' = agent_calls s /\ coros s' = delete k (coros s)).
Proof.
  intros Hk Hp s'. subst s'. split.
  - intros obj Hanswer Hempty.
    rewrite (transcribe_answer env p obj s Hp Hanswer), Hempty.
    rewrite (empty_transcription_run s k p env obj Hk Hp Hanswer Hempty).
    cbn. repeat split; reflexivity.
  - intros e Hfail.
    destruct (failed_transcription_run s k p env e Hk Hp Hfail)
      as (s0 & -> & Hs0).
    destruct (transcribe_failure env p e s Hp Hfail) as (s1 & -> & _).
    destruct Hs0 as [-> | ->]; cbn; repeat split; reflexivity.
Qed.

Lemma empty_text_and_failure_look_alike_witness :
  let s := run initial [VoiceClick mic; AudioCallback [1]; VoiceClick mic] in
  log s = [Listening; Transcribing]
  /\ (let s' := run s [TranscribeRuns 0 unauthorized; VoiceResumes 0] in
      log s' = log s ++ [AsrError (Py.lit "401 Client Error: Unauthorized");
                         TranscriptionFailed]
      /\ agent_calls s' = [] /\ coros s' = [])
  /\ (let s' := run s [TranscribeRuns 0 nothing_heard; VoiceResumes 0] in
      log s' = log s ++ [TranscriptionFailed]
      /\ agent_calls s' = [] /\ coros s' = []).
Proof.
  intros s. split; [reflexivity|].
  assert (Hk : coros s !! 0%nat = Some (VoiceAwaitTranscribe (temp_path mic)))
    by reflexivity.
  pose proof (empty_text_and_failure_look_alike s 0 (temp_path mic) unauthorized
                Hk eq_refl) as [_ Hfail].
  pose proof (empty_text_and_failure_look_alike s 0 (temp_path mic) nothing_heard
                Hk eq_refl) as [Hempty _].
  split.
  - destruct (Hfail (Py.lit "401 Client Error: Unauthorized"))
      as (_ & Hlog & Hcalls & Hcoros).
    + eapply status_fails; [reflexivity|reflexivity| |reflexivity]. cbn. lia.
    + split; [exact Hlog|]. split; [exact Hcalls|exact Hcoros].
  - destruct (Hempty (Some [])) as (_ & Hlog & Hcalls & Hcoros).
    + split; [reflexivity|]. eexists.
      split; [reflexivity|]. split; [left; reflexivity|reflexivity].
    + reflexivity.
    + split; [exact Hlog|]. split; [exact Hcalls|exact Hcoros].
Defined.




(** ** A recording without chunks *)

Lemma errored_is_not_transcribing (e : pystr) : Errored e <> Transcribing.
Proof. unfold Errored, Transcribing. cbn. intros H. discriminate H. Qed.

(** C7: when a recording is stopped before any chunk was captured, the
    click neither opens a transcription -- no request is sent and no
    coroutine is left waiting for [transcribe_audio] -- nor writes the
    transcribing line; the handler returns normally whatever the device
    answers, the recording flag is cleared and the button is enabled, so
    that the state is idle when nothing else is in flight. *)
Theorem empty_recording_is_dropped (s : State) (env : DeviceEnv) :
  is_recording s = true -> voice_disabled s = false -> recording_data s = [] ->
  let s' := step s (VoiceClick env) in
  fst (exec (VoiceClick env) s) = Ok tt
  /\ asr_requests s' = asr_requests s /\ coros s' = coros s
  /\ (exists added, log s' = log s ++ added /\ Transcribing ∉ added)
  /\ is_recording s' = false /\ voice_disabled s' = false
  /\ (coros s = [] -> idle s').
Proof.
  intros Hrec Hdis Hdata.
  destruct (voice_stop_empty s env Hrec Hdis Hdata)
    as (Hret & Hlog & Hrec' & Hdis' & Hcoros' & _ & Hreq).
  cbn zeta. split; [exact Hret|]. split; [exact Hreq|]. split; [exact Hcoros'|].
  split; [|split; [exact Hrec'|split; [exact Hdis'|]]].
  - destruct Hlog as [Hlog | (e & Hlog)].
    + exists []. rewrite app_nil_r. split; [exact Hlog|]. apply not_elem_of_nil.
    + exists [Errored e]. split; [exact Hlog|].
      intros Hin. apply list_elem_of_singleton in Hin.
      symmetry in Hin. exact (errored_is_not_transcribing e Hin).
  - intros Hcoros. repeat split; [exact Hrec'|exact Hdis'|congruence].
Qed.

Lemma empty_recording_is_dropped_witness :
  let s := step initial (VoiceClick mic) in
  is_recording s = true
  /\ log (step s (VoiceClick mic)) = [Listening]
  /\ asr_requests (step s (VoiceClick mic)) = []
  /\ idle (step s (VoiceClick mic)).
Proof.
  intros s.
  pose proof (empty_recording_is_dropped s mic eq_refl eq_refl eq_refl)
    as (_ & Hreq & _ & _ & _ & _ & Hidle).
  split; [reflexivity|]. split; [reflexivity|]. split; [exact Hreq|].
  apply Hidle. reflexivity.
Defined.

(** ** A transcription of white space *)

Lemma transcribed_is_not_started (text task : pystr) :
  Transcribed text <> Started task.
Proof. unfold Transcribed, Started. cbn. intros H. discriminate H. Qed.

(** C9: when the service returns a text that is not empty but holds white
    space only, [on_voice_click] writes the line of the transcribed text and
    nothing else: no start line, no task queued, no call on the agent, and
    the coroutine is over, so that the state is idle when nothing else is
    in flight. *)
Theorem blank_transcription_starts_nothing (s : State) (k : nat) (p : pystr)
    (env : AsrEnv) (text : pystr) :
  coros s !! k = Some (VoiceAwaitTranscribe p) -> Py.truthy p = true ->
  service_answers env p (Some text) -> text <> [] -> Py.strip text = [] ->
  let s' := run s [TranscribeRuns k env; VoiceResumes k] in
  log s' = log s ++ [Transcribed text]
  /\ (forall task, Started task ∉ [Transcribed text])
  /\ agent_calls s' = agent_calls s /\ coros s' = delete k (coros s)
  /\ is_recording s' = is_recording s /\ voice_disabled s' = voice_disabled s
  /\ (quiet s -> coros s = [VoiceAwaitTranscribe p] -> idle s').
Proof.
  intros Hk Hp Hanswer Htext Hblank s'. subst s'.
  rewrite (blank_transcription_run s k p env text Hk Hp Hanswer Htext Hblank).
  cbn.
  split; [reflexivity|]. split; [|repeat (split; [reflexivity|])].
  - intros task Hin. apply list_elem_of_singleton in Hin.
    symmetry in Hin. exact (transcribed_is_not_started text task Hin).
  - intros [Hrec Hdis] Hcoros. unfold idle. cbn.
    repeat split; [exact Hrec|exact Hdis|].
    rewrite Hcoros in Hk |- *. destruct k as [|k]; [reflexivity|].
    cbn in Hk. discriminate Hk.
Qed.

Lemma blank_transcription_starts_nothing_witness :
  let s := run initial [VoiceClick mic; AudioCallback [1]; VoiceClick mic] in
  let blank := service 200 [] (JsonObject (Some [32%N; 10%N])) eq_refl in
  let s' := run s [TranscribeRuns 0 blank; VoiceResumes 0] in
  log s' = log s ++ [Transcribed [32%N; 10%N]]
  /\ agent_calls s' = [] /\ idle s'.
Proof.
  intros s blank s'.
  assert (Hanswer : service_answers blank (temp_path mic) (Some [32%N; 10%N])).
  { split; [reflexivity|]. eexists.
    split; [reflexivity|]. split; [left; reflexivity|reflexivity]. }
  assert (Htext : [32%N; 10%N] <> @nil N) by discriminate.
  pose proof (blank_transcription_starts_nothing s 0 (temp_path mic) blank
                [32%N; 10%N] eq_refl eq_refl Hanswer Htext eq_refl)
    as (Hlog & _ & Hcalls & _ & _ & _ & Hidle).
  split; [exact Hlog|]. split; [exact Hcalls|].
  apply Hidle; [split; reflexivity|reflexivity].
Defined.

(** ** [transcribe_audio] always returns *)

(** C10: for every file path and every behaviour of the file system and of
    the service, [transcribe_audio] returns a string and lets no exception
    out; for a missing or empty path it returns the empty string and
    changes nothing, no request being sent; and whenever opening the file,
    the request, the status or the decoding fails it returns the empty
    string. *)
Theorem transcribe_audio_is_total (env : AsrEnv) (file_path : option pystr)
    (s : State) :
  (exists text, fst (transcribe_audio env file_path s) = Ok text)
  /\ (Py.truthy_opt file_path = false ->
      transcribe_audio env file_path s = (Ok [], s))
  /\ (forall p e : pystr,
         file_path = Some p -> Py.truthy p = true -> asr_fails env p e ->
         fst (transcribe_audio env file_path s) = Ok []).
Proof.
  split; [apply transcribe_returns|]. split.
  - apply transcribe_no_path.
  - intros p e -> Hp Hfail.
    destruct (transcribe_failure env p e s Hp Hfail) as (s0 & -> & _).
    reflexivity.
Qed.

Lemma transcribe_audio_is_total_witness :
  transcribe_audio unauthorized None initial = (Ok [], initial)
  /\ transcribe_audio unauthorized (Some []) initial = (Ok [], initial)
  /\ fst (transcribe_audio unauthorized (Some (temp_path mic)) initial) = Ok [].
Proof.
  pose proof (transcribe_audio_is_total unauthorized None initial)
    as (_ & Hnone & _).
  pose proof (transcribe_audio_is_total unauthorized (Some []) initial)
    as (_ & Hempty & _).
  pose proof (transcribe_audio_is_total unauthorized (Some (temp_path mic))
                initial) as (_ & _ & Hfail).
  split; [apply Hnone; reflexivity|]. split; [apply Hempty; reflexivity|].
  apply (Hfail (temp_path mic) (Py.lit "401 Client Error: Unauthorized"));
    [reflexivity|reflexivity|].
  eapply status_fails; [reflexivity|reflexivity| |reflexivity]. cbn. lia.
Defined.

(** * Further properties of [ui.py] *)

(** ** What one turn adds *)

Ltac appended :=
  first [ exists []; rewrite app_nil_r; split; [reflexivity|cbn; lia]
        | rewrite <- ?app_assoc; eexists; split; [reflexivity|cbn; lia] ].

(** The log only grows, by three lines at most in one turn. *)
Lemma step_log (s : State) (l : Label) :
  exists lines,
    log (step s l) = log s ++ lines /\ (List.length lines <= 3)%nat.
Proof.
  unfold step. destruct l; turn_cases; cbn; appended.
Qed.

(** ** Invariants of the event loop *)

(** X1: whatever the turns, no line of the log is ever erased, changed or
    moved: the log of every later state is the log before with lines added
    at its end, three at most for each turn. *)
Theorem history_only_grows (ls : list Label) (s : State) :
  exists lines,
    log (run s ls) = log s ++ lines
    /\ (List.length lines <= 3 * List.length ls)%nat.
Proof.
  revert s. induction ls as [|l ls IH]; intros s.
  - exists []. cbn. rewrite app_nil_r. split; [reflexivity|lia].
  - rewrite run_cons.
    destruct (IH (step s l)) as (lines & Hlog & Hn).
    destruct (step_log s l) as (lines0 & Hlog0 & Hn0).
    exists (lines0 ++ lines). rewrite Hlog, Hlog0, <- app_assoc.
    split; [reflexivity|]. rewrite length_app. cbn [List.length]. lia.
Qed.

(** The calls a turn makes on the agent: none, or [reset] when a task
    starts, or the step a worker thread was handed. *)
Lemma step_agent_calls (s : State) (l : Label) :
  agent_calls (step s l) = agent_calls s
  \/ (exists k reset,
         l = TaskStarts k reset
         /\ agent_calls (step s l) = agent_calls s ++ [CallReset])
  \/ (exists k r task arg,
         l = StepReturns k r
         /\ coros s !! k = Some (TaskAwaitStep task arg)
         /\ agent_calls (step s l) = agent_calls s ++ [CallStep arg]).
Proof.
  unfold step. destruct l as [text| |env|indata|k reset|k r|k|k env|k];
    turn_cases; cbn;
    first [ left; reflexivity
          | right; left; do 2 eexists; split; reflexivity
          | right; right; do 4 eexists;
            split; [reflexivity|]; split; [eassumption|reflexivity] ].
Qed.

(** The calls of [requests.post] a turn makes: none, or one, and then the
    turn is the worker thread of a transcription. *)
Lemma step_asr_requests (s : State) (l : Label) :
  asr_requests (step s l) = asr_requests s
  \/ (exists k env req,
         l = TranscribeRuns k env
         /\ asr_requests (step s l) = asr_requests s ++ [req]).
Proof.
  unfold step. destruct l as [text| |env|indata|k reset|k r|k|k env|k];
    turn_cases; cbn;
    first [ left; reflexivity
          | right; do 3 eexists; split; reflexivity ].
Qed.

Lemma count_app {A} (f : A -> bool) (l1 l2 : list A) :
  count f (l1 ++ l2) = (count f l1 + count f l2)%nat.
Proof. unfold count. rewrite List.filter_app, length_app. reflexivity. Qed.

Lemma count_cons {A} (f : A -> bool) (x : A) (l : list A) :
  count f (x :: l) = ((if f x then 1 else 0) + count f l)%nat.
Proof. unfold count. cbn. destruct (f x); reflexivity. Qed.

Lemma count_nil {A} (f : A -> bool) : count f [] = 0%nat.
Proof. reflexivity. Qed.

Lemma count_insert {A} (f : A -> bool) (l : list A) (k : nat) (c c' : A) :
  l !! k = Some c ->
  (count f (<[k:=c']> l) + (if f c then 1 else 0)
   = count f l + (if f c' then 1 else 0))%nat.
Proof.
  revert k. induction l as [|x l IH]; intros k Hk; [discriminate Hk|].
  destruct k as [|k].
  - injection Hk as ->. change (<[0%nat:=c']> (c :: l)) with (c' :: l).
    rewrite !count_cons. lia.
  - cbn in Hk. specialize (IH k Hk).
    change (<[S k:=c']> (x :: l)) with (x :: <[k:=c']> l).
    rewrite !count_cons. lia.
Qed.

Lemma count_delete {A} (f : A -> bool) (l : list A) (k : nat) (c : A) :
  l !! k = Some c ->
  (count f (delete k l) + (if f c then 1 else 0) = count f l)%nat.
Proof.
  revert k. induction l as [|x l IH]; intros k Hk; [discriminate Hk|].
  destruct k as [|k].
  - injection Hk as ->. change (delete 0%nat (c :: l)) with l.
    rewrite !count_cons. lia.
  - cbn in Hk. specialize (IH k Hk).
    change (delete (S k) (x :: l)) with (x :: delete k l).
    rewrite !count_cons. lia.
Qed.

(** The task that [send_message] queues at the end of [on_voice_click]
    comes behind the coroutines that were waiting. *)
Ltac norm_coros :=
  repeat match goal with
         | H : ?l !! ?k = Some _ |- context [delete ?k (?l ++ ?l2)] =>
           rewrite (delete_app_lt l l2 k) by (eapply lookup_lt_Some; exact H)
         end.

(** The coroutine a turn names, with what the counts say about it. *)
Ltac counted :=
  repeat match goal with
         | H : ?l !! ?k = Some ?c |- context [count ?f (<[?k:=?c']> ?l)] =>
           let H' := fresh in
           pose proof (count_insert f l k c c' H) as H'; cbn in H';
           revert H'; generalize (count f (<[k:=c']> l)); intros ? ?
         | H : ?l !! ?k = Some ?c |- context [count ?f (delete ?k ?l)] =>
           let H' := fresh in
           pose proof (count_delete f l k c H) as H'; cbn in H';
           revert H'; generalize (count f (delete k l)); intros ? ?
         end.

Lemma step_resets_ok (s : State) (l : Label) :
  resets_ok s -> resets_ok (step s l).
Proof.
  unfold resets_ok, step. intros Hok.
  destruct l as [text| |env|indata|k reset|k r|k|k env|k];
    turn_cases; cbn; norm_coros;
    rewrite ?count_app, ?count_cons, ?count_nil; cbn; counted; lia.
Qed.

Lemma stripped_sendable (t : pystr) :
  negb (Py.truthy (Py.strip t)) = false -> Py.encodable (Py.strip t) = true ->
  sendable (Py.strip t).
Proof.
  intros Ht Henc. split; [|exact Henc]. apply strip_trimmed.
  apply truthy_cons. apply negb_false_iff. exact Ht.
Qed.

Lemma step_tasks_ok (s : State) (l : Label) :
  Forall task_ok (coros s) -> Forall task_ok (coros (step s l)).
Proof.
  intros Hok. unfold step.
  destruct l as [text| |env|indata|k reset|k r|k|k env|k];
    turn_cases; cbn; norm_coros;
    do 6 try first [ assumption | exact I
                   | apply Forall_app; split | apply Forall_insert
                   | apply Forall_delete | apply Forall_cons; split
                   | apply Forall_nil
                   | apply stripped_sendable
                   | rewrite strip_encodable; assumption ].
  all: try assumption.
  all: try (rewrite strip_encodable; assumption).
  split; [|reflexivity].
  match goal with
  | H : coros s !! ?k = Some (TaskScheduled ?task) |- _ =>
    exact (proj1 (Forall_lookup _ _) Hok k _ H)
  end.
Qed.

Lemma first_steps_ok_snoc (calls : list AgentCall) (c : AgentCall) :
  first_steps_ok calls ->
  (count is_first_step (calls ++ [c]) <= count is_reset (calls ++ [c]))%nat ->
  (forall task, c = CallStep (Some task) -> sendable task) ->
  first_steps_ok (calls ++ [c]).
Proof.
  intros [Hprefix Htexts] Hall Hc. split.
  - intros n. destruct (decide (n <= List.length calls)%nat) as [Hn|Hn].
    + rewrite take_app_le by exact Hn. apply Hprefix.
    + rewrite take_ge by (rewrite length_app; cbn; lia). exact Hall.
  - intros i task Hi. apply lookup_app_Some in Hi as [Hi | [_ Hi]].
    + exact (Htexts i task Hi).
    + destruct (i - List.length calls)%nat as [|n]; [|discriminate Hi].
      injection Hi as ->. apply Hc. reflexivity.
Qed.

Lemma step_first_steps_ok (s : State) (l : Label) :
  Forall task_ok (coros s) -> resets_ok s -> first_steps_ok (agent_calls s) ->
  first_steps_ok (agent_calls (step s l)).
Proof.
  intros Htasks Hresets Hok.
  pose proof (step_resets_ok s l Hresets) as Hresets'.
  unfold resets_ok in Hresets'.
  destruct (step_agent_calls s l)
    as [Hc | [(k & reset & _ & Hc) | (k & r & task & arg & _ & Hk & Hc)]];
    rewrite Hc in *.
  - exact Hok.
  - apply first_steps_ok_snoc; [exact Hok|lia|discriminate].
  - apply first_steps_ok_snoc; [exact Hok|lia|].
    intros task' Harg. injection Harg as ->.
    pose proof (proj1 (Forall_lookup _ _) Htasks k _ Hk) as [Hsend ->].
    exact Hsend.
Qed.

(** X2: however tasks, recordings and transcriptions interleave, and in
    whatever order the worker threads run, the agent has at every moment
    received at least as many calls of [reset] as steps that carry a task
    text -- each such step comes after the [reset] of its own task -- and
    the text it carries is one [send_message] handed on: not empty,
    without white space at either end, and a text that standard output
    encodes. *)
Theorem first_step_follows_reset (ls : list Label) :
  first_steps_ok (agent_calls (run initial ls)).
Proof.
  assert (Hinv : forall s,
             Forall task_ok (coros s) -> resets_ok s ->
             first_steps_ok (agent_calls s) ->
             first_steps_ok (agent_calls (run s ls))).
  { induction ls as [|l ls IH]; intros s Htasks Hresets Hok; [exact Hok|].
    rewrite run_cons. apply IH.
    - apply step_tasks_ok. exact Htasks.
    - apply step_resets_ok. exact Hresets.
    - apply step_first_steps_ok; assumption. }
  apply Hinv.
  - constructor.
  - unfold resets_ok. cbn. rewrite !count_nil. lia.
  - split.
    + intros n. change (agent_calls initial) with (@nil AgentCall).
      rewrite take_nil, !count_nil. lia.
    + intros i task Hi. change (agent_calls initial) with (@nil AgentCall) in Hi.
      rewrite lookup_nil in Hi. discriminate Hi.
Qed.

Lemma step_stream_ok (s : State) (l : Label) :
  stream_ok s -> stream_ok (step s l).
Proof.
  unfold stream_ok, step. intros Hok.
  destruct l as [text| |env|indata|k reset|k r|k|k env|k];
    turn_cases; cbn;
    solve [exact Hok | reflexivity | discriminate | intros _; reflexivity
          | congruence].
Qed.

(** X3: in every state the event loop can reach, an active recording has
    its stream: the test [if "stream" in state] of the stop branch of
    [on_voice_click] never fails while [is_recording] holds, so a recording
    is never ended without stopping and closing its stream. *)
Theorem recording_has_stream (ls : list Label) :
  is_recording (run initial ls) = true -> has_stream (run initial ls) = true.
Proof.
  assert (Hinv : forall s, stream_ok s -> stream_ok (run s ls)).
  { induction ls as [|l ls IH]; intros s Hok; [exact Hok|].
    rewrite run_cons. apply IH. apply step_stream_ok. exact Hok. }
  apply Hinv. intros H. discriminate H.
Qed.

Lemma recording_has_stream_witness :
  is_recording (run initial [VoiceClick mic; AudioCallback [1]]) = true
  /\ has_stream (run initial [VoiceClick mic; AudioCallback [1]]) = true.
Proof.
  split; [reflexivity|].
  apply (recording_has_stream [VoiceClick mic; AudioCallback [1]]).
  reflexivity.
Defined.

(** X4: the voice button is never left disabled: [on_voice_click] disables
    it and enables it again inside one turn, on the normal path and in the
    [except] clause alike, so that after every turn, whatever the device,
    the service and the agent answer, the button accepts the next click. *)
Theorem voice_button_stays_enabled (ls : list Label) :
  voice_disabled (run initial ls) = false.
Proof.
  apply run_keeps_button_enabled. reflexivity.
Qed.

(** ** Recording *)

(** X5: a click that starts a recording first discards the chunks of the
    recording before, also when the device then fails; and once the
    recording has started, the chunks the driver delivers are kept in the
    order of their arrival, nothing else being mixed in. *)
Theorem recording_keeps_chunks_in_order (s : State) (env : DeviceEnv) :
  is_recording s = false -> voice_disabled s = false ->
  recording_data (step s (VoiceClick env)) = []
  /\ (forall (rate : Z) (chunks : list Chunk),
         query_devices env = Ok rate -> input_stream env = Ok tt ->
         stream_start env = Ok tt ->
         let s' := run s (VoiceClick env :: map AudioCallback chunks) in
         recording_data s' = chunks /\ is_recording s' = true
         /\ samplerate s' = rate).
Proof.
  intros Hrec Hdis. split.
  - unfold step. unfold_goal. rewrite Hdis, Hrec. turn_cases; reflexivity.
  - intros rate chunks Hq Hc Hs s'. subst s'.
    rewrite run_cons, run_audio. unfold step.
    rewrite (voice_start_ok s env rate Hrec Hdis Hq Hc Hs). cbn.
    repeat split; reflexivity.
Qed.

Lemma recording_keeps_chunks_in_order_witness :
  let s := run initial [VoiceClick mic; AudioCallback [7]; VoiceClick mic] in
  recording_data s = [[7]]
  /\ recording_data (run s (VoiceClick mic :: map AudioCallback [[1]; [2]; [3]]))
     = [[1]; [2]; [3]].
Proof.
  intros s. split; [reflexivity|].
  pose proof (recording_keeps_chunks_in_order s mic eq_refl eq_refl)
    as [_ Hchunks].
  apply (Hchunks 16000 [[1]; [2]; [3]]); reflexivity.
Defined.

Lemma send_message_blank_snd (s : State) :
  Py.strip (input_value s) = [] -> snd (send_message s) = s.
Proof. intros H. rewrite send_message_blank by exact H. reflexivity. Qed.

(** What [send_message] does to the field: nothing when it is blank, and
    it is emptied otherwise, also when [print] then raises. *)
Lemma send_message_field (s : State) :
  Py.strip (input_value (snd (send_message s))) = [].
Proof.
  destruct (decide (Py.strip (input_value s) = [])) as [Hblank|Htask].
  - rewrite send_message_blank by exact Hblank. exact Hblank.
  - destruct (Py.encodable (Py.strip (input_value s))) eqn:Henc.
    + rewrite send_message_task by assumption. reflexivity.
    + destruct (send_message_raise s Htask Henc) as (? & ? & ? & ->).
      reflexivity.
Qed.

(** ** Submissions *)

(** X6: [send_message] empties the input field when it accepts a text, so
    that a second submission right after the first -- the key pressed
    twice, or the key and the button -- does nothing: no task is queued
    twice. *)
Theorem double_submit_sends_once (s : State) :
  run s [SendMessage; SendMessage] = run s [SendMessage].
Proof.
  cbn [run fold_left]. set (s1 := step s SendMessage).
  unfold step at 1. cbn [exec]. apply send_message_blank_snd. subst s1.
  unfold step. cbn [exec]. apply send_message_field.
Qed.

(** X7: [send_message] ignores the input field exactly when every
    character in it is white space (the empty field included): then the
    turn changes nothing at all.  In every other case the field is
    emptied; when standard output encodes the text, the line of the sent
    text is written and the task is queued, and when it does not,
    [print] raises, nothing is written and no task is queued. *)
Theorem submit_ignored_iff_whitespace (s : State) :
  (step s SendMessage = s <-> forallb Py.isspace (input_value s) = true)
  /\ (forallb Py.isspace (input_value s) = false ->
      input_value (step s SendMessage) = []
      /\ (Py.encodable (input_value s) = true ->
          fst (exec SendMessage s) = Ok tt
          /\ log (step s SendMessage)
             = log s ++ [You (Py.strip (input_value s))]
          /\ coros (step s SendMessage)
             = coros s ++ [TaskScheduled (Py.strip (input_value s))])
      /\ (Py.encodable (input_value s) = false ->
          (exists start c run,
              fst (exec SendMessage s)
              = Raise (Py.unicode_encode_error start c run))
          /\ log (step s SendMessage) = log s
          /\ coros (step s SendMessage) = coros s)).
Proof.
  assert (Hfield : Py.strip (input_value s) <> [] ->
                   input_value (step s SendMessage) = []).
  { intros Hne. unfold step. cbn [exec].
    destruct (Py.encodable (Py.strip (input_value s))) eqn:Henc.
    - rewrite send_message_task by assumption. reflexivity.
    - destruct (send_message_raise s Hne Henc) as (? & ? & ? & ->).
      reflexivity. }
  split; [split|].
  - intros Hsame. apply strip_nil.
    destruct (decide (Py.strip (input_value s) = [])) as [Hnil|Hne];
      [exact Hnil|].
    apply Hfield in Hne as Hempty. rewrite Hsame in Hempty.
    rewrite Hempty. reflexivity.
  - intros Hws. apply strip_nil in Hws. unfold step. cbn [exec].
    rewrite send_message_blank by exact Hws. reflexivity.
  - intros Hws.
    assert (Hne : Py.strip (input_value s) <> []).
    { intros Hnil. apply strip_nil in Hnil. rewrite Hnil in Hws.
      discriminate Hws. }
    split; [exact (Hfield Hne)|]. split.
    + intros Henc. unfold step. cbn [exec].
      rewrite send_message_task
        by (first [exact Hne | rewrite strip_encodable; exact Henc]).
      repeat split; reflexivity.
    + intros Henc. rewrite <- strip_encodable in Henc.
      destruct (send_message_raise s Hne Henc) as (start & c & run & Hsend).
      unfold step. cbn [exec]. rewrite Hsend.
      split; [exists start, c, run; reflexivity|]. split; reflexivity.
Qed.

Lemma submit_ignored_iff_whitespace_witness :
  log (step (step initial (UserTypes (Py.lit " go home "))) SendMessage)
  = [You (Py.lit "go home")]
  /\ log (step (step initial (UserTypes lone_surrogate)) SendMessage) = [].
Proof.
  pose proof (submit_ignored_iff_whitespace
                (step initial (UserTypes (Py.lit " go home ")))) as [_ Hsent].
  pose proof (submit_ignored_iff_whitespace
                (step initial (UserTypes lone_surrogate))) as [_ Hraised].
  split.
  - apply Hsent; reflexivity.
  - apply Hraised; reflexivity.
Defined.

(** ** Transcription *)

Lemma local_path_url (p : pystr) : local_path (Py.lit "file://" ++ p) = p.
Proof. destruct p; reflexivity. Qed.

Lemma local_path_plain (p : pystr) :
  Py.startswith p (Py.lit "file://") = false -> local_path p = p.
Proof. unfold local_path. intros ->. reflexivity. Qed.

(** X8: a path given as a [file://] URL is opened as the local path behind
    the prefix, so that [transcribe_audio] does on the URL exactly what it
    does on the plain path; one prefix is removed, not more. *)
Theorem file_url_is_local_path (env : AsrEnv) (p : pystr) (s : State) :
  Py.truthy p = true ->
  (Py.startswith p (Py.lit "file://") = false ->
   transcribe_audio env (Some (Py.lit "file://" ++ p)) s
   = transcribe_audio env (Some p) s)
  /\ local_path (Py.lit "file://" ++ Py.lit "file://" ++ p)
     = Py.lit "file://" ++ p.
Proof.
  intros Hp. split; [|apply local_path_url].
  intros Hplain. unfold transcribe_audio.
  rewrite Hp, local_path_url, (local_path_plain p Hplain). reflexivity.
Qed.

Lemma file_url_is_local_path_witness :
  transcribe_audio padded (Some (Py.lit "file:///tmp/voice_input.wav")) initial
  = transcribe_audio padded (Some (Py.lit "/tmp/voice_input.wav")) initial.
Proof.
  pose proof (file_url_is_local_path padded (Py.lit "/tmp/voice_input.wav")
                initial eq_refl) as [Hsame _].
  apply Hsame. reflexivity.
Defined.

(** X9: a missing key does not stop [transcribe_audio]: when
    [PHONE_AGENT_API_KEY] is not set and the file opens, the request is
    sent all the same, to the fixed address and model, with the
    authorization [Bearer None]. *)
Theorem missing_key_is_sent_as_none (env : AsrEnv) (p : pystr) (s : State) :
  getenv_api_key env = None -> Py.truthy p = true ->
  open_rb env (local_path p) = Ok tt ->
  asr_requests (snd (transcribe_audio env (Some p) s))
  = asr_requests s
      ++ [mkRequest
            (Py.lit "https://open.bigmodel.cn/api/paas/v4/audio/transcriptions")
            (Py.lit "Bearer None") (local_path p) (Py.lit "glm-asr-2512")].
Proof.
  intros Hkey Hp Hopen.
  destruct (transcribe_opened env p s Hp Hopen) as (lines & ->).
  cbn. unfold asr_request. rewrite Hkey. reflexivity.
Qed.

Lemma missing_key_is_sent_as_none_witness :
  let env := mkAsrEnv None (fun _ => Ok tt)
               (fun _ => Ok (mkResponse 401 (Py.lit "401") (NotJson [])))
               (fun _ => []) (fun _ _ => eq_refl) in
  List.length (asr_requests (snd (transcribe_audio env (Some (temp_path mic))
                                                   initial))) = 1%nat.
Proof.
  intros env.
  rewrite (missing_key_is_sent_as_none env (temp_path mic) initial
             eq_refl eq_refl eq_refl).
  reflexivity.
Defined.

(** ** Tasks that fail *)

(** [agent.reset()] raises an exception whose text does not encode: the
    [except] clause raises in turn, and the exception leaves the
    coroutine. *)
Lemma task_starts_unprintable (s : State) (k : nat) (task e : pystr) :
  coros s !! k = Some (TaskScheduled task) -> Py.encodable task = true ->
  Py.encodable e = false ->
  exists start c run,
    exec (TaskStarts k (Raise e)) s =
      (Raise (Py.unicode_encode_error start c run),
       set_coros (delete k (coros s))
         (set_agent_calls (agent_calls s ++ [CallReset])
            (set_log (log s ++ [Started task]) s))).
Proof.
  intros Hk Htask He.
  assert (Hm : Py.encodable (CROSS_MARK ++ Py.lit " Error: " ++ e) = false).
  { rewrite !encodable_app, lit_encodable. exact He. }
  destruct (print_line_raise _ Hm) as (start & c & run & Hp).
  unfold CROSS_MARK in Hp. cbn [app] in Hp.
  exists start, c, run. unfold_goal. rewrite Hk. cbn. prints. cbn.
  rewrite Hp. reflexivity.
Qed.

(** The same for an exception of [agent.step]. *)
Lemma task_resumes_unprintable (s : State) (k : nat) (task e : pystr) :
  coros s !! k = Some (TaskStepped task (Raise e)) ->
  Py.encodable e = false ->
  exists start c run,
    exec (TaskResumes k) s =
      (Raise (Py.unicode_encode_error start c run),
       set_coros (delete k (coros s)) s).
Proof.
  intros Hk He.
  assert (Hm : Py.encodable (CROSS_MARK ++ Py.lit " Error: " ++ e) = false).
  { rewrite !encodable_app, lit_encodable. exact He. }
  destruct (print_line_raise _ Hm) as (start & c & run & Hp).
  unfold CROSS_MARK in Hp. cbn [app] in Hp.
  exists start, c, run. unfold_goal. rewrite Hk. cbn.
  rewrite Hp. reflexivity.
Qed.

(** A step result with a note that does not encode: [print] raises inside
    the [try], the [except] clause reports that, and the task is over. *)
Lemma task_resumes_garbled (s : State) (k : nat) (task : pystr) (r : StepResult) :
  coros s !! k = Some (TaskStepped task (Ok r)) ->
  Py.encodable (thinking r) && Py.encodable (action r) = false ->
  exists start c run lines,
    exec (TaskResumes k) s =
      (Ok tt,
       set_coros (delete k (coros s))
         (set_log (log s ++ lines
                     ++ [Errored (Py.unicode_encode_error start c run)]) s))
    /\ (lines = [] \/ lines = [Thinking (thinking r)]).
Proof.
  intros Hk Hr. unfold_goal. rewrite Hk. cbn.
  destruct (Py.utf8_strict (Py.lit "UI LOG: " ++ 128173%N :: Py.lit " " ++ thinking r))
    as [[]|e1] eqn:H1; learn.
  - rewrite H1 in Hr. cbn in Hr.
    assert (Hm : Py.encodable (DIRECT_HIT ++ Py.lit " " ++ action r) = false).
    { rewrite !encodable_app, lit_encodable. exact Hr. }
    destruct (print_line_raise _ Hm) as (start & c & run & Hp).
    unfold DIRECT_HIT in Hp. cbn [app] in Hp.
    exists start, c, run, [Thinking (thinking r)]. cbn. rewrite Hp. cbn. prints.
    split; [|right; reflexivity]. f_equal. state_eq.
  - match goal with H : exists _, _ |- _ => destruct H as (start & c & run & ->) end.
    exists start, c, run, []. cbn. prints.
    split; [|left; reflexivity]. reflexivity.
Qed.

(** X10: a failure of the agent ends the task at once, whatever else is in
    flight.  When [agent.reset()] raises, [agent.step] is not called for
    the task and the waiting line is not written; when a step raises, no
    further step is asked for and no final message is written.  In both
    cases the coroutine of the task is gone, the other coroutines being
    left as they are; the error line is the last line of the task when
    standard output encodes the text of the exception, and when it does
    not, no error line is written and the [UnicodeEncodeError] of [print]
    leaves the coroutine. *)
Theorem failed_task_stops_at_once (s : State) (k : nat) (task e : pystr) :
  (coros s !! k = Some (TaskScheduled task) -> Py.encodable task = true ->
   let s' := step s (TaskStarts k (Raise e)) in
   agent_calls s' = agent_calls s ++ [CallReset]
   /\ coros s' = delete k (coros s)
   /\ (Py.encodable e = true ->
       fst (exec (TaskStarts k (Raise e)) s) = Ok tt
       /\ log s' = log s ++ [Started task; Errored e])
   /\ (Py.encodable e = false ->
       (exists start c run,
           fst (exec (TaskStarts k (Raise e)) s)
           = Raise (Py.unicode_encode_error start c run))
       /\ log s' = log s ++ [Started task]))
  /\ (forall arg : option pystr,
         coros s !! k = Some (TaskAwaitStep task arg) ->
         let s1 := step s (StepReturns k (Raise e)) in
         let s' := step s1 (TaskResumes k) in
         agent_calls s' = agent_calls s ++ [CallStep arg]
         /\ coros s' = delete k (coros s)
         /\ (Py.encodable e = true ->
             fst (exec (TaskResumes k) s1) = Ok tt
             /\ log s' = log s ++ [Errored e])
         /\ (Py.encodable e = false ->
             (exists start c run,
                 fst (exec (TaskResumes k) s1)
                 = Raise (Py.unicode_encode_error start c run))
             /\ log s' = log s)).
Proof.
  split.
  - intros Hk Htask s'. subst s'. unfold step.
    destruct (Py.encodable e) eqn:He.
    + rewrite (task_starts_raise s k task e Hk Htask He). cbn.
      repeat split; try reflexivity; congruence.
    + destruct (task_starts_unprintable s k task e Hk Htask He)
        as (start & c & run & ->). cbn.
      repeat split; try reflexivity; try congruence.
      exists start, c, run. reflexivity.
  - intros arg Hk s1 s'. subst s' s1.
    assert (Hlt : (k < List.length (coros s))%nat)
      by (eapply lookup_lt_Some; eauto).
    rewrite (step_exec _ _ _ _ (step_runs s k task arg (Raise e) Hk)).
    match goal with |- context [step ?st (TaskResumes k)] => set (s1 := st) end.
    assert (Hk1 : coros s1 !! k = Some (TaskStepped task (Raise e))).
    { subst s1. cbn. apply list_lookup_insert_eq. exact Hlt. }
    unfold step. destruct (Py.encodable e) eqn:He.
    + rewrite (task_resumes_raise s1 k task e Hk1 He). subst s1. cbn.
      rewrite delete_insert_lt by exact Hlt.
      repeat split; try reflexivity; congruence.
    + destruct (task_resumes_unprintable s1 k task e Hk1 He)
        as (start & c & run & ->). subst s1. cbn.
      rewrite delete_insert_lt by exact Hlt.
      repeat split; try reflexivity; try congruence.
      exists start, c, run. reflexivity.
Qed.

Lemma failed_task_stops_at_once_witness :
  let s := run initial [UserTypes (Py.lit "a"); SendMessage;
                        UserTypes (Py.lit "b"); SendMessage;
                        TaskStarts 0 (Ok tt); TaskStarts 1 (Ok tt)] in
  let s' := run s [StepReturns 0 (Raise (Py.lit "timeout")); TaskResumes 0] in
  agent_calls s' = agent_calls s ++ [CallStep (Some (Py.lit "a"))]
  /\ coros s' = [TaskAwaitStep (Py.lit "b") (Some (Py.lit "b"))]
  /\ log s' = log s ++ [Errored (Py.lit "timeout")].
Proof.
  intros s s'.
  pose proof (failed_task_stops_at_once s 0 (Py.lit "a") (Py.lit "timeout"))
    as [_ Hstep].
  destruct (Hstep (Some (Py.lit "a")) eq_refl) as (Hcalls & Hcoros & Hlog & _).
  split; [exact Hcalls|]. split; [exact Hcoros|].
  apply Hlog. reflexivity.
Defined.

(** ** Who calls the agent and the service *)

(** X11: the handlers of the user's actions never call the agent or the
    service themselves.  A turn in which the agent receives a call is a
    task coroutine entering [run_agent_task], where it calls [reset], or
    the worker thread that runs a step for it; and a turn that sends a
    request is the worker thread of a transcription: typing, sending,
    clicking the voice button, a chunk of audio and the end of
    [on_voice_click] leave both untouched. *)
Theorem only_coroutines_call_out (s : State) (l : Label) :
  (agent_calls (step s l) <> agent_calls s ->
   (exists k reset, l = TaskStarts k reset) \/ (exists k r, l = StepReturns k r))
  /\ (asr_requests (step s l) <> asr_requests s ->
      exists k env, l = TranscribeRuns k env).
Proof.
  split; intros Hchanged.
  - destruct (step_agent_calls s l)
      as [Hc | [(k & reset & -> & _) | (k & r & task & arg & -> & _)]].
    + contradiction.
    + left. exists k, reset. reflexivity.
    + right. exists k, r. reflexivity.
  - destruct (step_asr_requests s l) as [Hr | (k & env & req & -> & _)].
    + contradiction.
    + exists k, env. reflexivity.
Qed.

Lemma only_coroutines_call_out_witness :
  let s := run initial [UserTypes (Py.lit "a"); SendMessage] in
  exists k reset, TaskStarts 0 (Ok tt) = TaskStarts k reset.
Proof.
  intros s.
  pose proof (only_coroutines_call_out s (TaskStarts 0 (Ok tt))) as [Hagent _].
  destruct Hagent as [Hstart | (k & r & Hstep)].
  - intros H. discriminate H.
  - exact Hstart.
  - discriminate Hstep.
Defined.

(** ** Spoken text and typed text *)

(** X12: a transcribed text takes the place of whatever was typed in the
    input field.  The draft never becomes part of the task, which is the
    stripped transcription alone, and it is lost: afterwards the field is
    empty when the task was accepted and holds the transcription when this
    was white space only, or when standard output does not encode it --
    then an error line is written and no task is queued.  When the
    transcription came back empty the field is left as it was. *)
Theorem spoken_text_replaces_draft (s : State) (k : nat) (text : pystr) :
  coros s !! k = Some (VoiceTranscribed (Ok text)) ->
  let s' := step s (VoiceResumes k) in
  (text = [] -> input_value s' = input_value s /\ coros s' = delete k (coros s))
  /\ (text <> [] -> Py.strip text = [] ->
      input_value s' = text /\ coros s' = delete k (coros s))
  /\ (Py.strip text <> [] -> Py.encodable text = true ->
      input_value s' = []
      /\ coros s' = delete k (coros s) ++ [TaskScheduled (Py.strip text)])
  /\ (Py.encodable text = false ->
      input_value s' = text /\ coros s' = delete k (coros s)
      /\ exists start c run,
          log s' = log s ++ [Errored (Py.unicode_encode_error start c run)]).
Proof.
  intros Hk s'. subst s'. unfold step. split; [|split; [|split]].
  - intros ->. rewrite voice_resumes_empty by exact Hk. split; reflexivity.
  - intros Htext Hblank.
    rewrite (voice_resumes_blank s k text Hk Htext Hblank). split; reflexivity.
  - intros Htask Henc.
    rewrite (voice_resumes_task s k text Hk Htask Henc). split; reflexivity.
  - intros Henc.
    destruct (voice_resumes_unprintable s k text Hk Henc)
      as (start & c & run & ->).
    split; [reflexivity|]. split; [reflexivity|].
    exists start, c, run. reflexivity.
Qed.

Lemma spoken_text_replaces_draft_witness :
  let s := run initial [VoiceClick mic; AudioCallback [1]; VoiceClick mic;
                        UserTypes (Py.lit "my draft");
                        TranscribeRuns 0 padded] in
  input_value s = Py.lit "my draft"
  /\ input_value (step s (VoiceResumes 0)) = []
  /\ coros (step s (VoiceResumes 0))
     = [TaskScheduled (Py.lit "turn on the light")].
Proof.
  intros s. split; [reflexivity|].
  pose proof (spoken_text_replaces_draft s 0 (Py.lit " turn on the light ")
                eq_refl) as (_ & _ & Htask & _).
  apply Htask; [discriminate|reflexivity].
Defined.

(** ** The widgets *)

Ltac unfold_ui :=
  unfold ui_step, ui_exec, on_voice_click_ui, toggle_input_mode,
    animate_recording_resume, animate_recording, create_task, settle_pulse,
    try_exceptU, bindU, retU, lift, modifyW, getW in *.

Ltac ui_cases :=
  unfold_ui; unfold_goal; cbn; unfold_goal;
  repeat first
    [ progress prints
    | match goal with
      | |- context [match ?x with _ => _ end] =>
        lazymatch x with
        | context [match _ with _ => _ end] => fail
        | _ => destruct x eqn:?; cbn; unfold_goal; learn
        end
      end ].

(** The handlers with their widgets do to the state what the handlers
    alone do. *)
Lemma ui_step_core (u : UI) (l : UILabel) :
  core (ui_step u l)
  = match l with Core l' => step (core u) l' | _ => core u end.
Proof.
  destruct l as [l'| |k].
  - unfold step. destruct l' as [text| |env|indata|k reset|k r|k|k env|k];
      try (unfold ui_step, ui_exec, lift;
           match goal with
           | |- context [exec ?l (core u)] => destruct (exec l (core u))
           end; reflexivity).
    ui_cases; reflexivity.
  - reflexivity.
  - ui_cases; reflexivity.
Qed.

Lemma ui_run_cons (u : UI) (l : UILabel) (ls : list UILabel) :
  ui_run u (l :: ls) = ui_run (ui_step u l) ls.
Proof. reflexivity. Qed.

Lemma ui_run_core (ls : list UILabel) :
  forall u : UI, core (ui_run u ls) = run (core u) (core_labels ls).
Proof.
  induction ls as [|l ls IH]; intros u; [reflexivity|].
  rewrite ui_run_cons, IH, ui_step_core.
  destruct l; reflexivity.
Qed.

Lemma ui_step_widgets (u : UI) (l : Label) :
  (forall env, l <> VoiceClick env) -> widgets (ui_step u (Core l)) = widgets u.
Proof.
  intros Hl. destruct l as [text| |env|indata|k reset|k r|k|k env|k];
    try (unfold ui_step, ui_exec, lift;
         match goal with
         | |- context [exec ?l (core u)] => destruct (exec l (core u))
         end; reflexivity).
  exfalso. exact (Hl env eq_refl).
Qed.

Lemma toggle_step (u : UI) :
  ui_step u ToggleInputMode
  = mkUI (core u)
      (let w := widgets u in
       mkWidgets (negb (input_visible w)) (negb (input_visible w))
                 (input_visible w)
                 (if input_visible w then KEYBOARD_ROUNDED else MIC_ROUNDED)
                 (voice_icon w) (voice_icon_color w) (voice_scale w) (pulses w)).
Proof.
  unfold_ui. destruct u as [s [iv sv vv ti vi vc vs ps]]. cbn.
  destruct iv; reflexivity.
Qed.

Lemma ui_step_layout (u : UI) (l : UILabel) :
  layout_ok (widgets u) -> layout_ok (widgets (ui_step u l)).
Proof.
  intros Hok. destruct l as [l'| |k].
  - destruct l' as [text| |env|indata|k reset|k r|k|k env|k];
      try (rewrite ui_step_widgets by discriminate; exact Hok).
    ui_cases; exact Hok.
  - rewrite toggle_step. cbn. destruct (input_visible (widgets u));
      repeat split; reflexivity.
  - ui_cases; exact Hok.
Qed.

(** X13: [toggle_input_mode] switches between the keyboard and the
    microphone and touches nothing else.  After a toggle, from any state,
    exactly one of the input field and the voice button is visible, the
    send button is visible with the input field, and the toggle button
    shows the keyboard in voice mode and the microphone in text mode; this
    layout holds in every state the event loop reaches; there, two toggles
    in a row change nothing; and a toggle leaves the recording, the tasks
    and the log as they are, so that a recording goes on while its button
    is hidden. *)
Theorem toggle_keeps_layout :
  (forall u : UI,
      let u' := ui_step u ToggleInputMode in
      layout_ok (widgets u') /\ core u' = core u
      /\ input_visible (widgets u') = negb (input_visible (widgets u)))
  /\ (forall ls : list UILabel, layout_ok (widgets (ui_run initial_ui ls)))
  /\ (forall u : UI,
         layout_ok (widgets u) ->
         ui_run u [ToggleInputMode; ToggleInputMode] = u).
Proof.
  split; [|split].
  - intros u. cbn zeta. rewrite toggle_step. cbn.
    destruct (input_visible (widgets u)); repeat split; reflexivity.
  - intros ls.
    assert (Hinv : forall u, layout_ok (widgets u) ->
                             layout_ok (widgets (ui_run u ls))).
    { induction ls as [|l ls IH]; intros u Hok; [exact Hok|].
      rewrite ui_run_cons. apply IH. apply ui_step_layout. exact Hok. }
    apply Hinv. repeat split; reflexivity.
  - intros u (Hsend & Hvoice & Hicon). cbn [ui_run fold_left].
    rewrite !toggle_step. destruct u as [s [iv sv vv ti vi vc vs ps]].
    cbn in *. subst. destruct iv; reflexivity.
Qed.

Lemma toggle_keeps_layout_witness :
  let u := ui_step (ui_step initial_ui ToggleInputMode) (Core (VoiceClick mic)) in
  is_recording (core u) = true
  /\ ui_run u [ToggleInputMode; ToggleInputMode] = u
  /\ voice_visible (widgets (ui_step u ToggleInputMode)) = false
  /\ is_recording (core (ui_step u ToggleInputMode)) = true.
Proof.
  intros u. pose proof toggle_keeps_layout as (_ & _ & Htwice).
  split; [reflexivity|]. split; [|split; reflexivity].
  apply Htwice. repeat split; reflexivity.
Defined.

(** Outside [on_voice_click] no handler turns a recording on. *)
Lemma step_recording_off (s : State) (l : Label) :
  (forall env, l <> VoiceClick env) ->
  is_recording (step s l) = true -> is_recording s = true.
Proof.
  intros Hl. unfold step.
  destruct l as [text| |env|indata|k reset|k r|k|k env|k];
    try (turn_cases; solve [trivial | discriminate]).
  exfalso. exact (Hl env eq_refl).
Qed.

Lemma ui_step_icon (u : UI) (l : UILabel) :
  icon_ok u -> icon_ok (ui_step u l).
Proof.
  unfold icon_ok. intros Hok. destruct l as [l'| |k].
  - destruct l' as [text| |env|indata|k reset|k r|k|k env|k];
      try (rewrite ui_step_widgets by discriminate; rewrite ui_step_core;
           intros Hrec; apply Hok;
           apply step_recording_off in Hrec; [exact Hrec|discriminate]).
    ui_cases;
      solve [exact Hok | discriminate | intros _; split; reflexivity
            | intros _; apply Hok; reflexivity | congruence].
  - rewrite toggle_step. exact Hok.
  - ui_cases; solve [exact Hok | intros _; apply Hok; reflexivity | congruence].
Qed.

(** X14: in every state the event loop reaches, an active recording shows
    on the voice button: while [is_recording] holds the button carries the
    red stop icon. *)
Theorem recording_shows_stop_icon (ls : list UILabel) :
  let u := ui_run initial_ui ls in
  is_recording (core u) = true ->
  voice_icon (widgets u) = STOP_CIRCLE_ROUNDED
  /\ voice_icon_color (widgets u) = RED_400.
Proof.
  assert (Hinv : forall u, icon_ok u -> icon_ok (ui_run u ls)).
  { induction ls as [|l ls IH]; intros u Hok; [exact Hok|].
    rewrite ui_run_cons. apply IH. apply ui_step_icon. exact Hok. }
  apply Hinv. intros H. discriminate H.
Qed.

Lemma recording_shows_stop_icon_witness :
  voice_icon (widgets (ui_run initial_ui [ToggleInputMode; Core (VoiceClick mic)]))
  = STOP_CIRCLE_ROUNDED.
Proof.
  apply (recording_shows_stop_icon [ToggleInputMode; Core (VoiceClick mic)]).
  reflexivity.
Defined.

(** X15: the converse fails.  When stopping or closing the stream raises,
    the click ends the recording -- [is_recording] is cleared and the error
    is written -- but the icon and its colour are not reset: the button
    goes on showing the stop icon while no recording is active.  When the
    stream stops and only writing the samples fails, the icon is back to
    the white microphone. *)
Theorem failed_stop_keeps_stop_icon (u : UI) (env : DeviceEnv) (e : pystr) :
  is_recording (core u) = true -> voice_disabled (core u) = false ->
  has_stream (core u) = true ->
  let u' := ui_step u (Core (VoiceClick env)) in
  (stream_fails env e ->
   is_recording (core u') = false
   /\ log (core u') = log (core u) ++ [Errored e]
   /\ voice_icon (widgets u') = voice_icon (widgets u)
   /\ voice_icon_color (widgets u') = voice_icon_color (widgets u))
  /\ (stream_stop env = Ok tt -> stream_close env = Ok tt ->
      is_recording (core u') = false
      /\ voice_icon (widgets u') = MIC_ROUNDED
      /\ voice_icon_color (widgets u') = WHITE).
Proof.
  intros Hrec Hdis Hstream u'. subst u'. split.
  - intros [Hstop | [Hstop Hclose]]; unfold_ui; unfold_goal; cbn;
      rewrite Hdis; cbn; rewrite Hrec; cbn; rewrite Hstream; cbn;
      rewrite Hstop; cbn; try rewrite Hclose; cbn; unfold_goal; prints;
      repeat split; reflexivity.
  - intros Hstop Hclose. unfold_ui; unfold_goal; cbn.
    rewrite Hdis; cbn. rewrite Hrec; cbn. rewrite Hstream; cbn.
    rewrite Hstop; cbn. rewrite Hclose; cbn.
    destruct (recording_data (core u)); cbn; [repeat split; reflexivity|].
    destruct (write_wav env) as [[]|] eqn:Hw; cbn; unfold_goal; prints;
      repeat split; reflexivity.
Qed.

Lemma failed_stop_keeps_stop_icon_witness :
  let stuck := mkDeviceEnv (Ok 16000) (Ok tt) (Ok tt)
                 (Raise (Py.lit "PortAudio error")) (Ok tt) (Py.lit "/tmp")
                 (Ok tt) eq_refl in
  let u := ui_run initial_ui
             [ToggleInputMode; Core (VoiceClick mic); Core (VoiceClick stuck)] in
  is_recording (core u) = false
  /\ voice_icon (widgets u) = STOP_CIRCLE_ROUNDED
  /\ voice_icon_color (widgets u) = RED_400.
Proof.
  intros stuck u.
  pose proof (failed_stop_keeps_stop_icon
                (ui_run initial_ui [ToggleInputMode; Core (VoiceClick mic)])
                stuck (Py.lit "PortAudio error") eq_refl eq_refl eq_refl)
    as [Hfail _].
  destruct Hfail as (Hrec & _ & Hicon & Hcolor); [left; reflexivity|].
  split; [exact Hrec|]. split; [exact Hicon|exact Hcolor].
Defined.

(** *** The pulse of the voice button *)

Lemma grown_after_delete (ps : list Pulse) (k j : nat) (p : Pulse) :
  ps !! k = Some p -> p <> PulseGrown -> ps !! j = Some PulseGrown ->
  exists j', delete k ps !! j' = Some PulseGrown.
Proof.
  intros Hk Hp Hj. destruct (Nat.lt_ge_cases j k) as [Hlt | Hge].
  - exists j. rewrite list_lookup_delete_lt by exact Hlt. exact Hj.
  - assert (j <> k) by (intros ->; congruence).
    destruct j as [|j]; [lia|]. exists j.
    rewrite list_lookup_delete_ge by lia. exact Hj.
Qed.

Lemma grown_after_insert (ps : list Pulse) (k j : nat) (p q : Pulse) :
  ps !! k = Some p -> p <> PulseGrown -> ps !! j = Some PulseGrown ->
  <[k:=q]> ps !! j = Some PulseGrown.
Proof.
  intros Hk Hp Hj. rewrite list_lookup_insert_ne; [exact Hj|].
  intros ->. congruence.
Qed.

Lemma ui_step_pulse (u : UI) (l : UILabel) :
  pulse_ok (widgets u) -> pulse_ok (widgets (ui_step u l)).
Proof.
  unfold pulse_ok. intros Hok. destruct l as [l'| |k].
  - destruct l' as [text| |env|indata|k reset|k r|k|k env|k];
      try (rewrite ui_step_widgets by discriminate; exact Hok).
    ui_cases; try exact Hok.
    intros Hscale. destruct (Hok Hscale) as (j & Hj). exists j.
    apply lookup_app_l_Some. exact Hj.
  - rewrite toggle_step. exact Hok.
  - unfold_ui. cbn.
    destruct (pulses (widgets u) !! k) as [p|] eqn:Hk; cbn; [|exact Hok].
    assert (Hlt : (k < List.length (pulses (widgets u)))%nat)
      by (eapply lookup_lt_Some; exact Hk).
    destruct p; unfold_handlers; cbn.
    + destruct (is_recording (core u)); cbn.
      * intros _. exists k. apply list_lookup_insert_eq. exact Hlt.
      * intros Hscale. destruct (Hok Hscale) as (j & Hj).
        apply (grown_after_delete _ k j PulseCreated Hk); [discriminate|exact Hj].
    + intros Hscale. discriminate Hscale.
    + destruct (is_recording (core u)); cbn.
      * intros _. exists k. apply list_lookup_insert_eq. exact Hlt.
      * intros Hscale. destruct (Hok Hscale) as (j & Hj).
        apply (grown_after_delete _ k j PulseShrunk Hk); [discriminate|exact Hj].
Qed.

(** X16: the voice button does not stay enlarged.  In every state the
    event loop reaches, the scale is 1.3 only while some task
    [animate_recording] is suspended at its first sleep, which it leaves by
    setting the scale back to 1.0: when no animation task is alive the
    scale is 1.0, however recordings, failures and animations have
    interleaved. *)
Theorem pulse_returns_to_rest (ls : list UILabel) :
  let w := widgets (ui_run initial_ui ls) in
  (voice_scale w = SCALE_1_3 -> exists j, pulses w !! j = Some PulseGrown)
  /\ (pulses w = [] -> voice_scale w = SCALE_1_0).
Proof.
  assert (Hinv : forall u, pulse_ok (widgets u) ->
                           pulse_ok (widgets (ui_run u ls))).
  { induction ls as [|l ls IH]; intros u Hok; [exact Hok|].
    rewrite ui_run_cons. apply IH. apply ui_step_pulse. exact Hok. }
  assert (Hok : pulse_ok (widgets (ui_run initial_ui ls))).
  { apply Hinv. intros H. discriminate H. }
  cbn zeta. split; [exact Hok|].
  intros Hnone. destruct (voice_scale (widgets (ui_run initial_ui ls))) eqn:Hscale;
    [reflexivity|].
  destruct (Hok Hscale) as (j & Hj). rewrite Hnone, lookup_nil in Hj.
  discriminate Hj.
Qed.

Lemma pulse_returns_to_rest_witness :
  let ls := [Core (VoiceClick mic); PulseWakes 0; Core (VoiceClick mic);
             PulseWakes 0; PulseWakes 0] in
  voice_scale (widgets (ui_run initial_ui (firstn 2 ls))) = SCALE_1_3
  /\ pulses (widgets (ui_run initial_ui ls)) = []
  /\ voice_scale (widgets (ui_run initial_ui ls)) = SCALE_1_0.
Proof.
  intros ls. split; [reflexivity|]. split; [reflexivity|].
  apply (pulse_returns_to_rest ls). reflexivity.
Defined.

(** X17: the animation follows the recording.  A click that starts a
    recording starts one task [animate_recording], and a click that fails
    to start it starts none.  Once the recording has ended, a task that is
    woken finds the flag cleared at its next check and returns: at its
    first wake-up when it was not enlarged, and at the second, with the
    scale set back to 1.0, when it was. *)
Theorem animation_follows_recording (u : UI) :
  (forall (env : DeviceEnv) (e : pystr),
      is_recording (core u) = false -> voice_disabled (core u) = false ->
      (device_works env ->
       pulses (widgets (ui_step u (Core (VoiceClick env))))
       = pulses (widgets u) ++ [PulseCreated])
      /\ (start_fails env e ->
          widgets (ui_step u (Core (VoiceClick env))) = widgets u))
  /\ (forall (k : nat) (p : Pulse),
         is_recording (core u) = false -> pulses (widgets u) !! k = Some p ->
         (p <> PulseGrown ->
          ui_step u (PulseWakes k)
          = mkUI (core u) (set_pulses (delete k (pulses (widgets u))) (widgets u)))
         /\ (p = PulseGrown ->
             ui_run u [PulseWakes k; PulseWakes k]
             = mkUI (core u)
                 (set_pulses (delete k (pulses (widgets u)))
                    (set_voice_scale SCALE_1_0 (widgets u))))).
Proof.
  split.
  - intros env e Hrec Hdis. split.
    + intros ((rate & Hq) & Hc & Hstart & _).
      unfold_ui; unfold_goal; cbn. rewrite Hdis; cbn. rewrite Hrec; cbn.
      rewrite Hq; cbn. rewrite Hc; cbn. rewrite Hstart; cbn.
      unfold_goal. prints. reflexivity.
    + intros Hfail. unfold_ui; unfold_goal; cbn.
      rewrite Hdis; cbn. rewrite Hrec; cbn.
      destruct Hfail as [Hq|rate Hq Hc|rate Hq Hc Hstart].
      * rewrite Hq; cbn. unfold_goal. prints. reflexivity.
      * rewrite Hq; cbn. rewrite Hc; cbn. unfold_goal. prints. reflexivity.
      * rewrite Hq; cbn. rewrite Hc; cbn. rewrite Hstart; cbn.
        unfold_goal. prints. reflexivity.
  - intros k p Hrec Hk.
    assert (Hlt : (k < List.length (pulses (widgets u)))%nat)
      by (eapply lookup_lt_Some; exact Hk).
    split.
    + intros Hp. unfold_ui; unfold_goal; cbn. rewrite Hk; cbn.
      destruct p; [|congruence|]; cbn; rewrite Hrec; cbn; reflexivity.
    + intros ->. cbn [ui_run fold_left].
      assert (H1 : ui_step u (PulseWakes k)
                   = mkUI (core u)
                       (set_pulses (<[k:=PulseShrunk]> (pulses (widgets u)))
                          (set_voice_scale SCALE_1_0 (widgets u)))).
      { unfold_ui; unfold_goal; cbn. rewrite Hk; cbn. reflexivity. }
      rewrite H1. unfold_ui; unfold_goal; cbn.
      rewrite list_lookup_insert_eq by exact Hlt. cbn. rewrite Hrec; cbn.
      rewrite delete_insert_lt by exact Hlt. reflexivity.
Qed.

Lemma animation_follows_recording_witness :
  let u := ui_run initial_ui
             [Core (VoiceClick mic); PulseWakes 0; Core (VoiceClick mic)] in
  pulses (widgets u) = [PulseGrown]
  /\ pulses (widgets (ui_run u [PulseWakes 0; PulseWakes 0])) = []
  /\ voice_scale (widgets (ui_run u [PulseWakes 0; PulseWakes 0])) = SCALE_1_0.
Proof.
  intros u. split; [reflexivity|].
  pose proof (animation_follows_recording u) as [_ Hwake].
  destruct (Hwake 0%nat PulseGrown eq_refl eq_refl) as [_ Hgrown].
  rewrite (Hgrown eq_refl). split; reflexivity.
Defined.

(** ** Transcriptions in flight *)

Lemma step_awaits_ok (s : State) (l : Label) :
  Forall await_ok (coros s) -> Forall await_ok (coros (step s l)).
Proof.
  intros Hok. unfold step.
  destruct l as [text| |env|indata|k reset|k r|k|k env|k];
    turn_cases; cbn; norm_coros;
    do 6 try first [ assumption | exact I
                   | apply Forall_app; split | apply Forall_insert
                   | apply Forall_delete | apply Forall_cons; split
                   | apply Forall_nil
                   | eexists; reflexivity
                   | split; [exact (temp_path_truthy env)|];
                     exists (gettempdir env); reflexivity ].
Qed.

(** X18: however the turns interleave, [transcribe_audio] is called by
    [on_voice_click] with a path that is not empty -- the file
    [voice_input.wav] of the temporary directory, the same for every
    recording -- so that its first test never returns early there; and the
    [await] of the transcription never receives an exception, only a
    text. *)
Theorem transcription_never_raises (ls : list Label) :
  forall (k : nat) (c : Coroutine),
    coros (run initial ls) !! k = Some c ->
    match c with
    | VoiceAwaitTranscribe p =>
      Py.truthy p = true
      /\ exists dir, p = Py.path_join dir (Py.lit "voice_input.wav")
    | VoiceTranscribed r => exists text, r = Ok text
    | _ => True
    end.
Proof.
  assert (Hinv : forall s, Forall await_ok (coros s) ->
                           Forall await_ok (coros (run s ls))).
  { induction ls as [|l ls IH]; intros s Hok; [exact Hok|].
    rewrite run_cons. apply IH. apply step_awaits_ok. exact Hok. }
  intros k c Hk.
  assert (Hok : Forall await_ok (coros (run initial ls)))
    by (apply Hinv; constructor).
  exact (proj1 (Forall_lookup _ _) Hok k c Hk).
Qed.

Lemma transcription_never_raises_witness :
  exists text, @Py.Ok pystr [] = Ok text.
Proof.
  exact (transcription_never_raises
           [VoiceClick mic; AudioCallback [1]; VoiceClick mic;
            TranscribeRuns 0 unauthorized] 0
           (VoiceTranscribed (Ok [])) eq_refl).
Defined.

(** ** The alphabet of the log *)

Ltac event :=
  unfold is_event;
  repeat first [ left; solve [reflexivity | eexists; reflexivity] | right ];
  solve [reflexivity | eexists; reflexivity].

Lemma step_log_events (s : State) (l : Label) :
  exists lines, log (step s l) = log s ++ lines /\ Forall is_event lines.
Proof.
  unfold step. destruct l; turn_cases;
    first [ exists []; rewrite app_nil_r; split; [reflexivity|constructor]
          | rewrite <- ?app_assoc; eexists; split; [reflexivity|];
            repeat (constructor; [event|]); constructor ].
Qed.

(** X19: whatever happens, the log holds lines of twelve kinds only, each
    kind with its fixed prefix, colour and weight: listening, transcribing,
    the transcribed text, the failed transcription, the error of the
    transcription service, the sent text, the start of a task, the waiting
    line, a thought, an action, the final message and an error.  No handler
    writes anything else. *)
Theorem log_holds_events_only (ls : list Label) :
  Forall is_event (log (run initial ls)).
Proof.
  assert (Hinv : forall s, Forall is_event (log s) ->
                           Forall is_event (log (run s ls))).
  { induction ls as [|l ls IH]; intros s Hok; [exact Hok|].
    rewrite run_cons. apply IH.
    destruct (step_log_events s l) as (lines & -> & Hlines).
    apply Forall_app. split; assumption. }
  apply Hinv. constructor.
Qed.

(** ** Failures of a stage *)

(** X20: the errors of the stages that standard output can report are
    caught inside the handler.  Whatever else is in flight, an exception
    of the audio device on opening or on closing a recording, of the file
    system, of the transcription service or of its decoding, and an
    exception of [agent.reset] or [agent.step] whose text encodes, is
    written as a failure line; the turn returns normally, the recording
    flag is cleared, the voice button is enabled and the coroutine of the
    stage is over, the others being left as they are.  A transcribed text
    or a step note that [print] cannot encode fails the stage in the same
    way, with the error of [print] as its failure line. *)
Theorem stage_errors_are_caught :
  (forall (s : State) (env : DeviceEnv) (e : pystr),
      is_recording s = false -> voice_disabled s = false ->
      start_fails env e ->
      let s' := step s (VoiceClick env) in
      fst (exec (VoiceClick env) s) = Ok tt
      /\ log s' = log s ++ [Errored e]
      /\ is_recording s' = false /\ voice_disabled s' = false
      /\ coros s' = coros s)
  /\ (forall (s : State) (env : DeviceEnv) (e : pystr),
         is_recording s = true -> voice_disabled s = false ->
         stop_fails s env e ->
         let s' := step s (VoiceClick env) in
         fst (exec (VoiceClick env) s) = Ok tt
         /\ log s' = log s ++ [Errored e]
         /\ is_recording s' = false /\ voice_disabled s' = false
         /\ coros s' = coros s)
  /\ (forall (s : State) (k : nat) (p : pystr) (env : AsrEnv) (e : pystr),
         coros s !! k = Some (VoiceAwaitTranscribe p) ->
         Py.truthy p = true -> asr_fails env p e ->
         let s1 := step s (TranscribeRuns k env) in
         let s' := step s1 (VoiceResumes k) in
         fst (exec (TranscribeRuns k env) s) = Ok tt
         /\ fst (exec (VoiceResumes k) s1) = Ok tt
         /\ log s' = log s ++ [AsrError e; TranscriptionFailed]
         /\ agent_calls s' = agent_calls s /\ coros s' = delete k (coros s)
         /\ is_recording s' = is_recording s
         /\ voice_disabled s' = voice_disabled s)
  /\ (forall (s : State) (k : nat) (task e : pystr),
         coros s !! k = Some (TaskScheduled task) ->
         Py.encodable task = true -> Py.encodable e = true ->
         let s' := step s (TaskStarts k (Raise e)) in
         fst (exec (TaskStarts k (Raise e)) s) = Ok tt
         /\ log s' = log s ++ [Started task; Errored e]
         /\ coros s' = delete k (coros s)
         /\ is_recording s' = is_recording s
         /\ voice_disabled s' = voice_disabled s)
  /\ (forall (s : State) (k : nat) (task : pystr) (arg : option pystr)
             (e : pystr),
         coros s !! k = Some (TaskAwaitStep task arg) ->
         Py.encodable e = true ->
         let s1 := step s (StepReturns k (Raise e)) in
         let s' := step s1 (TaskResumes k) in
         fst (exec (StepReturns k (Raise e)) s) = Ok tt
         /\ fst (exec (TaskResumes k) s1) = Ok tt
         /\ log s' = log s ++ [Errored e]
         /\ coros s' = delete k (coros s)
         /\ is_recording s' = is_recording s
         /\ voice_disabled s' = voice_disabled s)
  /\ (forall (s : State) (k : nat) (text : pystr),
         coros s !! k = Some (VoiceTranscribed (Ok text)) ->
         Py.encodable text = false ->
         let s' := step s (VoiceResumes k) in
         fst (exec (VoiceResumes k) s) = Ok tt
         /\ (exists start c run,
                log s' = log s ++ [Errored (Py.unicode_encode_error start c run)])
         /\ agent_calls s' = agent_calls s /\ coros s' = delete k (coros s)
         /\ is_recording s' = false /\ voice_disabled s' = false)
  /\ (forall (s : State) (k : nat) (task : pystr) (r : StepResult),
         coros s !! k = Some (TaskStepped task (Ok r)) ->
         Py.encodable (thinking r) && Py.encodable (action r) = false ->
         let s' := step s (TaskResumes k) in
         fst (exec (TaskResumes k) s) = Ok tt
         /\ (exists start c run lines,
                log s' = log s ++ lines
                           ++ [Errored (Py.unicode_encode_error start c run)]
                /\ (lines = [] \/ lines = [Thinking (thinking r)]))
         /\ agent_calls s' = agent_calls s /\ coros s' = delete k (coros s)).
Proof.
  repeat apply conj.
  - intros s env e Hrec Hdis Hfail.
    destruct (voice_start_fails s env e Hrec Hdis Hfail)
      as (Hret & Hlog & Hrec' & Hdis' & Hcoros' & _).
    cbn zeta. repeat split; assumption.
  - intros s env e Hrec Hdis Hfail.
    destruct (voice_stop_fails s env e Hrec Hdis Hfail)
      as (Hret & Hlog & Hrec' & Hdis' & Hcoros' & _).
    cbn zeta. repeat split; assumption.
  - intros s k p env e Hk Hp Hfail s1 s'.
    split; [apply transcribe_runs_returns|].
    assert (Hlt : (k < List.length (coros s))%nat)
      by (eapply lookup_lt_Some; eauto).
    destruct (transcribe_failure env p e s Hp Hfail) as (s0 & Hrun & Hs0).
    assert (H1 : s1 =
      set_coros (<[k:=VoiceTranscribed (Ok [])]> (coros s))
        (set_log (log s ++ [AsrError e]) s0)).
    { subst s1. unfold step. rewrite (transcribe_runs s k p env Hk), Hrun. cbn.
      destruct Hs0 as [-> | ->]; reflexivity. }
    clearbody s1. subst s1. subst s'. unfold step.
    rewrite voice_resumes_empty
      by (cbn; apply list_lookup_insert_eq; destruct Hs0 as [-> | ->]; exact Hlt).
    cbn. rewrite delete_insert_lt by (destruct Hs0 as [-> | ->]; exact Hlt).
    rewrite <- app_assoc.
    destruct Hs0 as [-> | ->]; repeat split; reflexivity.
  - intros s k task e Hk Htask He s'. subst s'. unfold step.
    rewrite (task_starts_raise s k task e Hk Htask He).
    repeat split; reflexivity.
  - intros s k task arg e Hk He s1 s'.
    assert (Hlt : (k < List.length (coros s))%nat)
      by (eapply lookup_lt_Some; eauto).
    assert (H1 : exec (StepReturns k (Raise e)) s = (Ok tt, s1)).
    { subst s1. unfold step. rewrite (step_runs s k task arg (Raise e) Hk).
      reflexivity. }
    rewrite H1. rewrite (step_runs s k task arg (Raise e) Hk) in H1.
    injection H1 as H1. clearbody s1. subst s1. subst s'. unfold step.
    rewrite (task_resumes_raise _ k task e)
      by (try (cbn; apply list_lookup_insert_eq); assumption).
    cbn. rewrite delete_insert_lt by exact Hlt.
    repeat split; reflexivity.
  - intros s k text Hk Henc s'. subst s'. unfold step.
    destruct (voice_resumes_unprintable s k text Hk Henc)
      as (start & c & run & ->).
    cbn. repeat split; try reflexivity. exists start, c, run. reflexivity.
  - intros s k task r Hk Hr s'. subst s'. unfold step.
    destruct (task_resumes_garbled s k task r Hk Hr)
      as (start & c & run & lines & -> & Hlines).
    cbn. repeat split; try reflexivity.
    exists start, c, run, lines. split; [reflexivity|exact Hlines].
Qed.

Lemma stage_errors_are_caught_witness :
  log (step initial (VoiceClick no_mic))
    = [Errored (Py.lit "Error querying device -1")]
  /\ (let s := run initial [UserTypes (Py.lit "a"); SendMessage;
                            TaskStarts 0 (Ok tt)] in
      let s' := run s [StepReturns 0 (Raise (Py.lit "timeout")); TaskResumes 0] in
      log s' = log s ++ [Errored (Py.lit "timeout")] /\ coros s' = [])
  /\ (let s := run initial [VoiceClick mic; AudioCallback [1]; VoiceClick mic] in
      let s' := run s [TranscribeRuns 0 unauthorized; VoiceResumes 0] in
      log s' = log s ++ [AsrError (Py.lit "401 Client Error: Unauthorized");
                         TranscriptionFailed]
      /\ coros s' = []).
Proof.
  pose proof stage_errors_are_caught as (Hstart & _ & Hasr & _ & Hstep & _).
  assert (Hfail : start_fails no_mic (Py.lit "Error querying device -1")).
  { apply query_raises. reflexivity. }
  destruct (Hstart initial no_mic _ eq_refl eq_refl Hfail) as (_ & Hlog & _).
  split; [exact Hlog|]. split.
  - destruct (Hstep (run initial [UserTypes (Py.lit "a"); SendMessage;
                                  TaskStarts 0 (Ok tt)])
                0%nat (Py.lit "a") (Some (Py.lit "a")) (Py.lit "timeout")
                eq_refl eq_refl) as (_ & _ & Hlog' & Hcoros & _).
    split; [exact Hlog'|exact Hcoros].
  - destruct (Hasr (run initial [VoiceClick mic; AudioCallback [1]; VoiceClick mic])
                0%nat (temp_path mic) unauthorized
                (Py.lit "401 Client Error: Unauthorized"))
      as (_ & _ & Hlog' & _ & Hcoros & _).
    + reflexivity.
    + reflexivity.
    + eapply status_fails; [reflexivity|reflexivity| |reflexivity].
      cbn. lia.
    + split; [exact Hlog'|exact Hcoros].
Defined.

(** ** The protocol of a task *)

(** X21: for every submitted text that is not blank, when standard output
    encodes the text, the notes of the steps and the final message, the
    task coroutine first resets the agent, then hands the task text to
    the first step and nothing to every later step; each result is
    reported as its thinking line followed by its acting line; while the
    results are not finished the coroutine keeps waiting for the next
    step, and at the first finished result it writes the final message
    and ends, without a further call. *)
Theorem step_loop_protocol (s : State) (text : pystr)
    (rs : list StepResult) (final : StepResult) :
  Py.strip text <> [] -> Py.encodable text = true ->
  Forall (fun r => finished r = false) rs -> finished final = true ->
  Forall step_printable rs -> step_printable final ->
  Py.encodable (Py.format_opt (message final)) = true ->
  let task := Py.strip text in
  let k := List.length (coros s) in
  let s1 := run s ([UserTypes text; SendMessage; TaskStarts k (Ok tt)]
                     ++ steps_return k rs) in
  let s2 := run s1 [StepReturns k (Ok final); TaskResumes k] in
  agent_calls s1 = agent_calls s ++ [CallReset] ++ steps_received task rs
  /\ log s1 = log s ++ [You task; Started task; Waiting] ++ steps_events rs
  /\ coros s1 = coros s ++ [TaskAwaitStep task (next_arg task rs)]
  /\ agent_calls s2 = agent_calls s1 ++ [CallStep (next_arg task rs)]
  /\ agent_calls s2 = agent_calls s ++ task_calls task rs
  /\ log s2 = log s1 ++ [Thinking (thinking final); Acting (action final);
                         Finished (message final)]
  /\ coros s2 = coros s.
Proof.
  intros Htask Henc Hrs Hfinal Hprs [Ht Ha] Hmsg task k s1 s2.
  assert (Hs1 : s1 =
    set_coros (coros s ++ [TaskAwaitStep task (next_arg task rs)])
      (set_agent_calls (agent_calls s ++ [CallReset] ++ steps_received task rs)
         (set_log (log s ++ [You task; Started task; Waiting] ++ steps_events rs)
            (set_input_value [] s)))).
  { subst s1. rewrite run_app. cbn [run fold_left].
    rewrite (step_exec _ _ _ _ (submit_run s text Htask Henc)).
    erewrite (step_exec _ _ (TaskStarts k _));
      [|apply (task_starts_ok _ k task);
        [cbn; apply list_lookup_middle; reflexivity
        |subst task; rewrite strip_encodable; exact Henc]].
    erewrite (steps_loop rs _ k task (Some task)); [| |exact Hrs|exact Hprs].
    2:{ cbn. apply list_lookup_insert_eq. rewrite length_app. cbn.
        subst k. lia. }
    subst k. destruct rs as [|r rs]; state_eq;
      rewrite ?list_insert_insert_eq; apply insert_snoc. }
  clearbody s1.
  assert (Hk : coros s1 !! k = Some (TaskAwaitStep task (next_arg task rs))).
  { rewrite Hs1. cbn. apply list_lookup_middle. reflexivity. }
  assert (Hs2 : s2 =
    set_coros (coros s)
      (set_agent_calls (agent_calls s1 ++ [CallStep (next_arg task rs)])
         (set_log (log s1 ++ [Thinking (thinking final); Acting (action final);
                              Finished (message final)]) s1))).
  { subst s2. cbn [run fold_left].
    rewrite (step_exec _ _ _ _ (step_runs s1 k task _ (Ok final) Hk)).
    erewrite (step_exec _ _ (TaskResumes k));
      [|apply (task_resumes_finished _ k task final); try assumption; cbn;
        apply list_lookup_insert_eq; eapply lookup_lt_Some; exact Hk].
    state_eq. rewrite delete_insert_lt by (eapply lookup_lt_Some; exact Hk).
    rewrite Hs1. cbn. subst k. apply delete_snoc. }
  clearbody s2. subst s2 s1. cbn.
  repeat (split; [reflexivity|]). split; [|split; reflexivity].
  unfold task_calls. rewrite <- !app_assoc. f_equal. cbn. f_equal.
  destruct rs as [|r rs]; [reflexivity|]. cbn. f_equal.
  symmetry. apply (repeat_cons (List.length rs) (CallStep None)).
Qed.

Lemma step_loop_protocol_witness :
  let s := run initial ([UserTypes (Py.lit " turn on the light ");
                         SendMessage; TaskStarts 0 (Ok tt)]
                          ++ steps_return 0 [plan]) in
  let s' := run s [StepReturns 0 (Ok verify); TaskResumes 0] in
  agent_calls s = [CallReset; CallStep (Some (Py.lit "turn on the light"))]
  /\ agent_calls s' =
       [CallReset; CallStep (Some (Py.lit "turn on the light")); CallStep None]
  /\ coros s' = [].
Proof.
  assert (Htask : Py.strip (Py.lit " turn on the light ") <> []) by discriminate.
  assert (Hrs : Forall (fun r => finished r = false) [plan]).
  { repeat constructor. }
  assert (Hprs : Forall step_printable [plan]).
  { repeat constructor. }
  assert (Hpfinal : step_printable verify) by (split; reflexivity).
  pose proof (step_loop_protocol initial (Py.lit " turn on the light ")
                [plan] verify Htask eq_refl Hrs eq_refl Hprs Hpfinal eq_refl)
    as (Hcalls & _ & _ & _ & Hcalls' & _ & Hcoros).
  split; [exact Hcalls|]. split; [exact Hcalls'|exact Hcoros].
Defined.

(** ** Tasks side by side *)

(** X22: the agent is shared by the tasks, and a step reaches it when its
    worker thread runs: of two tasks started one after the other, the
    agent can receive both calls of [reset] before the first step of
    either, so that the step of the first task follows the [reset] of the
    second. *)
Lemma steps_of_two_tasks_interleave :
  let a := Py.lit "a" in
  let b := Py.lit "b" in
  let s := run initial [UserTypes a; SendMessage; UserTypes b; SendMessage;
                        TaskStarts 0 (Ok tt); TaskStarts 1 (Ok tt)] in
  agent_calls s = [CallReset; CallReset]
  /\ agent_calls (run s [StepReturns 0 (Ok plan); StepReturns 1 (Ok plan)])
     = [CallReset; CallReset; CallStep (Some a); CallStep (Some b)].
Proof. vm_compute. repeat split; reflexivity. Qed.

(** ** What leaves a handler *)

Lemma run_tasks_ok (ls : list Label) :
  forall s, Forall task_ok (coros s) -> Forall task_ok (coros (run s ls)).
Proof.
  induction ls as [|l ls IH]; intros s Hok; [exact Hok|].
  rewrite run_cons. apply IH. apply step_tasks_ok. exact Hok.
Qed.

Lemma run_awaits_ok (ls : list Label) :
  forall s, Forall await_ok (coros s) -> Forall await_ok (coros (run s ls)).
Proof.
  induction ls as [|l ls IH]; intros s Hok; [exact Hok|].
  rewrite run_cons. apply IH. apply step_awaits_ok. exact Hok.
Qed.

(** X23: in every state the event loop can reach, the only exception that
    leaves a handler is the [UnicodeEncodeError] of the [print] in
    [add_log], and it leaves in three places only: [send_message], when the
    text in the field is not blank and does not encode, and the [except]
    clause of [run_agent_task], when the exception of [agent.reset] or of
    [agent.step] it reports has a text that does not encode.  The click
    handler, the audio callback, the transcription and the rest of
    [on_voice_click] always return. *)
Theorem only_print_errors_escape (ls : list Label) (l : Label) (e : pystr) :
  let s := run initial ls in
  fst (exec l s) = Raise e ->
  (exists start c run, e = Py.unicode_encode_error start c run)
  /\ ((l = SendMessage /\ Py.strip (input_value s) <> []
       /\ Py.encodable (input_value s) = false)
      \/ (exists k task e',
             l = TaskStarts k (Raise e')
             /\ coros s !! k = Some (TaskScheduled task)
             /\ Py.encodable e' = false)
      \/ (exists k task e',
             l = TaskResumes k
             /\ coros s !! k = Some (TaskStepped task (Raise e'))
             /\ Py.encodable e' = false)).
Proof.
  intros s Hraise.
  assert (Htasks : Forall task_ok (coros s))
    by (apply run_tasks_ok; constructor).
  assert (Hawaits : Forall await_ok (coros s))
    by (apply run_awaits_ok; constructor).
  destruct (exec_raises l s e Hraise) as [Herr Hwhere].
  split; [exact Herr|].
  destruct Hwhere
    as [[-> Henc] | [(k & reset & task & -> & Hk & Hwhy)
                    | [(k & task & e' & -> & Hk & He)
                      | (k & e' & -> & Hk & He)]]].
  - left. split; [reflexivity|]. split; [|exact Henc].
    intros Hblank. apply blank_encodable in Hblank. congruence.
  - right; left.
    pose proof (proj1 (Forall_lookup _ _) Htasks k _ Hk) as [_ Htask].
    destruct Hwhy as [Hbad | (e' & -> & He)]; [congruence|].
    exists k, task, e'. repeat split; assumption.
  - right; right. exists k, task, e'. repeat split; assumption.
  - pose proof (proj1 (Forall_lookup _ _) Hawaits k _ Hk) as (text & Htext).
    discriminate Htext.
Qed.

Lemma only_print_errors_escape_witness :
  exists start c run,
    Py.unicode_encode_error 13 55296 1 = Py.unicode_encode_error start c run.
Proof.
  exact (proj1 (only_print_errors_escape [UserTypes lone_surrogate] SendMessage
                  (Py.unicode_encode_error 13 55296 1) eq_refl)).
Defined.
